(** * hug_swagger: OpenAPI document generation for hug applications

    A shallow embedding of the two generators of the repository,

    - [hug_swagger/__init__.py] (module [HugSwagger] below): the
      generator with [get_parameters], [get_operation] and the
      [swagger_json] endpoint, built on the [spec.definition] /
      [spec.add_path] interface of apispec;
    - [hug_swagger/swagger.py] (module [Swagger] below): the generator
      with [get_parameters] and [generate_spec], built on
      [spec.components.schema] / [spec.path];

    and of the decorators of [swagger.py] that attach response metadata
    to a handler (module [Decorators]), followed by the properties of
    the specification that concern them.

    Python objects that the generators mutate live in an explicit store:
    marshmallow [fields.Field] objects (their [metadata] and [required]
    attributes are assigned by [get_parameters]) and the per-status-code
    response dictionaries attached to a handler by the [response]
    decorators (shared between the handler and the mapping that
    [get_operation] returns). *)

From Stdlib Require Import ZArith String Ascii List Bool Lia.
From stdpp Require Import base option list gmap strings pretty.

Import ListNotations.
Local Open Scope string_scope.
Local Open Scope Z_scope.

(** ** Python values *)

Module Py.

(** References into the object store. *)
Definition loc := nat.

(** A marshmallow schema class: [__module__], [__name__] and its
    declared fields (name and field type), which determine the
    definition that apispec derives from it. *)
Record schema_class := SchemaClass {
  cls_module : string;
  cls_name : string;
  cls_fields : list (string * string)
}.

(** The values that occur as annotations, defaults, option values and
    entries of parameter and response dictionaries. *)
Inductive pyval :=
| PyNone
| PyBool (b : bool)
| PyInt (z : Z)
| PyStr (s : string)
| PyStrs (ss : list string)        (* a tuple or list of strings *)
| PyField (l : loc)                (* a [fields.Field] instance *)
| PySchema (c : schema_class)      (* an instance of schema class [c] *)
| PySchemaMeta (c : schema_class)  (* the schema class [c] itself *)
| PyDirective (name : string)      (* an object whose [directive] attribute is true *)
| PyRef (target : string)          (* the dictionary [{"$ref": target}] *)
| PyObject (repr : string).        (* any other object *)

(** A [fields.Field] object: its field type and the two attributes
    the generators assign. *)
Record field := Field {
  f_kind : string;
  f_required : bool;
  f_metadata : gmap string pyval
}.

Definition set_metadata (m : gmap string pyval) (f : field) : field :=
  {| f_kind := f_kind f; f_required := f_required f; f_metadata := m |}.

Definition set_required (b : bool) (f : field) : field :=
  {| f_kind := f_kind f; f_required := b; f_metadata := f_metadata f |}.

(** [needle in hay] on [str]. *)
Fixpoint str_in (needle hay : string) : bool :=
  String.prefix needle hay ||
  match hay with
  | EmptyString => false
  | String _ rest => str_in needle rest
  end.

(** [s.startswith(p)] and [s.endswith(p)]. *)
Definition startswith (s p : string) : bool := String.prefix p s.

Definition endswith (s p : string) : bool :=
  String.prefix (String.rev p) (String.rev s).

(** [s.lower()] on ASCII letters. *)
Definition lower_ascii (a : ascii) : ascii :=
  let n := nat_of_ascii a in
  if (65 <=? n)%nat && (n <=? 90)%nat then ascii_of_nat (n + 32) else a.

Fixpoint lower (s : string) : string :=
  match s with
  | EmptyString => EmptyString
  | String a rest => String (lower_ascii a) (lower rest)
  end.

(** [s.split("\n")[0]]. *)
Fixpoint first_line (s : string) : string :=
  match s with
  | EmptyString => EmptyString
  | String a rest =>
      if Ascii.eqb a "010"%char then EmptyString else String a (first_line rest)
  end.

(** [getattr(v, "directive", False)] for an annotation; [None] is
    [inspect.Parameter.empty]. *)
Definition directive_attr (v : option pyval) : bool :=
  match v with
  | Some (PyDirective _) => true
  | _ => false
  end.

(** Insertion-ordered dictionaries whose iteration order the code
    observes: association lists with unique keys. *)
Section Dict.
Context {K V : Type} `{EqDecision K}.

Fixpoint dict_get (k : K) (d : list (K * V)) : option V :=
  match d with
  | [] => None
  | (k', v) :: rest => if decide (k' = k) then Some v else dict_get k rest
  end.

(** [d[k] = v]: replaces in place, or appends a new key. *)
Fixpoint dict_set (k : K) (v : V) (d : list (K * V)) : list (K * V) :=
  match d with
  | [] => [(k, v)]
  | (k', v') :: rest =>
      if decide (k' = k) then (k, v) :: rest else (k', v') :: dict_set k v rest
  end.

Definition dict_keys (d : list (K * V)) : list K := map fst d.
End Dict.

End Py.

Import Py.

(** ** The document builder (apispec) and the store *)

(** apispec is a collaborator of the generators; the part of its
    behaviour they rely on is written out here: the registry of named
    schema definitions, the table of paths, and the document
    [to_dict()] returns. *)
Module APISpec.

(** One operation object: the [methods_data] / [handler_spec]
    dictionary built per route.  Its keys are fixed by the code, each
    optional key is present or not. *)
Record operation := Operation {
  op_content_type : string;
  op_summary : option string;
  op_description : option string;
  op_parameters : option (list (gmap string pyval));
  op_responses : option (list (Z * loc))
}.

(** The state of an [APISpec] object.  [schemas] is the registry of
    named schema definitions ([definitions] in the 2.x dialect,
    [components.schemas] in 3.x); a registered schema instance is
    recorded by its class. *)
Record t := Make {
  title : string;
  version : option string;
  openapi_version : string;
  options : gmap string pyval;
  paths : gmap string (gmap string operation);
  schemas : gmap string schema_class
}.

(** The object [APISpec(title=..., version=..., openapi_version=...,
    **options)] builds, for a version string it accepts. *)
Definition new (title : string) (version : option string)
    (openapi_version : string) (options : gmap string pyval) : t :=
  {| title := title; version := version; openapi_version := openapi_version;
     options := options; paths := ∅; schemas := ∅ |}.

Definition with_schemas (s : gmap string schema_class) (spec : t) : t :=
  {| title := title spec; version := version spec;
     openapi_version := openapi_version spec; options := options spec;
     paths := paths spec; schemas := s |}.

Definition with_paths (p : gmap string (gmap string operation)) (spec : t) : t :=
  {| title := title spec; version := version spec;
     openapi_version := openapi_version spec; options := options spec;
     paths := p; schemas := schemas spec |}.

(** [self._paths.setdefault(path, operations).update(operations)]
    for [operations = {method: data}]. *)
Definition put_path (path method : string) (data : operation) (spec : t) : t :=
  with_paths
    (<[path := <[method := data]> (default ∅ (paths spec !! path))]> (paths spec))
    spec.

(** The document dialect selected by the OpenAPI version string. *)
Inductive dialect := Swagger2 | OpenAPI3.

Definition dialect_of (openapi_version : string) : dialect :=
  if String.prefix "2" openapi_version then Swagger2 else OpenAPI3.

(** [paths[path][method]] of the document under construction. *)
Definition operation_at (spec : t) (path method : string) : option operation :=
  match paths spec !! path with
  | Some operations => operations !! method
  | None => None
  end.

(** The mapping returned by [to_dict()]: [info], the dialect key
    ([swagger] or [openapi]) with the version string, the options at
    the root ([host], [schemes], ...), [paths] and the registered
    schema definitions. *)
Record document := Document {
  info_title : string;
  info_version : option string;
  doc_dialect : dialect;
  doc_dialect_version : string;
  root : gmap string pyval;
  doc_paths : gmap string (gmap string operation);
  doc_schemas : gmap string schema_class
}.

(** The options are at the root of the mapping as long as none of
    them is named like a key [to_dict()] writes itself; an option of
    such a name is merged into that entry instead. *)
Definition own_keys : list string :=
  ["info"; "paths"; "tags"; "swagger"; "openapi"; "definitions"; "parameters";
   "responses"; "securityDefinitions"; "components"].

Definition to_dict (spec : t) : document :=
  {| info_title := title spec; info_version := version spec;
     doc_dialect := dialect_of (openapi_version spec);
     doc_dialect_version := openapi_version spec;
     root := options spec;
     doc_paths := paths spec; doc_schemas := schemas spec |}.

End APISpec.

(** Severity and content of a [logger] call. *)
Inductive log_level := INFO | ERROR.

Record log_record := LogRecord {
  log_lvl : log_level;
  log_msg : string;
  log_args : list pyval
}.

(** The store: field objects, response dictionaries, the [APISpec]
    object of the running generation, and the log. *)
Record state := State {
  st_fields : gmap loc field;
  st_dicts : gmap loc (gmap string pyval);
  st_spec : APISpec.t;
  st_log : list log_record
}.

Definition with_fields (h : gmap loc field) (st : state) : state :=
  {| st_fields := h; st_dicts := st_dicts st; st_spec := st_spec st; st_log := st_log st |}.

Definition with_dicts (h : gmap loc (gmap string pyval)) (st : state) : state :=
  {| st_fields := st_fields st; st_dicts := h; st_spec := st_spec st; st_log := st_log st |}.

Definition with_spec (s : APISpec.t) (st : state) : state :=
  {| st_fields := st_fields st; st_dicts := st_dicts st; st_spec := s; st_log := st_log st |}.

Definition with_log (l : list log_record) (st : state) : state :=
  {| st_fields := st_fields st; st_dicts := st_dicts st; st_spec := st_spec st; st_log := l |}.

(** Exceptions.  [DanglingReference] is the failure of the model on a
    store that does not hold an object a value refers to; Python has no
    such state. *)
Inductive exn :=
| KeyError (key : string)
| DuplicateComponentNameError (name : string)
| APISpecError (message : string)
| ImportError (name : string)
| DanglingReference (l : loc).

(** A computation either returns a value or raises, in both cases with
    the store it has reached. *)
Inductive result (A : Type) :=
| Ok (a : A) (st : state)
| Raise (e : exn) (st : state).

Arguments Ok {A} a st.
Arguments Raise {A} e st.

Definition M (A : Type) : Type := state -> result A.

Definition ret {A} (a : A) : M A := fun st => Ok a st.

Definition bind {A B} (c : M A) (k : A -> M B) : M B :=
  fun st =>
    match c st with
    | Ok a st' => k a st'
    | Raise e st' => Raise e st'
    end.

Definition raise {A} (e : exn) : M A := fun st => Raise e st.

Notation "'let*' x ':=' c 'in' k" := (bind c (fun x => k))
  (at level 10, x pattern, c at level 100, k at level 200).
Notation "c ';;' k" := (bind c (fun _ => k))
  (at level 100, k at level 200, right associativity).

(** [try: c  except DuplicateComponentNameError: pass]. *)
Definition except_duplicate (c : M unit) : M unit :=
  fun st =>
    match c st with
    | Raise (DuplicateComponentNameError _) st' => Ok tt st'
    | r => r
    end.

Definition read_field (l : loc) : M field :=
  fun st =>
    match st_fields st !! l with
    | Some f => Ok f st
    | None => Raise (DanglingReference l) st
    end.

Definition write_field (l : loc) (f : field) : M unit :=
  fun st => Ok tt (with_fields (<[l := f]> (st_fields st)) st).

Definition read_dict (l : loc) : M (gmap string pyval) :=
  fun st =>
    match st_dicts st !! l with
    | Some d => Ok d st
    | None => Raise (DanglingReference l) st
    end.

(** A new dictionary object with the entries [d]. *)
Definition new_dict (d : gmap string pyval) : M loc :=
  fun st =>
    let l := fresh (dom (st_dicts st)) in
    Ok l (with_dicts (<[l := d]> (st_dicts st)) st).

(** [obj[key] = v] on the dictionary at [l]. *)
Definition dict_setitem (l : loc) (key : string) (v : pyval) : M unit :=
  let* d := read_dict l in
  fun st => Ok tt (with_dicts (<[l := <[key := v]> d]> (st_dicts st)) st).

Definition log (lvl : log_level) (msg : string) (args : list pyval) : M unit :=
  fun st => Ok tt (with_log (st_log st ++ [LogRecord lvl msg args])%list st).

(** [spec.definition(name, schema=schema)]: stores the definition under
    [name], replacing an earlier one. *)
Definition definition (name : string) (c : schema_class) : M unit :=
  fun st =>
    Ok tt (with_spec (APISpec.with_schemas (<[name := c]> (APISpec.schemas (st_spec st)))
                        (st_spec st)) st).

(** [spec.components.schema(name, schema=schema)]: raises
    [DuplicateComponentNameError] when [name] is registered already.
    [schemas] records the definitions registered by name; those the
    marshmallow plugin adds on its own for the schemas nested in
    [schema] are not recorded. *)
Definition components_schema (name : string) (c : schema_class) : M unit :=
  fun st =>
    match APISpec.schemas (st_spec st) !! name with
    | Some _ => Raise (DuplicateComponentNameError name) st
    | None => definition name c st
    end.

(** [spec.add_path(path, operations={method: data})]: the operation is
    merged into the path table. *)
Definition add_path (path method : string) (data : APISpec.operation) : M unit :=
  fun st => Ok tt (with_spec (APISpec.put_path path method data (st_spec st)) st).

(** apispec's [clean_operations], which [spec.path] runs on the
    operations it is given: a parameter located in the path is
    required, whatever it said. *)
Definition clean_parameter (p : gmap string pyval) : gmap string pyval :=
  match p !! "in" with
  | Some (PyStr place) =>
      if String.eqb place "path" then <["required" := PyBool true]> p else p
  | _ => p
  end.

Definition clean_operation (data : APISpec.operation) : APISpec.operation :=
  {| APISpec.op_content_type := APISpec.op_content_type data;
     APISpec.op_summary := APISpec.op_summary data;
     APISpec.op_description := APISpec.op_description data;
     APISpec.op_parameters :=
       match APISpec.op_parameters data with
       | Some parameters => Some (map clean_parameter parameters)
       | None => None
       end;
     APISpec.op_responses := APISpec.op_responses data |}.

(** ** The handler interface and the route table *)

(** One entry of [inspect.signature(handler).parameters]; [None] is
    [inspect.Parameter.empty]. *)
Record sig_parameter := SigParameter {
  p_name : string;
  p_annotation : option pyval;
  p_default : option pyval
}.

(** [interface.documentation()]: the output content type and the
    [usage] entry, present when the handler has a docstring. *)
Record documentation := Documentation {
  doc_content_type : string;
  doc_usage : option string
}.

(** A hug interface with the handler it wraps: the handler's signature,
    its return annotation, the [swagger_responses] attribute attached
    by the response decorators (status code to dictionary object), and
    hug's own [parameters] and [defaults]. *)
Record Interface := MkInterface {
  i_signature : list sig_parameter;
  i_return_annotation : option pyval;
  i_swagger_responses : option (list (Z * loc));
  i_parameters : list string;
  i_defaults : gmap string pyval;
  i_documentation : documentation
}.

(** A version is an integer or [None]; the key of a versions table is
    one version or a collection of them. *)
Definition version := option Z.

Inductive versions_key :=
| OneVersion (v : version)
| Versions (vs : list version).

(** [url -> method -> versions -> interface]. *)
Definition route_table :=
  list (string * list (string * list (versions_key * Interface))).

(** [hug_api.http.routes]: base url to route table. *)
Record API := MkAPI { http_routes : list (string * route_table) }.

(** [acc = init; for x in xs: acc = body(acc, x)], in the monad. *)
Fixpoint for_each {A B} (body : B -> A -> M B) (xs : list A) (acc : B) : M B :=
  match xs with
  | [] => ret acc
  | x :: rest => let* acc' := body acc x in for_each body rest acc'
  end.

(** [obj.attr = ...] on the field object at [l]. *)
Definition modify_field (l : loc) (f : field -> field) : M unit :=
  let* old := read_field l in write_field l (f old).

Definition get_spec : M APISpec.t := fun st => Ok (st_spec st) st.

Definition put_spec (spec : APISpec.t) : M unit := fun st => Ok tt (with_spec spec st).

(** The [body] parameter dictionary both generators emit. *)
Definition body_parameter (ref_definition : string) : gmap string pyval :=
  {[ "in" := PyStr "body"; "name" := PyStr "body";
     "required" := PyBool true; "schema" := PyRef ref_definition ]}.

(** [parameters] / [responses] are attached to an operation only when
    non-empty ([if parameters:]). *)
Definition if_nonempty {A} (l : list A) : option (list A) :=
  match l with
  | [] => None
  | _ => Some l
  end.

(** [l.append(x)]. *)
Definition append {A} (l : list A) (x : A) : list A := (l ++ [x])%list.

(** ** hug_swagger/swagger.py *)

Module Swagger.

Definition DEFAULT_HOST : string := "localhost:8080".
Definition DEFAULT_SCHEMES : list string := ["http"].
Definition DEFAULT_OPENAPI_VERSION : string := "3.0.2".
Definition DEFAULT_TITLE : string := "Swagger Documentation for your application".

Definition PARAMETER_IN_PATH : string := "path".
Definition PARAMETER_IN_QUERY : string := "query".

Definition get_summary (doc : option string) : option string :=
  match doc with
  | Some d => Some (first_line d)
  | None => None
  end.

Definition get_parameter_location (name url : string) : string :=
  if str_in ("{" +:+ name +:+ "}") url then PARAMETER_IN_PATH else PARAMETER_IN_QUERY.

(** The arguments [get_parameters] passes over: directives and the
    helper arguments hug supplies itself. *)
Definition skipped (name : string) (parameter_kind : option pyval) : bool :=
  directive_attr parameter_kind || startswith name "hug_"
  || bool_decide (name ∈ ["request"; "response"]).

(** [f"{schema.__module__}.{schema.__class__.__name__}"]. *)
Definition schema_name (c : schema_class) : string :=
  cls_module c +:+ "." +:+ cls_name c.

Section Generator.

(** [OpenAPIConverter(openapi_version=...).field2parameter(field,
    name=..., default_in=...)]: apispec's conversion of a field to a
    parameter dictionary, a collaborator of the generator. *)
Variable OpenAPIConverter : string -> field -> string -> string -> gmap string pyval.

(** What apispec refuses, collaborators of the generator as well: the
    exception [APISpec(...)] raises for an OpenAPI version string, and
    the exception [spec.path(path, operations={method: ...})] raises
    under that version for a path and a method (a missing path
    template, a method that is none of the dialect), if any. *)
Variable refused_version : string -> option exn.
Variable refused_path : string -> string -> string -> option exn.

(** The body of the loop of [get_parameters], for one entry of the
    handler's signature. *)
Definition classify (openapi_version url : string)
    (parameters : list (gmap string pyval)) (handler_parameter : sig_parameter)
    : M (list (gmap string pyval)) :=
  let name := p_name handler_parameter in
  let parameter_kind := p_annotation handler_parameter in
  if skipped name parameter_kind then ret parameters
  else
    match parameter_kind with
    | Some (PyField l) =>
        let parameter_place := get_parameter_location name url in
        modify_field l (set_metadata {[ "location" := PyStr parameter_place ]}) ;;
        let* f := read_field l in
        let parameter := OpenAPIConverter openapi_version f name parameter_place in
        let '(parameter, required) :=
          match p_default handler_parameter with
          | Some d => (<["default" := d]> parameter, false)
          | None => (parameter, true)
          end in
        ret (append parameters (<["required" := PyBool required]> parameter))
    | Some (PySchema c) | Some (PySchemaMeta c) =>
        if String.eqb name "body" then
          let schema_name := schema_name c in
          except_duplicate (components_schema schema_name c) ;;
          let ref_definition := "#/components/schemas/" +:+ schema_name in
          ret (append parameters (body_parameter ref_definition))
        else ret parameters
    | _ => ret parameters
    end.

Definition get_parameters (openapi_version : string) (interface : Interface)
    (url : string) : M (list (gmap string pyval)) :=
  for_each (classify openapi_version url) (i_signature interface) [].

(** [APISpec(title=title, version=version,
    openapi_version=openapi_version, plugins=..., **options)]. *)
Definition new_spec (title : string) (version : option string)
    (openapi_version : string) (options : gmap string pyval) : M unit :=
  match refused_version openapi_version with
  | Some e => raise e
  | None => put_spec (APISpec.new title version openapi_version options)
  end.

(** [spec.path(url, operations={method: data})]: the operation is
    checked, cleaned, and merged into the path table. *)
Definition path (openapi_version url method : string) (data : APISpec.operation)
    : M unit :=
  match refused_path openapi_version url method with
  | Some e => raise e
  | None => add_path url method (clean_operation data)
  end.

(** The body of the innermost loop of [generate_spec]. *)
Definition document_interface (openapi_version url method : string)
    (interface : Interface) : M unit :=
  let documentation := i_documentation interface in
  let usage :=
    match doc_usage documentation with
    | Some (String a s) => Some (String a s)
    | _ => None                               (* [if usage:] *)
    end in
  let* parameters := get_parameters openapi_version interface url in
  let handler_spec :=
    {| APISpec.op_content_type := doc_content_type documentation;
       APISpec.op_summary := get_summary usage;
       APISpec.op_description := usage;
       APISpec.op_parameters := if_nonempty parameters;
       APISpec.op_responses := None |} in
  path openapi_version url (lower method) handler_spec.

Definition generate_spec (hug_api : API) (title : string) (version : option string)
    (openapi_version host : string) (schemes : list string)
    (options : gmap string pyval) : M APISpec.document :=
  let options := <["schemes" := PyStrs schemes]> (<["host" := PyStr host]> options) in
  new_spec title version openapi_version options ;;
  let routes := http_routes hug_api in
  match routes with
  | [] =>
      let* spec := get_spec in ret (APISpec.to_dict spec)
  | _ =>
      match dict_get "" routes with
      | None => raise (KeyError "")
      | Some relative_routes =>
          for_each (fun _ '(url, route) =>
            for_each (fun _ '(method, versioned_interfaces) =>
              for_each (fun _ '(versions, interface) =>
                document_interface openapi_version url method interface)
                versioned_interfaces tt)
              route tt)
            relative_routes tt ;;
          let* spec := get_spec in ret (APISpec.to_dict spec)
      end
  end.

End Generator.

End Swagger.

(** ** hug_swagger/__init__.py *)

Module HugSwagger.

(** The [settings] object: the class defaults, each of which the
    environment can override. *)
Record Settings := MkSettings {
  HOST : string;
  SCHEMES : list string;
  VERSION : string;
  TITLE : string;
  DEFINITIONS_PATH : option string;
  TESTING_MODE : bool;
  USE_DEFAULT_RESPONSE : bool;
  DESCRIPTION : string
}.

Definition settings : Settings :=
  {| HOST := "localhost:9001"; SCHEMES := ["http"]; VERSION := "0.1";
     TITLE := "Swagger Application"; DEFINITIONS_PATH := None;
     TESTING_MODE := false; USE_DEFAULT_RESPONSE := true; DESCRIPTION := "" |}.

Definition get_summary (description : string) : string := first_line description.

Definition where_is_parameter (name url : string) : string :=
  if str_in ("{" +:+ name +:+ "}") url then "path" else "query".

(** What the loop of [get_operation] does with a [schema] value: the
    name it resolves to, after registering a schema instance or
    class; [None] for a value of another type, which is logged. *)
Definition resolve_schema (schema : pyval) : M (option string) :=
  match schema with
  | PyStr name => ret (Some name)
  | PySchema c => definition (cls_name c) c ;; ret (Some (cls_name c))
  | PySchemaMeta c => definition (cls_name c) c ;; ret (Some (cls_name c))
  | _ => log ERROR "Wrong response schema %s" [schema] ;; ret None
  end.

(** The body of the loop of [get_operation], for one item of
    [responses.items()]. *)
Definition resolve_response (responses : list (Z * loc)) (item : Z * loc)
    : M (list (Z * loc)) :=
  let '(code, l) := item in
  let* d := read_dict l in
  let* response := new_dict d in
  match d !! "schema" with
  | None => ret responses
  | Some schema =>
      let* name := resolve_schema schema in
      match name with
      | Some name =>
          let ref_name := "#/definitions/" +:+ name in
          dict_setitem response "schema" (PyRef ref_name)
      | None => ret tt
      end ;;
      ret (dict_set code response responses)
  end.

(** [responses.setdefault(code, {})]: the dictionary under [code],
    a new empty one when the key is missing. *)
Definition setdefault (code : Z) (responses : list (Z * loc))
    : M (loc * list (Z * loc)) :=
  match dict_get code responses with
  | Some l => ret (l, responses)
  | None => let* l := new_dict ∅ in ret (l, dict_set code l responses)
  end.

(** The part of [get_operation] before its loop: the shallow copy of
    the attached metadata, the return annotation and the default
    response. *)
Definition declared_responses (interface : Interface) (use_default_response : bool)
    : M (list (Z * loc)) :=
  let annotated_response_schema := i_return_annotation interface in
  let responses := default [] (i_swagger_responses interface) in
  let* responses :=
    match annotated_response_schema with
    | Some a =>
        let* (l, responses) := setdefault 200 responses in
        dict_setitem l "schema" a ;;
        ret responses
    | None => ret responses
    end in
  if use_default_response
  then let* (_, responses) := setdefault 200 responses in ret responses
  else ret responses.

(** [get_operation].  The loop assigns [responses[code]] only for the
    code it is visiting, so every item is visited once, with the
    dictionary the mapping held when the loop began. *)
Definition get_operation (interface : Interface) (use_default_response : bool)
    : M (list (Z * loc)) :=
  let* responses := declared_responses interface use_default_response in
  for_each resolve_response responses responses.

Section Generator.

(** [apispec.ext.marshmallow.swagger.field2parameter(field,
    name=..., default_in=..., use_refs=False)], a collaborator of
    the generator. *)
Variable field2parameter : field -> string -> string -> gmap string pyval.

(** The body of the loop of [get_parameters], for one name of
    [interface.parameters]. *)
Definition classify (url : string) (interface : Interface)
    (parameters : list (gmap string pyval)) (name : string)
    : M (list (gmap string pyval)) :=
  let defaults := i_defaults interface in
  match dict_get name (map (fun p => (p_name p, p)) (i_signature interface)) with
  | None => raise (KeyError name)
  | Some p =>
      let parameter_type := p_annotation p in
      if directive_attr parameter_type then
        log INFO "Skip directive: %s for url: %s " [PyStr name; PyStr url] ;;
        ret parameters
      else
        match parameter_type with
        | None =>
            log INFO "There is no type annotation for %s in url: %s"
              [PyStr name; PyStr url] ;;
            ret parameters
        | Some (PyField l) =>
            let parameter_place := where_is_parameter name url in
            modify_field l
              (set_metadata {[ "location" := PyStr (where_is_parameter name url) ]}) ;;
            modify_field l (set_required (bool_decide (defaults !! name = None))) ;;
            let* f := read_field l in
            let parameter := field2parameter f name parameter_place in
            let parameter :=
              match defaults !! name with
              | Some d => <["default" := d]> parameter
              | None => parameter
              end in
            ret (append parameters parameter)
        | Some parameter_type =>
            match parameter_type with
            | PySchema c | PySchemaMeta c =>
                if String.eqb name "body" then
                  let schema_name := cls_name c in
                  definition schema_name c ;;
                  let ref_definition := "#/definitions/" +:+ schema_name in
                  ret (append parameters (body_parameter ref_definition))
                else
                  log ERROR "Use marshmallow fields in url: %s instead of hug: %s %s"
                    [PyStr url; PyStr name; parameter_type] ;;
                  ret parameters
            | _ =>
                log ERROR "Use marshmallow fields in url: %s instead of hug: %s %s"
                  [PyStr url; PyStr name; parameter_type] ;;
                ret parameters
            end
        end
  end.

Definition get_parameters (url : string) (interface : Interface)
    : M (list (gmap string pyval)) :=
  for_each (classify url interface) (i_parameters interface) [].

(** ['/v{}{}'.format(version, url) if version else url]: [None] and
    [0] are false. *)
Definition versioned_url (version : version) (url : string) : string :=
  match version with
  | Some z => if bool_decide (z = 0) then url else "/v" +:+ pretty z +:+ url
  | None => url
  end.

(** [versions] when it is iterable, [[versions]] otherwise. *)
Definition normalize_versions (versions : versions_key) : list version :=
  match versions with
  | OneVersion v => [v]
  | Versions vs => vs
  end.

(** The [methods_data] dictionary of one interface: [summary] and
    [description] when the documentation has a [usage] entry,
    [parameters] and [responses] when they are not empty. *)
Definition methods_data (documentation : documentation)
    (parameters : list (gmap string pyval)) (responses : list (Z * loc))
    : APISpec.operation :=
  {| APISpec.op_content_type := doc_content_type documentation;
     APISpec.op_summary :=
       match doc_usage documentation with
       | Some usage => Some (get_summary usage)
       | None => None
       end;
     APISpec.op_description := doc_usage documentation;
     APISpec.op_parameters := if_nonempty parameters;
     APISpec.op_responses := if_nonempty responses |}.

(** The body of the innermost route loop of [swagger_json]. *)
Definition document_interface (cfg : Settings) (url method : string)
    (versions : versions_key) (interface : Interface) : M unit :=
  let documentation := i_documentation interface in
  let* parameters := get_parameters url interface in
  let* responses := get_operation interface (USE_DEFAULT_RESPONSE cfg) in
  let methods_data := methods_data documentation parameters responses in
  for_each (fun _ version =>
              add_path (versioned_url version url) (lower method) methods_data)
    (normalize_versions versions) tt.

(** [swagger_json]; [import_module] is [importlib.import_module]
    restricted to the schema classes a definitions module exports,
    by attribute name. *)
Definition swagger_json (cfg : Settings)
    (import_module : string -> option (list (string * schema_class)))
    (hug_api : API) : M APISpec.document :=
  put_spec (APISpec.new (TITLE cfg) (Some (VERSION cfg)) "2.0"
              {[ "description" := PyStr (DESCRIPTION cfg);
                 "schemes" := PyStrs (SCHEMES cfg);
                 "host" := PyStr (HOST cfg) ]}) ;;
  match DEFINITIONS_PATH cfg with
  | None => ret tt
  | Some path =>
      match import_module path with
      | None => raise (ImportError path)
      | Some definitions =>
          for_each (fun _ '(name, schema) =>
            if endswith name "Schema"
               && (String.length "Schema" <? String.length name)%nat
            then definition name schema else ret tt)
            definitions tt
      end
  end ;;
  match dict_get "" (http_routes hug_api) with
  | None => raise (KeyError "")
  | Some routes =>
      for_each (fun _ '(url, route) =>
        for_each (fun _ '(method, versioned_interfaces) =>
          for_each (fun _ '(versions, interface) =>
            document_interface cfg url method versions interface)
            versioned_interfaces tt)
          route tt)
        routes tt
  end ;;
  let* spec := get_spec in ret (APISpec.to_dict spec).

End Generator.

End HugSwagger.

(** ** swagger.py: the decorators that attach response metadata *)

Module Decorators.

Definition with_swagger_responses (responses : list (Z * loc)) (handler : Interface)
    : Interface :=
  {| i_signature := i_signature handler;
     i_return_annotation := i_return_annotation handler;
     i_swagger_responses := Some responses;
     i_parameters := i_parameters handler;
     i_defaults := i_defaults handler;
     i_documentation := i_documentation handler |}.

(** [response(response_code, schema, description)(handler)]; [None]
    is Python's [None]. *)
Definition response (response_code : Z) (schema description : option pyval)
    (handler : Interface) : M Interface :=
  let responses := default [] (i_swagger_responses handler) in
  let* l := new_dict ∅ in
  let responses := dict_set response_code l responses in
  match schema with
  | Some schema => dict_setitem l "schema" schema
  | None => ret tt
  end ;;
  match description with
  | Some description => dict_setitem l "description" description
  | None => ret tt
  end ;;
  ret (with_swagger_responses responses handler).

(** [response_codes(code, ...)(handler)]. *)
Definition response_codes (codes : list Z) (handler : Interface) : M Interface :=
  let responses := default [] (i_swagger_responses handler) in
  let* responses :=
    for_each (fun responses code =>
                let* l := new_dict ∅ in ret (dict_set code l responses))
      codes responses in
  ret (with_swagger_responses responses handler).

End Decorators.

(** ** Descriptions of the generators' results

    Pure functions that say, in the words of the specification, what a
    parameter or a response becomes; the theorems below relate them to
    the loops above. *)

(** The placeholder [{name}] occurs in [url]. *)
Definition has_placeholder (name url : string) : Prop :=
  ∃ before after, url = before +:+ ("{" +:+ name +:+ "}") +:+ after.

(** The attributes of a field object that [Swagger.get_parameters]
    never assigns. *)
Definition field_core (f : field) : string * bool := (f_kind f, f_required f).

(** Every field a signature refers to is in the store. *)
Definition fields_closed (h : gmap loc field) (params : list sig_parameter) : Prop :=
  ∀ p l, p ∈ params → p_annotation p = Some (PyField l) → is_Some (h !! l).

Module SwaggerSpec.

(** The [metadata] a relocated field is left with. *)
Definition location_metadata (url : string) (p : sig_parameter) : gmap string pyval :=
  {[ "location" := PyStr (Swagger.get_parameter_location (p_name p) url) ]}.

(** The converter's output for a typed-scalar parameter: the field with
    its location recorded, the parameter's name, the location. *)
Definition converted
    (conv : string -> field -> string -> string -> gmap string pyval)
    (v url : string) (f0 : field) (p : sig_parameter) : gmap string pyval :=
  conv v (set_metadata (location_metadata url p) f0) (p_name p)
    (Swagger.get_parameter_location (p_name p) url).

(** The dictionary a typed-scalar parameter yields: the converter's
    output with [default] and [required]. *)
Definition field_parameter
    (conv : string -> field -> string -> string -> gmap string pyval)
    (v url : string) (f0 : field) (p : sig_parameter) : gmap string pyval :=
  match p_default p with
  | Some d => <["required" := PyBool false]> (<["default" := d]> (converted conv v url f0 p))
  | None => <["required" := PyBool true]> (converted conv v url f0 p)
  end.

(** What one signature entry contributes to the parameter list, the
    fields read from the store [h0]. *)
Definition described
    (conv : string -> field -> string -> string -> gmap string pyval)
    (v url : string) (h0 : gmap loc field) (p : sig_parameter)
    : option (gmap string pyval) :=
  if Swagger.skipped (p_name p) (p_annotation p) then None
  else
    match p_annotation p with
    | Some (PyField l) =>
        match h0 !! l with
        | Some f0 => Some (field_parameter conv v url f0 p)
        | None => None
        end
    | Some (PySchema c) | Some (PySchemaMeta c) =>
        if String.eqb (p_name p) "body"
        then Some (body_parameter ("#/components/schemas/" +:+ Swagger.schema_name c))
        else None
    | _ => None
    end.

(** The schema classes registered for a signature, in order. *)
Definition body_schema (p : sig_parameter) : option schema_class :=
  if Swagger.skipped (p_name p) (p_annotation p) then None
  else
    match p_annotation p with
    | Some (PySchema c) | Some (PySchemaMeta c) =>
        if String.eqb (p_name p) "body" then Some c else None
    | _ => None
    end.

(** Registration that keeps an earlier definition of the same name. *)
Definition register (reg : gmap string schema_class) (c : schema_class)
    : gmap string schema_class :=
  match reg !! Swagger.schema_name c with
  | Some _ => reg
  | None => <[Swagger.schema_name c := c]> reg
  end.

(** The field object a signature entry relocates, if any. *)
Definition relocated (p : sig_parameter) : option loc :=
  if Swagger.skipped (p_name p) (p_annotation p) then None
  else
    match p_annotation p with
    | Some (PyField l) => Some l
    | _ => None
    end.

(** The store after one signature entry has been classified. *)
Definition after (url : string) (st : state) (p : sig_parameter) : state :=
  match relocated p, body_schema p with
  | Some l, _ =>
      match st_fields st !! l with
      | Some f => with_fields (<[l := set_metadata (location_metadata url p) f]> (st_fields st)) st
      | None => st
      end
  | None, Some c =>
      match APISpec.schemas (st_spec st) !! Swagger.schema_name c with
      | Some _ => st
      | None =>
          with_spec (APISpec.with_schemas
                       (<[Swagger.schema_name c := c]> (APISpec.schemas (st_spec st)))
                       (st_spec st)) st
      end
  | None, None => st
  end.

End SwaggerSpec.


Module HugSpec.

(** [sig.parameters[name]]. *)
Definition signature_entry (interface : Interface) (name : string) : option sig_parameter :=
  dict_get name (map (fun p => (p_name p, p)) (i_signature interface)).

(** The field object as [get_parameters] leaves it: [metadata] and
    [required] assigned. *)
Definition relocate (url : string) (interface : Interface) (name : string)
    (f0 : field) : field :=
  set_required (bool_decide (i_defaults interface !! name = None))
    (set_metadata {[ "location" := PyStr (HugSwagger.where_is_parameter name url) ]} f0).

(** The converter's output for a typed-scalar parameter. *)
Definition converted (conv : field -> string -> string -> gmap string pyval)
    (url : string) (interface : Interface) (name : string) (f0 : field)
    : gmap string pyval :=
  conv (relocate url interface name f0) name (HugSwagger.where_is_parameter name url).

(** The dictionary a typed-scalar parameter yields: the converter's
    output, with [default] when the parameter has one. *)
Definition field_parameter (conv : field -> string -> string -> gmap string pyval)
    (url : string) (interface : Interface) (name : string) (f0 : field)
    : gmap string pyval :=
  match i_defaults interface !! name with
  | Some d => <["default" := d]> (converted conv url interface name f0)
  | None => converted conv url interface name f0
  end.

(** What one parameter name contributes to the parameter list, the
    fields read from the store [h0]. *)
Definition described (conv : field -> string -> string -> gmap string pyval)
    (url : string) (interface : Interface) (h0 : gmap loc field) (name : string)
    : option (gmap string pyval) :=
  match signature_entry interface name with
  | None => None
  | Some p =>
      if directive_attr (p_annotation p) then None
      else
        match p_annotation p with
        | Some (PyField l) =>
            match h0 !! l with
            | Some f0 => Some (field_parameter conv url interface name f0)
            | None => None
            end
        | Some (PySchema c) | Some (PySchemaMeta c) =>
            if String.eqb name "body"
            then Some (body_parameter ("#/definitions/" +:+ cls_name c))
            else None
        | _ => None
        end
  end.

(** The field object a parameter name relocates, if any. *)
Definition relocated (interface : Interface) (name : string) : option loc :=
  match signature_entry interface name with
  | Some p =>
      if directive_attr (p_annotation p) then None
      else
        match p_annotation p with
        | Some (PyField l) => Some l
        | _ => None
        end
  | None => None
  end.

(** The schema class a parameter name registers, if any. *)
Definition body_schema (interface : Interface) (name : string) : option schema_class :=
  match signature_entry interface name with
  | Some p =>
      if directive_attr (p_annotation p) then None
      else
        match p_annotation p with
        | Some (PySchema c) | Some (PySchemaMeta c) =>
            if String.eqb name "body" then Some c else None
        | _ => None
        end
  | None => None
  end.

(** The record a parameter name leaves in the log, if any. *)
Definition logged (url : string) (interface : Interface) (name : string)
    : option log_record :=
  match signature_entry interface name with
  | Some p =>
      if directive_attr (p_annotation p)
      then Some (LogRecord INFO "Skip directive: %s for url: %s " [PyStr name; PyStr url])
      else
        match p_annotation p with
        | None =>
            Some (LogRecord INFO "There is no type annotation for %s in url: %s"
                    [PyStr name; PyStr url])
        | Some (PyField l) => None
        | Some parameter_type =>
            match body_schema interface name with
            | Some _ => None
            | None =>
                Some (LogRecord ERROR
                        "Use marshmallow fields in url: %s instead of hug: %s %s"
                        [PyStr url; PyStr name; parameter_type])
            end
        end
  | None => None
  end.

(** Registration that replaces an earlier definition of the same name. *)
Definition register (reg : gmap string schema_class) (c : schema_class)
    : gmap string schema_class :=
  <[cls_name c := c]> reg.

(** The store after one parameter name has been classified. *)
Definition after (url : string) (interface : Interface) (st : state) (name : string)
    : state :=
  let st :=
    match relocated interface name with
    | Some l =>
        match st_fields st !! l with
        | Some f => with_fields (<[l := relocate url interface name f]> (st_fields st)) st
        | None => st
        end
    | None => st
    end in
  let st :=
    match body_schema interface name with
    | Some c =>
        with_spec (APISpec.with_schemas (register (APISpec.schemas (st_spec st)) c)
                     (st_spec st)) st
    | None => st
    end in
  match logged url interface name with
  | Some r => with_log (st_log st ++ [r])%list st
  | None => st
  end.

(** A [schema] value resolved by [get_operation]: the registered name
    it stands for, [None] for a value of another type. *)
Definition schema_name (schema : pyval) : option string :=
  match schema with
  | PyStr name => Some name
  | PySchema c | PySchemaMeta c => Some (cls_name c)
  | _ => None
  end.

(** A response dictionary as [get_operation] returns it. *)
Definition resolved (d : gmap string pyval) : gmap string pyval :=
  match d !! "schema" with
  | Some schema =>
      match schema_name schema with
      | Some name => <["schema" := PyRef ("#/definitions/" +:+ name)]> d
      | None => d
      end
  | None => d
  end.

(** The dictionary a mapping holds for a status code. *)
Definition response_at (st : state) (responses : list (Z * loc)) (code : Z)
    : option (gmap string pyval) :=
  match dict_get code responses with
  | Some l => st_dicts st !! l
  | None => None
  end.

(** Every dictionary a mapping refers to is in the store. *)
Definition responses_closed (st : state) (responses : list (Z * loc)) : Prop :=
  ∀ code l, (code, l) ∈ responses → is_Some (st_dicts st !! l).

End HugSpec.

(** [h] holds the same field objects as [h0], up to [metadata]. *)
Definition same_core (h h0 : gmap loc field) : Prop :=
  ∀ l, fmap (M := option) field_core (h !! l) = fmap (M := option) field_core (h0 !! l).

(** [h] holds the same field objects as [h0], up to [metadata] and
    [required]. *)
Definition same_kind (h h0 : gmap loc field) : Prop :=
  ∀ l, fmap (M := option) f_kind (h !! l) = fmap (M := option) f_kind (h0 !! l).

(** Every name hug lists for the interface is in the handler's signature. *)
Definition parameters_declared (interface : Interface) (names : list string) : Prop :=
  ∀ name, name ∈ names → is_Some (HugSpec.signature_entry interface name).

(** Every dictionary of [st] is in [st'], unchanged. *)
Definition dicts_extend (st st' : state) : Prop :=
  ∀ l d, st_dicts st !! l = Some d → st_dicts st' !! l = Some d.


(** A [body] argument annotated with a schema instance or class. *)
Definition schema_body (p : sig_parameter) (c : schema_class) : Prop :=
  p_name p = "body"
  ∧ (p_annotation p = Some (PySchema c) ∨ p_annotation p = Some (PySchemaMeta c)).

(** ** Sample handlers and stores *)

Module Samples.

(** A store with no objects and a new document builder. *)
Definition empty_store : state :=
  {| st_fields := ∅; st_dicts := ∅;
     st_spec := APISpec.new Swagger.DEFAULT_TITLE None Swagger.DEFAULT_OPENAPI_VERSION ∅;
     st_log := [] |}.

(** A converter in the manner of apispec's: the location recorded on
    the field, else the default location; the name; [required] from
    the field; the field type under [schema]. *)
Definition field2parameter (f : field) (name default_in : string) : gmap string pyval :=
  {[ "in" := PyStr match f_metadata f !! "location" with
                   | Some (PyStr place) => place
                   | _ => default_in
                   end;
     "name" := PyStr name;
     "required" := PyBool (f_required f);
     "schema" := PyObject (f_kind f) ]}.

Definition OpenAPIConverter (openapi_version : string) (f : field)
    (name default_in : string) : gmap string pyval :=
  field2parameter f name default_in.

(** Two schema classes of the same name in two modules. *)
Definition users_UserSchema : schema_class :=
  {| cls_module := "app.users"; cls_name := "UserSchema";
     cls_fields := [("id", "Integer"); ("name", "String")] |}.

Definition admin_UserSchema : schema_class :=
  {| cls_module := "app.admin"; cls_name := "UserSchema";
     cls_fields := [("id", "Integer"); ("role", "String")] |}.

Definition json_documentation : documentation :=
  {| doc_content_type := "application/json"; doc_usage := None |}.

(** [@response(200, description="OK")  def handler() -> UserSchema]:
    the attached dictionary for 200 is the object at [0]. *)
Definition annotated_handler : Interface :=
  {| i_signature := []; i_return_annotation := Some (PySchemaMeta users_UserSchema);
     i_swagger_responses := Some [(200, 0%nat)];
     i_parameters := []; i_defaults := ∅; i_documentation := json_documentation |}.

Definition annotated_store : state :=
  with_dicts {[ 0%nat := {[ "description" := PyStr "OK" ]} ]} empty_store.

(** [def listing(user_id: fields.Integer(description="user id"),
                 limit: fields.Integer() = 10)] on [/users/{user_id}];
    the two field objects are at [0] and [1]. *)
Definition user_id_parameter : sig_parameter :=
  {| p_name := "user_id"; p_annotation := Some (PyField 0%nat); p_default := None |}.

Definition limit_parameter : sig_parameter :=
  {| p_name := "limit"; p_annotation := Some (PyField 1%nat);
     p_default := Some (PyInt 10) |}.

Definition user_id_field : field :=
  {| f_kind := "Integer"; f_required := false;
     f_metadata := {[ "description" := PyStr "user id" ]} |}.

Definition limit_field : field :=
  {| f_kind := "Integer"; f_required := false; f_metadata := ∅ |}.

Definition listing_handler : Interface :=
  {| i_signature := [user_id_parameter; limit_parameter];
     i_return_annotation := None; i_swagger_responses := None;
     i_parameters := ["user_id"; "limit"];
     i_defaults := {[ "limit" := PyInt 10 ]};
     i_documentation := json_documentation |}.

Definition listing_store : state :=
  with_fields {[ 0%nat := user_id_field; 1%nat := limit_field ]} empty_store.

Definition listing_url : string := "/users/{user_id}".

(** [def create_user(body: UserSchema)] in [app.users] and
    [def create_admin(body: UserSchema())] in [app.admin]. *)
Definition create_user_handler : Interface :=
  {| i_signature :=
       [{| p_name := "body"; p_annotation := Some (PySchemaMeta users_UserSchema);
           p_default := None |}];
     i_return_annotation := None; i_swagger_responses := None;
     i_parameters := ["body"]; i_defaults := ∅;
     i_documentation := json_documentation |}.

Definition create_admin_handler : Interface :=
  {| i_signature :=
       [{| p_name := "body"; p_annotation := Some (PySchema admin_UserSchema);
           p_default := None |}];
     i_return_annotation := None; i_swagger_responses := None;
     i_parameters := ["body"]; i_defaults := ∅;
     i_documentation := json_documentation |}.

(** [@response(404, schema={"type": "string"}, description="not found")]:
    a schema value that is neither a name nor a schema. *)
Definition not_found_handler : Interface :=
  {| i_signature := []; i_return_annotation := None;
     i_swagger_responses := Some [(404, 0%nat)];
     i_parameters := []; i_defaults := ∅; i_documentation := json_documentation |}.

Definition not_found_store : state :=
  with_dicts {[ 0%nat := {[ "schema" := PyObject "{'type': 'string'}";
                            "description" := PyStr "not found" ]} ]} empty_store.

(** [@response(200, schema="ExplicitSchema", description="OK")
     def handler() -> UserSchema]. *)
Definition explicit_store : state :=
  with_dicts {[ 0%nat := {[ "schema" := PyStr "ExplicitSchema";
                            "description" := PyStr "OK" ]} ]} empty_store.

(** [def ping()]: no argument, no annotation, no attached response. *)
Definition plain_handler : Interface :=
  {| i_signature := []; i_return_annotation := None; i_swagger_responses := None;
     i_parameters := []; i_defaults := ∅; i_documentation := json_documentation |}.

(** Checks in the manner of apispec's: an OpenAPI version is 2.x or
    3.x; a path has a template, and a method is one of the dialect
    ([trace] is one of 3.x only) or an extension. *)
Definition refused_version (openapi_version : string) : option exn :=
  if String.prefix "2." openapi_version || String.prefix "3." openapi_version
  then None
  else Some (APISpecError ("Not a valid OpenAPI version number: " +:+ openapi_version)).

Definition valid_methods (openapi_version : string) : list string :=
  match APISpec.dialect_of openapi_version with
  | APISpec.Swagger2 => ["get"; "post"; "put"; "patch"; "delete"; "head"; "options"]
  | APISpec.OpenAPI3 =>
      ["get"; "post"; "put"; "patch"; "delete"; "head"; "options"; "trace"]
  end.

Definition refused_path (openapi_version url method : string) : option exn :=
  if String.eqb url "" then Some (APISpecError "Path template is not specified.")
  else if bool_decide (method ∈ valid_methods openapi_version)
          || String.prefix "x-" method
  then None
  else Some (APISpecError ("One or more HTTP methods are invalid: " +:+ method)).

End Samples.

(** ** Further descriptions *)

(** The signature with the skipped arguments left out. *)
Definition without_skipped (interface : Interface) : Interface :=
  {| i_signature :=
       List.filter (fun p => negb (Swagger.skipped (p_name p) (p_annotation p)))
         (i_signature interface);
     i_return_annotation := i_return_annotation interface;
     i_swagger_responses := i_swagger_responses interface;
     i_parameters := i_parameters interface;
     i_defaults := i_defaults interface;
     i_documentation := i_documentation interface |}.

(** An argument [swagger.py] documents: a field, or a [body] that is a
    schema instance or class. *)
Definition documentable (p : sig_parameter) : Prop :=
  (∃ l, p_annotation p = Some (PyField l))
  ∨ (p_name p = "body"
     ∧ ∃ c, p_annotation p = Some (PySchema c) ∨ p_annotation p = Some (PySchemaMeta c)).


(** The entries [(url, method, versions, interface)] of a route table,
    in the order the generators visit them. *)
Definition route_entries (routes : route_table)
    : list (string * string * versions_key * Interface) :=
  flat_map (fun '(url, route) =>
    flat_map (fun '(method, versioned_interfaces) =>
      map (fun '(versions, interface) => (url, method, versions, interface))
        versioned_interfaces)
      route)
    routes.

(** Every field the handlers of a route table refer to is in the store. *)
Definition routes_closed (h : gmap loc field) (routes : route_table) : Prop :=
  ∀ url method versions interface,
    (url, method, versions, interface) ∈ route_entries routes →
    fields_closed h (i_signature interface).

(** [spec.path] refuses no entry of the route table. *)
Definition routes_accepted (refused_path : string -> string -> string -> option exn)
    (openapi_version : string) (routes : route_table) : Prop :=
  ∀ url method versions interface,
    (url, method, versions, interface) ∈ route_entries routes →
    refused_path openapi_version url (lower method) = None.

(** No option is named like a key the document has of its own, nor
    like the [plugins] argument, which [generate_spec] passes to
    [APISpec(...)] itself. *)
Definition plain_options (options : gmap string pyval) : Prop :=
  ∀ key, key ∈ "plugins" :: APISpec.own_keys → options !! key = None.

(** [doc["paths"][path][method]]. *)
Definition document_operation (doc : APISpec.document) (path method : string)
    : option APISpec.operation :=
  match APISpec.doc_paths doc !! path with
  | Some operations => operations !! method
  | None => None
  end.

(** The operation [swagger.py] builds for an interface with the
    parameters [parameters]: [summary] and [description] from a
    non-empty [usage]. *)
Definition swagger_operation (interface : Interface)
    (parameters : list (gmap string pyval)) : APISpec.operation :=
  let usage :=
    match doc_usage (i_documentation interface) with
    | Some (String a s) => Some (String a s)
    | _ => None
    end in
  {| APISpec.op_content_type := doc_content_type (i_documentation interface);
     APISpec.op_summary := Swagger.get_summary usage;
     APISpec.op_description := usage;
     APISpec.op_parameters := if_nonempty parameters;
     APISpec.op_responses := None |}.

(** [op] is the operation [swagger.py] builds for an entry of the
    table registered under [path] and [method], the fields read from
    [h0], as [spec.path] cleans it. *)
Definition swagger_documented
    (conv : string -> field -> string -> string -> gmap string pyval)
    (v : string) (h0 : gmap loc field) (routes : route_table)
    (path method : string) (op : APISpec.operation) : Prop :=
  ∃ method' versions interface,
    (path, method', versions, interface) ∈ route_entries routes
    ∧ method = lower method'
    ∧ op = clean_operation
             (swagger_operation interface
                (omap (SwaggerSpec.described conv v path h0) (i_signature interface))).

(** The schema class [c] is that of a [body] argument of the table. *)
Definition body_of_table (routes : route_table) (c : schema_class) : Prop :=
  ∃ url method versions interface p,
    (url, method, versions, interface) ∈ route_entries routes
    ∧ p ∈ i_signature interface ∧ schema_body p c.

(** The document under construction keeps its operations and its
    definitions, possibly replaced. *)
Definition spec_extends (spec spec' : APISpec.t) : Prop :=
  (∀ path method, is_Some (APISpec.operation_at spec path method) →
                  is_Some (APISpec.operation_at spec' path method))
  ∧ (∀ name, is_Some (APISpec.schemas spec !! name) →
             is_Some (APISpec.schemas spec' !! name)).

(** The entry has its operation, and its body schemas are defined. *)
Definition swagger_entry_documented (url method : string) (interface : Interface)
    (spec : APISpec.t) : Prop :=
  is_Some (APISpec.operation_at spec url (lower method))
  ∧ ∀ p c, p ∈ i_signature interface → schema_body p c →
           is_Some (APISpec.schemas spec !! Swagger.schema_name c).

(** The store while [generate_spec] runs over [routes], begun in [st0]:
    the store is [st0] up to the [metadata] of fields and the document;
    the document has the information it began with, and its operations
    are those of the table. *)
Definition swagger_generating
    (conv : string -> field -> string -> string -> gmap string pyval)
    (v : string) (routes : route_table) (st0 st : state) : Prop :=
  same_core (st_fields st) (st_fields st0)
  ∧ st_dicts st = st_dicts st0 ∧ st_log st = st_log st0
  ∧ APISpec.title (st_spec st) = APISpec.title (st_spec st0)
  ∧ APISpec.version (st_spec st) = APISpec.version (st_spec st0)
  ∧ APISpec.openapi_version (st_spec st) = APISpec.openapi_version (st_spec st0)
  ∧ APISpec.options (st_spec st) = APISpec.options (st_spec st0)
  ∧ (∀ path, is_Some (APISpec.paths (st_spec st) !! path) → path ∈ map fst routes)
  ∧ ∀ path method op,
      APISpec.operation_at (st_spec st) path method = Some op →
      swagger_documented conv v (st_fields st0) routes path method op.

(** An application with two routes: [GET /users/{user_id}] and
    [POST /users]. *)
Definition users_api : API :=
  {| http_routes :=
       [("", [(Samples.listing_url,
               [("GET", [(OneVersion None, Samples.listing_handler)])]);
              ("/users",
               [("POST", [(OneVersion None, Samples.create_user_handler)])])])] |}.

(** The status codes [get_operation] declares: the attached codes, and
    [200] after them when it is not attached and the handler has a
    return annotation or the default response is on. *)
Definition declared_codes (interface : Interface) (use_default_response : bool)
    : list Z :=
  let attached := dict_keys (default [] (i_swagger_responses interface)) in
  match i_return_annotation interface, use_default_response with
  | None, false => attached
  | _, _ => if decide (200 ∈ attached) then attached else (attached ++ [200])%list
  end.

(** The schema class the loop of [get_operation] registers for a
    response dictionary, if any. *)
Definition response_class (d : gmap string pyval) : option schema_class :=
  match d !! "schema" with
  | Some (PySchema c) | Some (PySchemaMeta c) => Some c
  | _ => None
  end.

(** The record the loop of [get_operation] leaves in the log for a
    response dictionary, if any. *)
Definition response_error (d : gmap string pyval) : option log_record :=
  match d !! "schema" with
  | Some schema =>
      match HugSpec.schema_name schema with
      | Some _ => None
      | None => Some (LogRecord ERROR "Wrong response schema %s" [schema])
      end
  | None => None
  end.

(** The dictionaries of a mapping, in order. *)
Definition response_dicts (st : state) (responses : list (Z * loc))
    : list (gmap string pyval) :=
  omap (fun item : Z * loc => st_dicts st !! item.2) responses.

(** Every dictionary object of [st] is an object of [st']. *)
Definition dicts_grow (st st' : state) : Prop :=
  ∀ l, is_Some (st_dicts st !! l) → is_Some (st_dicts st' !! l).

(** [spec'] is [spec] but for its schema definitions. *)
Definition schemas_only (spec spec' : APISpec.t) : Prop :=
  APISpec.title spec' = APISpec.title spec
  ∧ APISpec.version spec' = APISpec.version spec
  ∧ APISpec.openapi_version spec' = APISpec.openapi_version spec
  ∧ APISpec.options spec' = APISpec.options spec
  ∧ APISpec.paths spec' = APISpec.paths spec.

(** The dictionary [response(code, schema, description)] attaches:
    the arguments that are not [None], and nothing else. *)
Definition response_descriptor (schema description : option pyval)
    : gmap string pyval :=
  let d :=
    match schema with
    | Some schema => <["schema" := schema]> ∅
    | None => ∅
    end in
  match description with
  | Some description => <["description" := description]> d
  | None => d
  end.

(** The definitions [swagger_json] registers from a definitions
    module before it looks at the routes: the attributes whose name
    ends in [Schema] and is longer than that. *)
Definition preregistered (definitions : list (string * schema_class))
    (reg : gmap string schema_class) : gmap string schema_class :=
  foldl (fun reg '(name, schema) =>
           if endswith name "Schema"
              && (String.length "Schema" <? String.length name)%nat
           then <[name := schema]> reg else reg)
    reg definitions.

(** What [swagger_json] needs of a route table: every name hug lists
    for a handler is in its signature, and the fields and attached
    response dictionaries of the handlers are objects of the store,
    no status code attached twice. *)
Definition hug_routes_closed (st : state) (routes : route_table) : Prop :=
  ∀ url method versions interface,
    (url, method, versions, interface) ∈ route_entries routes →
    parameters_declared interface (i_parameters interface)
    ∧ fields_closed (st_fields st) (i_signature interface)
    ∧ HugSpec.responses_closed st (default [] (i_swagger_responses interface))
    ∧ NoDup (dict_keys (default [] (i_swagger_responses interface))).

(** [op] is the operation [__init__.py] builds for an entry of the
    table and one of its versions, registered under [path] and
    [method], the fields read from [h0]. *)
Definition hug_documented (conv : field -> string -> string -> gmap string pyval)
    (cfg : HugSwagger.Settings) (h0 : gmap loc field) (routes : route_table)
    (path method : string) (op : APISpec.operation) : Prop :=
  ∃ url method' versions interface version responses,
    (url, method', versions, interface) ∈ route_entries routes
    ∧ version ∈ HugSwagger.normalize_versions versions
    ∧ path = HugSwagger.versioned_url version url
    ∧ method = lower method'
    ∧ op = HugSwagger.methods_data (i_documentation interface)
             (omap (HugSpec.described conv url interface h0) (i_parameters interface))
             responses
    ∧ dict_keys responses
      = declared_codes interface (HugSwagger.USE_DEFAULT_RESPONSE cfg).

(** The entry has its operation under each of its versions, and the
    schema of its [body] is defined. *)
Definition hug_entry_documented (url method : string) (versions : versions_key)
    (interface : Interface) (spec : APISpec.t) : Prop :=
  (∀ version, version ∈ HugSwagger.normalize_versions versions →
     is_Some (APISpec.operation_at spec (HugSwagger.versioned_url version url)
                (lower method)))
  ∧ ∀ p c, "body" ∈ i_parameters interface →
           HugSpec.signature_entry interface "body" = Some p →
           schema_body p c →
           is_Some (APISpec.schemas spec !! cls_name c).

(** The store while [swagger_json] runs over [routes], begun in [st0]:
    the fields are those of [st0] up to [metadata] and [required], no
    dictionary object or log record of [st0] is lost, the document has
    the information it began with, and its operations are those of the
    table. *)
Definition hug_generating (conv : field -> string -> string -> gmap string pyval)
    (cfg : HugSwagger.Settings) (routes : route_table) (st0 st : state) : Prop :=
  same_kind (st_fields st) (st_fields st0)
  ∧ dicts_grow st0 st
  ∧ st_log st0 `prefix_of` st_log st
  ∧ APISpec.title (st_spec st) = APISpec.title (st_spec st0)
  ∧ APISpec.version (st_spec st) = APISpec.version (st_spec st0)
  ∧ APISpec.openapi_version (st_spec st) = APISpec.openapi_version (st_spec st0)
  ∧ APISpec.options (st_spec st) = APISpec.options (st_spec st0)
  ∧ (∀ path, is_Some (APISpec.paths (st_spec st) !! path) →
       ∃ url method versions interface version,
         (url, method, versions, interface) ∈ route_entries routes
         ∧ version ∈ HugSwagger.normalize_versions versions
         ∧ path = HugSwagger.versioned_url version url)
  ∧ ∀ path method op,
      APISpec.operation_at (st_spec st) path method = Some op →
      hug_documented conv cfg (st_fields st0) routes path method op.

(** The attributes of the definitions module [swagger_json] reads:
    none when no module is configured, [None] when the import fails. *)
Definition imported (cfg : HugSwagger.Settings)
    (import_module : string -> option (list (string * schema_class)))
    : option (list (string * schema_class)) :=
  match HugSwagger.DEFINITIONS_PATH cfg with
  | None => Some []
  | Some path => import_module path
  end.

(** An application with one route in two versions: [GET /ping]. *)
Definition ping_api : API :=
  {| http_routes :=
       [("", [("/ping",
               [("GET", [(Versions [Some 1; Some 2], Samples.plain_handler)])])])] |}.

(** The settings with a definitions module, and the attributes of that
    module: a schema class, marshmallow's [Schema] itself, and a
    helper. *)
Definition schemas_settings : HugSwagger.Settings :=
  {| HugSwagger.HOST := "localhost:9001"; HugSwagger.SCHEMES := ["http"];
     HugSwagger.VERSION := "0.1"; HugSwagger.TITLE := "Swagger Application";
     HugSwagger.DEFINITIONS_PATH := Some "app.schemas";
     HugSwagger.TESTING_MODE := false; HugSwagger.USE_DEFAULT_RESPONSE := true;
     HugSwagger.DESCRIPTION := "" |}.

Definition schemas_module (name : string) : option (list (string * schema_class)) :=
  if String.eqb name "app.schemas"
  then Some [("UserSchema", Samples.users_UserSchema);
             ("Schema", {| cls_module := "marshmallow.schema"; cls_name := "Schema";
                           cls_fields := [] |});
             ("make_schema", Samples.admin_UserSchema)]
  else None.

(** The line separator of [split("\n")]. *)
Definition newline : string := String "010"%char EmptyString.

(** The document builder after [swagger.py] has documented one entry
    of the route table: the body schemas of the handler registered by
    name, an earlier definition kept, then the cleaned operation put
    under the entry's url and lowercased method. *)
Definition swagger_spec_step
    (conv : string -> field -> string -> string -> gmap string pyval)
    (v : string) (h0 : gmap loc field) (spec : APISpec.t)
    (entry : string * string * versions_key * Interface) : APISpec.t :=
  let '(url, method, _, interface) := entry in
  APISpec.put_path url (lower method)
    (clean_operation
       (swagger_operation interface
          (omap (SwaggerSpec.described conv v url h0) (i_signature interface))))
    (APISpec.with_schemas
       (foldl SwaggerSpec.register (APISpec.schemas spec)
          (omap SwaggerSpec.body_schema (i_signature interface)))
       spec).

(** The document of a route table, as a function of the table, the
    arguments of [generate_spec] and the field objects [h0]. *)
Definition swagger_document
    (conv : string -> field -> string -> string -> gmap string pyval)
    (title : string) (version : option string) (openapi_version host : string)
    (schemes : list string) (options : gmap string pyval)
    (h0 : gmap loc field) (routes : route_table) : APISpec.document :=
  APISpec.to_dict
    (foldl (swagger_spec_step conv openapi_version h0)
       (APISpec.new title version openapi_version
          (<["schemes" := PyStrs schemes]> (<["host" := PyStr host]> options)))
       (route_entries routes)).

(** A decorator of [swagger.py] with its arguments, and a stack of
    decorators over a handler, the one next to the function first. *)
Inductive decoration :=
| Response (response_code : Z) (schema description : option pyval)
| ResponseCodes (codes : list Z).

Definition decorate (handler : Interface) (d : decoration) : M Interface :=
  match d with
  | Response response_code schema description =>
      Decorators.response response_code schema description handler
  | ResponseCodes codes => Decorators.response_codes codes handler
  end.

Definition decorated (decorations : list decoration) (handler : Interface)
    : M Interface :=
  for_each decorate decorations handler.

(** A mapping of attached responses as the decorators build it: its
    dictionaries are objects of the store, no status code occurs
    twice, and no two status codes share a dictionary. *)
Definition well_attached (st : state) (responses : list (Z * loc)) : Prop :=
  HugSpec.responses_closed st responses
  ∧ NoDup (dict_keys responses)
  ∧ NoDup (map snd responses).

(** The dictionary [get_operation] declares for [200], from the one
    attached for [200] if any: with the return annotation as its
    schema, or as it is when the default response is on, an empty one
    when none is attached. *)
Definition declared_at (annotation : option pyval) (use_default_response : bool)
    (attached : option (gmap string pyval)) : option (gmap string pyval) :=
  match annotation with
  | Some a => Some (<["schema" := a]> (default ∅ attached))
  | None => if use_default_response then Some (default ∅ attached) else attached
  end.

(** * Properties *)

(** ** Strings *)

Lemma append_nil_l (s : string) : "" +:+ s = s.
Proof. reflexivity. Qed.

Lemma append_cons (a : ascii) (s t : string) : String a s +:+ t = String a (s +:+ t).
Proof. reflexivity. Qed.

Lemma prefix_app (p s : string) :
  String.prefix p s = true ↔ ∃ post, s = p +:+ post.
Proof.
  revert s. induction p as [|a p IH]; intros s.
  - rewrite append_nil_l || idtac. destruct s; simpl; split; eauto.
  - destruct s as [|b s]; simpl.
    + split; [done | intros [post H]; discriminate].
    + destruct (ascii_dec a b) as [->|Hne].
      * rewrite IH. split; intros [post H]; exists post.
        -- by rewrite append_cons, H.
        -- rewrite append_cons in H. by injection H.
      * split; [done | intros [post H]; rewrite append_cons in H; injection H; congruence].
Qed.

Lemma str_in_spec (needle hay : string) :
  str_in needle hay = true ↔ ∃ pre post, hay = pre +:+ needle +:+ post.
Proof.
  induction hay as [|b hay IH].
  - change (str_in needle "") with (String.prefix needle "" || false).
    rewrite orb_false_r, prefix_app. split.
    + intros [post H]. by exists "", post.
    + intros (pre & post & H). destruct pre as [|a pre].
      * by exists post.
      * rewrite append_cons in H. discriminate.
  - change (str_in needle (String b hay))
      with (String.prefix needle (String b hay) || str_in needle hay).
    rewrite orb_true_iff, prefix_app, IH. split.
    + intros [[post H]|(pre & post & H)].
      * by exists "", post.
      * exists (String b pre), post. by rewrite append_cons, H.
    + intros (pre & post & H). destruct pre as [|a pre].
      * left. by exists post.
      * right. exists pre, post. rewrite append_cons in H. by injection H.
Qed.

Lemma classic_placeholder (name url : string) :
  has_placeholder name url ∨ ¬ has_placeholder name url.
Proof.
  unfold has_placeholder.
  destruct (str_in ("{" +:+ name +:+ "}") url) eqn:E.
  - left. by apply str_in_spec.
  - right. intros H. apply str_in_spec in H. congruence.
Qed.

(** ** The monad *)

Lemma for_each_cons {A B} (body : B → A → M B) (x : A) (xs : list A) (acc : B)
    (st : state) :
  for_each body (x :: xs) acc st =
  match body acc x st with
  | Ok acc' st' => for_each body xs acc' st'
  | Raise e st' => Raise e st'
  end.
Proof. reflexivity. Qed.

(** ** Ordered dictionaries *)

Section DictFacts.

Context {K V : Type} `{EqDecision K}.
Implicit Types (k : K) (v : V) (d : list (K * V)).

Lemma dict_get_set_eq k v d : dict_get k (dict_set k v d) = Some v.
Proof.
  induction d as [|[k' v'] d IH]; simpl; repeat (case_decide; simpl); congruence.
Qed.

Lemma dict_get_set_ne k k' v d : k ≠ k' → dict_get k' (dict_set k v d) = dict_get k' d.
Proof.
  intros Hne.
  induction d as [|[k0 v0] d IH]; simpl; repeat (case_decide; simpl); congruence.
Qed.

Lemma dict_get_elem k v d : dict_get k d = Some v → (k, v) ∈ d.
Proof.
  induction d as [|[k0 v0] d IH]; simpl; [done|].
  destruct (decide (k0 = k)) as [->|Hne].
  - intros [= ->]. apply list_elem_of_here.
  - intros H. apply list_elem_of_further. by apply IH.
Qed.

Lemma dict_get_notin k d : k ∉ dict_keys d → dict_get k d = None.
Proof.
  induction d as [|[k0 v0] d IH]; simpl; [done|].
  intros H. apply not_elem_of_cons in H as [H1 H2].
  case_decide; [congruence | by apply IH].
Qed.

Lemma elem_of_dict_set k v d k' v' :
  (k', v') ∈ dict_set k v d → (k', v') = (k, v) ∨ (k', v') ∈ d.
Proof.
  induction d as [|[k0 v0] d IH]; simpl.
  - intros H. apply list_elem_of_singleton in H. by left.
  - destruct (decide (k0 = k)) as [->|Hne]; intros H;
      apply elem_of_cons in H as [H|H].
    + by left.
    + right. by apply list_elem_of_further.
    + right. rewrite H. apply list_elem_of_here.
    + destruct (IH H) as [?|?]; [by left | right; by apply list_elem_of_further].
Qed.

Lemma dict_keys_set_in k v d :
  k ∈ dict_keys d → dict_keys (dict_set k v d) = dict_keys d.
Proof.
  induction d as [|[k0 v0] d IH]; simpl; intros H.
  - by apply elem_of_nil in H.
  - destruct (decide (k0 = k)) as [->|Hne]; simpl; [done|].
    apply elem_of_cons in H as [H|H]; [congruence|].
    f_equal. by apply IH.
Qed.

Lemma dict_keys_set_notin k v d :
  k ∉ dict_keys d → dict_keys (dict_set k v d) = (dict_keys d ++ [k])%list.
Proof.
  induction d as [|[k0 v0] d IH]; simpl; intros H; [done|].
  apply not_elem_of_cons in H as [H1 H2].
  destruct (decide (k0 = k)) as [->|Hne]; simpl; [done|].
  f_equal. by apply IH.
Qed.

Lemma dict_set_NoDup k v d : NoDup (dict_keys d) → NoDup (dict_keys (dict_set k v d)).
Proof.
  intros H. destruct (decide (k ∈ dict_keys d)) as [Hin|Hout].
  - by rewrite dict_keys_set_in.
  - rewrite dict_keys_set_notin by done.
    apply NoDup_app. split; [done|]. split.
    + intros x Hx Hk. apply list_elem_of_singleton in Hk. congruence.
    + apply NoDup_singleton.
Qed.

End DictFacts.

(** ** The parameter loop of [swagger.py] *)

Lemma same_core_lookup (h h0 : gmap loc field) (l : loc) (f0 : field) :
  same_core h h0 → h0 !! l = Some f0 →
  ∃ f, h !! l = Some f ∧ field_core f = field_core f0.
Proof.
  intros H H0. specialize (H l). rewrite H0 in H. simpl in H.
  destruct (h !! l) as [f|]; simpl in H; [|done].
  exists f. split; [done | congruence].
Qed.

Lemma set_metadata_core (m : gmap string pyval) (f f0 : field) :
  field_core f = field_core f0 → set_metadata m f = set_metadata m f0.
Proof.
  destruct f, f0. unfold field_core, set_metadata. simpl. by intros [= -> ->].
Qed.

Lemma same_core_insert (h h0 : gmap loc field) (l : loc) (f f' : field) :
  same_core h h0 → h !! l = Some f → field_core f' = field_core f →
  same_core (<[l := f']> h) h0.
Proof.
  intros H Hl Hc l'. destruct (decide (l = l')) as [<-|Hne].
  - rewrite lookup_insert_eq, <- H, Hl. simpl. by rewrite Hc.
  - rewrite lookup_insert_ne by done. apply H.
Qed.

Section SwaggerLoop.

Variable conv : string → field → string → string → gmap string pyval.
Variables v url : string.

(** One step of the loop appends what [described] says and leaves the
    store [after] says. *)
Lemma classify_described (acc : list (gmap string pyval)) (p : sig_parameter)
    (st : state) (h0 : gmap loc field) :
  same_core (st_fields st) h0 →
  (∀ l, p_annotation p = Some (PyField l) → is_Some (h0 !! l)) →
  Swagger.classify conv v url acc p st
  = Ok (acc ++ option_list (SwaggerSpec.described conv v url h0 p))%list
       (SwaggerSpec.after url st p).
Proof.
  intros Hcore Hclosed.
  unfold Swagger.classify, SwaggerSpec.described, SwaggerSpec.after,
    SwaggerSpec.relocated, SwaggerSpec.body_schema.
  destruct (Swagger.skipped (p_name p) (p_annotation p)).
  { by rewrite app_nil_r. }
  destruct (p_annotation p) as [[| | | | |l|c|c| | |]|];
    try (by rewrite app_nil_r).
  - destruct (Hclosed l eq_refl) as [f0 Hf0].
    destruct (same_core_lookup _ _ _ _ Hcore Hf0) as (f & Hf & Hc).
    rewrite Hf0, Hf. simpl.
    unfold bind, modify_field, bind, read_field, write_field. rewrite Hf. simpl.
    rewrite lookup_insert_eq.
    unfold SwaggerSpec.field_parameter, SwaggerSpec.converted,
      SwaggerSpec.location_metadata, append.
    rewrite (set_metadata_core _ f f0 Hc).
    by destruct (p_default p).
  - destruct (String.eqb (p_name p) "body"); [|by rewrite app_nil_r].
    unfold bind, except_duplicate, components_schema, definition.
    by destruct (APISpec.schemas (st_spec st) !! Swagger.schema_name c).
  - destruct (String.eqb (p_name p) "body"); [|by rewrite app_nil_r].
    unfold bind, except_duplicate, components_schema, definition.
    by destruct (APISpec.schemas (st_spec st) !! Swagger.schema_name c).
Qed.

Lemma after_same_core (p : sig_parameter) (st : state) (h0 : gmap loc field) :
  same_core (st_fields st) h0 → same_core (st_fields (SwaggerSpec.after url st p)) h0.
Proof.
  intros Hcore. unfold SwaggerSpec.after.
  destruct (SwaggerSpec.relocated p) as [l|].
  - destruct (st_fields st !! l) as [f|] eqn:Hf; [|done].
    simpl. eapply same_core_insert; [done..|]. by destruct f.
  - destruct (SwaggerSpec.body_schema p) as [c|]; [|done].
    by destruct (APISpec.schemas (st_spec st) !! Swagger.schema_name c).
Qed.

Lemma for_each_described (params : list sig_parameter) :
  ∀ (acc : list (gmap string pyval)) (st : state) (h0 : gmap loc field),
  same_core (st_fields st) h0 →
  fields_closed h0 params →
  for_each (Swagger.classify conv v url) params acc st
  = Ok (acc ++ omap (SwaggerSpec.described conv v url h0) params)%list
       (foldl (SwaggerSpec.after url) st params).
Proof.
  induction params as [|p params IH]; intros acc st h0 Hcore Hclosed.
  - simpl. by rewrite app_nil_r.
  - simpl. unfold bind. rewrite (classify_described acc p st h0 Hcore).
    2:{ intros l Hl. eapply Hclosed; [apply list_elem_of_here | done]. }
    rewrite (IH _ _ h0).
    + f_equal. rewrite <- app_assoc. f_equal.
      by destruct (SwaggerSpec.described conv v url h0 p).
    + by apply after_same_core.
    + intros q l Hq. apply Hclosed. by apply list_elem_of_further.
Qed.

(** [get_parameters] returns, and returns the described parameters in
    signature order. *)
Lemma get_parameters_described (interface : Interface) (st : state) :
  fields_closed (st_fields st) (i_signature interface) →
  Swagger.get_parameters conv v interface url st
  = Ok (omap (SwaggerSpec.described conv v url (st_fields st)) (i_signature interface))
       (foldl (SwaggerSpec.after url) st (i_signature interface)).
Proof.
  intros Hclosed. unfold Swagger.get_parameters.
  by apply (for_each_described _ [] st (st_fields st)).
Qed.

End SwaggerLoop.

(** *** What the loop leaves in the store *)

Section SwaggerFrame.

Variable url : string.

Lemma after_unchanged (params : list sig_parameter) (st : state) :
  let st' := foldl (SwaggerSpec.after url) st params in
  st_dicts st' = st_dicts st ∧ st_log st' = st_log st ∧
  APISpec.title (st_spec st') = APISpec.title (st_spec st) ∧
  APISpec.version (st_spec st') = APISpec.version (st_spec st) ∧
  APISpec.openapi_version (st_spec st') = APISpec.openapi_version (st_spec st) ∧
  APISpec.options (st_spec st') = APISpec.options (st_spec st) ∧
  APISpec.paths (st_spec st') = APISpec.paths (st_spec st).
Proof.
  revert st. induction params as [|p params IH]; intros st; simpl; [done|].
  destruct (IH (SwaggerSpec.after url st p)) as (H1 & H2 & H3 & H4 & H5 & H6 & H7).
  rewrite H1, H2, H3, H4, H5, H6, H7. clear.
  unfold SwaggerSpec.after.
  destruct (SwaggerSpec.relocated p) as [l|].
  - by destruct (st_fields st !! l).
  - destruct (SwaggerSpec.body_schema p) as [c|]; [|done].
    by destruct (APISpec.schemas (st_spec st) !! Swagger.schema_name c).
Qed.

Lemma after_schemas_step (st : state) (p : sig_parameter) :
  APISpec.schemas (st_spec (SwaggerSpec.after url st p))
  = match SwaggerSpec.body_schema p with
    | Some c => SwaggerSpec.register (APISpec.schemas (st_spec st)) c
    | None => APISpec.schemas (st_spec st)
    end.
Proof.
  unfold SwaggerSpec.after, SwaggerSpec.relocated, SwaggerSpec.body_schema,
    SwaggerSpec.register.
  destruct (Swagger.skipped (p_name p) (p_annotation p)); [done|].
  destruct (p_annotation p) as [[| | | | |l|c|c| | |]|]; try done.
  - by destruct (st_fields st !! l).
  - destruct (String.eqb (p_name p) "body"); [|done].
    by destruct (APISpec.schemas (st_spec st) !! Swagger.schema_name c).
  - destruct (String.eqb (p_name p) "body"); [|done].
    by destruct (APISpec.schemas (st_spec st) !! Swagger.schema_name c).
Qed.

(** The registry after the loop: the body schemas of the signature,
    registered in order, earlier definitions kept. *)
Lemma after_schemas (params : list sig_parameter) (st : state) :
  APISpec.schemas (st_spec (foldl (SwaggerSpec.after url) st params))
  = foldl SwaggerSpec.register (APISpec.schemas (st_spec st))
      (omap SwaggerSpec.body_schema params).
Proof.
  revert st. induction params as [|p params IH]; intros st; simpl; [done|].
  rewrite IH, after_schemas_step.
  by destruct (SwaggerSpec.body_schema p).
Qed.

Lemma register_keeps (reg : gmap string schema_class) (c c0 : schema_class) (n : string) :
  reg !! n = Some c0 → SwaggerSpec.register reg c !! n = Some c0.
Proof.
  intros H. unfold SwaggerSpec.register.
  destruct (reg !! Swagger.schema_name c) eqn:E; [done|].
  rewrite lookup_insert_ne; [done | congruence].
Qed.

Lemma register_registered (reg : gmap string schema_class) (c : schema_class) :
  is_Some (SwaggerSpec.register reg c !! Swagger.schema_name c).
Proof.
  unfold SwaggerSpec.register.
  destruct (reg !! Swagger.schema_name c) eqn:E; [by rewrite E|].
  by rewrite lookup_insert_eq.
Qed.

Lemma registers_keep (cs : list schema_class) :
  ∀ (reg : gmap string schema_class) (c0 : schema_class) (n : string),
  reg !! n = Some c0 → foldl SwaggerSpec.register reg cs !! n = Some c0.
Proof.
  induction cs as [|c cs IH]; intros reg c0 n H; simpl; [done|].
  apply IH. by apply register_keeps.
Qed.

Lemma registers_registered (cs : list schema_class) :
  ∀ (reg : gmap string schema_class) (c : schema_class),
  c ∈ cs → is_Some (foldl SwaggerSpec.register reg cs !! Swagger.schema_name c).
Proof.
  induction cs as [|c' cs IH]; intros reg c Hc; simpl.
  - by apply elem_of_nil in Hc.
  - apply elem_of_cons in Hc as [->|Hc]; [|by apply IH].
    destruct (register_registered reg c') as [c0 H0].
    exists c0. by apply registers_keep.
Qed.

(** The field objects after the loop: same field type and [required];
    [metadata] replaced for the relocated ones, kept for the others. *)
Lemma after_fields (l : loc) (params : list sig_parameter) :
  ∀ (st : state) (f : field),
  st_fields st !! l = Some f →
  ∃ f', st_fields (foldl (SwaggerSpec.after url) st params) !! l = Some f'
        ∧ field_core f' = field_core f
        ∧ (l ∈ omap SwaggerSpec.relocated params →
           ∃ p, p ∈ params ∧ SwaggerSpec.relocated p = Some l
                ∧ f_metadata f' = SwaggerSpec.location_metadata url p)
        ∧ (l ∉ omap SwaggerSpec.relocated params → f' = f).
Proof.
  induction params as [|p params IH]; intros st f Hf; simpl.
  - exists f. split; [done|]. split; [done|]. split; [|done].
    intros H. by apply elem_of_nil in H.
  - destruct (SwaggerSpec.relocated p) as [l'|] eqn:Hrel.
    + destruct (decide (l' = l)) as [->|Hne].
      * set (f1 := set_metadata (SwaggerSpec.location_metadata url p) f).
        assert (Hf1 : st_fields (SwaggerSpec.after url st p) !! l = Some f1).
        { unfold SwaggerSpec.after. rewrite Hrel, Hf. simpl. by rewrite lookup_insert_eq. }
        destruct (IH _ _ Hf1) as (f' & Hf' & Hc & Hin & Hout).
        exists f'. split; [done|]. split; [by destruct f|]. split.
        -- intros _. destruct (decide (l ∈ omap SwaggerSpec.relocated params)) as [Hd|Hd].
           ++ destruct (Hin Hd) as (q & Hq & Hrq & Hm).
              exists q. split; [by apply list_elem_of_further | done].
           ++ exists p. split; [apply list_elem_of_here|]. split; [done|].
              by rewrite (Hout Hd).
        -- intros H. exfalso. apply H, list_elem_of_here.
      * assert (Hf1 : st_fields (SwaggerSpec.after url st p) !! l = Some f).
        { unfold SwaggerSpec.after. rewrite Hrel.
          destruct (st_fields st !! l'); [|done]. simpl. by rewrite lookup_insert_ne. }
        destruct (IH _ _ Hf1) as (f' & Hf' & Hc & Hin & Hout).
        exists f'. split; [done|]. split; [done|]. split.
        -- intros H. apply elem_of_cons in H as [H|H]; [congruence|].
           destruct (Hin H) as (q & Hq & Hrq & Hm).
           exists q. split; [by apply list_elem_of_further | done].
        -- intros H. apply Hout. intros H'. apply H. by apply list_elem_of_further.
    + assert (Hf1 : st_fields (SwaggerSpec.after url st p) !! l = Some f).
      { unfold SwaggerSpec.after. rewrite Hrel.
        destruct (SwaggerSpec.body_schema p) as [c|]; [|done].
        by destruct (APISpec.schemas (st_spec st) !! Swagger.schema_name c). }
      destruct (IH _ _ Hf1) as (f' & Hf' & Hc & Hin & Hout).
      exists f'. split; [done|]. split; [done|]. split.
      * intros H. destruct (Hin H) as (q & Hq & Hrq & Hm).
        exists q. split; [by apply list_elem_of_further | done].
      * done.
Qed.

End SwaggerFrame.

(** ** The parameter loop of [__init__.py] *)

Lemma same_kind_lookup (h h0 : gmap loc field) (l : loc) (f0 : field) :
  same_kind h h0 → h0 !! l = Some f0 →
  ∃ f, h !! l = Some f ∧ f_kind f = f_kind f0.
Proof.
  intros H H0. specialize (H l). rewrite H0 in H. simpl in H.
  destruct (h !! l) as [f|]; simpl in H; [|done].
  exists f. split; [done | congruence].
Qed.

Lemma same_kind_insert (h h0 : gmap loc field) (l : loc) (f f' : field) :
  same_kind h h0 → h !! l = Some f → f_kind f' = f_kind f →
  same_kind (<[l := f']> h) h0.
Proof.
  intros H Hl Hc l'. destruct (decide (l = l')) as [<-|Hne].
  - rewrite lookup_insert_eq, <- H, Hl. simpl. by rewrite Hc.
  - rewrite lookup_insert_ne by done. apply H.
Qed.

Lemma relocate_kind (url : string) (interface : Interface) (name : string) (f f0 : field) :
  f_kind f = f_kind f0 →
  HugSpec.relocate url interface name f = HugSpec.relocate url interface name f0.
Proof.
  destruct f, f0. unfold HugSpec.relocate, set_required, set_metadata. simpl.
  by intros ->.
Qed.

Section HugLoop.

Variable conv : field → string → string → gmap string pyval.
Variable url : string.
Variable interface : Interface.

Lemma hug_classify_described (acc : list (gmap string pyval)) (name : string)
    (st : state) (h0 : gmap loc field) :
  same_kind (st_fields st) h0 →
  is_Some (HugSpec.signature_entry interface name) →
  fields_closed h0 (i_signature interface) →
  HugSwagger.classify conv url interface acc name st
  = Ok (acc ++ option_list (HugSpec.described conv url interface h0 name))%list
       (HugSpec.after url interface st name).
Proof.
  intros Hkind [p Hp] Hclosed.
  assert (Hin : p ∈ i_signature interface).
  { unfold HugSpec.signature_entry in Hp. clear -Hp.
    induction (i_signature interface) as [|q qs IH]; simpl in Hp; [done|].
    destruct (decide (p_name q = name)).
    - injection Hp as ->. apply list_elem_of_here.
    - apply list_elem_of_further. by apply IH. }
  unfold HugSwagger.classify, HugSpec.described, HugSpec.after, HugSpec.relocated,
    HugSpec.logged, HugSpec.body_schema.
  fold (HugSpec.signature_entry interface name). rewrite Hp.
  destruct (directive_attr (p_annotation p)).
  { simpl. by rewrite app_nil_r. }
  destruct (p_annotation p) as [[| | | | |l|c|c| | |]|] eqn:Hann;
    try (simpl; by rewrite app_nil_r).
  - destruct (Hclosed p l Hin Hann) as [f0 Hf0].
    destruct (same_kind_lookup _ _ _ _ Hkind Hf0) as (f & Hf & Hc).
    rewrite Hf0, Hf. simpl.
    unfold bind, modify_field, bind, read_field, write_field. rewrite Hf. simpl.
    rewrite !lookup_insert_eq. simpl. rewrite lookup_insert_eq.
    unfold HugSpec.field_parameter, HugSpec.converted, append.
    rewrite <- (relocate_kind url interface name f f0 Hc).
    unfold HugSpec.relocate, with_fields. simpl.
    rewrite ?insert_insert_eq.
    by destruct (i_defaults interface !! name).
  - destruct (String.eqb name "body"); simpl; [done | by rewrite app_nil_r].
  - destruct (String.eqb name "body"); simpl; [done | by rewrite app_nil_r].
Qed.

Lemma hug_after_same_kind (name : string) (st : state) (h0 : gmap loc field) :
  same_kind (st_fields st) h0 →
  same_kind (st_fields (HugSpec.after url interface st name)) h0.
Proof.
  intros Hkind. unfold HugSpec.after.
  assert (same_kind (st_fields
    match HugSpec.relocated interface name with
    | Some l =>
        match st_fields st !! l with
        | Some f =>
            with_fields (<[l := HugSpec.relocate url interface name f]> (st_fields st)) st
        | None => st
        end
    | None => st
    end) h0) as H.
  { destruct (HugSpec.relocated interface name) as [l|]; [|done].
    destruct (st_fields st !! l) as [f|] eqn:Hf; [|done].
    simpl. eapply same_kind_insert; [done..|]. by destruct f. }
  destruct (HugSpec.body_schema interface name) as [c|];
    destruct (HugSpec.logged url interface name) as [r|]; apply H.
Qed.

Lemma hug_for_each_described (names : list string) :
  ∀ (acc : list (gmap string pyval)) (st : state) (h0 : gmap loc field),
  same_kind (st_fields st) h0 →
  parameters_declared interface names →
  fields_closed h0 (i_signature interface) →
  for_each (HugSwagger.classify conv url interface) names acc st
  = Ok (acc ++ omap (HugSpec.described conv url interface h0) names)%list
       (foldl (HugSpec.after url interface) st names).
Proof.
  induction names as [|name names IH]; intros acc st h0 Hkind Hdecl Hclosed.
  - simpl. by rewrite app_nil_r.
  - simpl. unfold bind. rewrite (hug_classify_described acc name st h0 Hkind); [|..|done].
    2:{ apply Hdecl, list_elem_of_here. }
    rewrite (IH _ _ h0).
    + f_equal. rewrite <- app_assoc. f_equal.
      by destruct (HugSpec.described conv url interface h0 name).
    + by apply hug_after_same_kind.
    + intros n Hn. apply Hdecl. by apply list_elem_of_further.
    + done.
Qed.

Lemma hug_get_parameters_described (st : state) :
  parameters_declared interface (i_parameters interface) →
  fields_closed (st_fields st) (i_signature interface) →
  HugSwagger.get_parameters conv url interface st
  = Ok (omap (HugSpec.described conv url interface (st_fields st)) (i_parameters interface))
       (foldl (HugSpec.after url interface) st (i_parameters interface)).
Proof.
  intros Hdecl Hclosed. unfold HugSwagger.get_parameters.
  by apply (hug_for_each_described _ [] st (st_fields st)).
Qed.

End HugLoop.

(** *** What the loop leaves in the store *)

Section HugFrame.

Variable url : string.
Variable interface : Interface.

Lemma hug_after_fields_step (st : state) (name : string) :
  st_fields (HugSpec.after url interface st name)
  = match HugSpec.relocated interface name with
    | Some l =>
        match st_fields st !! l with
        | Some f => <[l := HugSpec.relocate url interface name f]> (st_fields st)
        | None => st_fields st
        end
    | None => st_fields st
    end.
Proof.
  unfold HugSpec.after.
  destruct (HugSpec.body_schema interface name) as [c|];
    destruct (HugSpec.logged url interface name) as [r|];
    destruct (HugSpec.relocated interface name) as [l|]; simpl; try done;
    by destruct (st_fields st !! l).
Qed.

Lemma hug_after_schemas_step (st : state) (name : string) :
  APISpec.schemas (st_spec (HugSpec.after url interface st name))
  = match HugSpec.body_schema interface name with
    | Some c => HugSpec.register (APISpec.schemas (st_spec st)) c
    | None => APISpec.schemas (st_spec st)
    end.
Proof.
  unfold HugSpec.after.
  destruct (HugSpec.body_schema interface name) as [c|];
    destruct (HugSpec.logged url interface name) as [r|];
    destruct (HugSpec.relocated interface name) as [l|]; simpl; try done;
    by destruct (st_fields st !! l).
Qed.

Lemma hug_after_log_step (st : state) (name : string) :
  st_log (HugSpec.after url interface st name)
  = (st_log st ++ option_list (HugSpec.logged url interface name))%list.
Proof.
  unfold HugSpec.after.
  destruct (HugSpec.body_schema interface name) as [c|];
    destruct (HugSpec.logged url interface name) as [r|];
    destruct (HugSpec.relocated interface name) as [l|]; simpl;
    rewrite ?app_nil_r; try done;
    by destruct (st_fields st !! l).
Qed.

Lemma hug_after_unchanged_step (st : state) (name : string) :
  let st' := HugSpec.after url interface st name in
  st_dicts st' = st_dicts st ∧
  APISpec.title (st_spec st') = APISpec.title (st_spec st) ∧
  APISpec.version (st_spec st') = APISpec.version (st_spec st) ∧
  APISpec.openapi_version (st_spec st') = APISpec.openapi_version (st_spec st) ∧
  APISpec.options (st_spec st') = APISpec.options (st_spec st) ∧
  APISpec.paths (st_spec st') = APISpec.paths (st_spec st).
Proof.
  unfold HugSpec.after.
  destruct (HugSpec.body_schema interface name) as [c|];
    destruct (HugSpec.logged url interface name) as [r|];
    destruct (HugSpec.relocated interface name) as [l|]; simpl; try done;
    by destruct (st_fields st !! l).
Qed.

Lemma hug_after_unchanged (names : list string) (st : state) :
  let st' := foldl (HugSpec.after url interface) st names in
  st_dicts st' = st_dicts st ∧
  APISpec.title (st_spec st') = APISpec.title (st_spec st) ∧
  APISpec.version (st_spec st') = APISpec.version (st_spec st) ∧
  APISpec.openapi_version (st_spec st') = APISpec.openapi_version (st_spec st) ∧
  APISpec.options (st_spec st') = APISpec.options (st_spec st) ∧
  APISpec.paths (st_spec st') = APISpec.paths (st_spec st).
Proof.
  revert st. induction names as [|name names IH]; intros st; simpl; [done|].
  destruct (IH (HugSpec.after url interface st name)) as (H1 & H2 & H3 & H4 & H5 & H6).
  destruct (hug_after_unchanged_step st name) as (G1 & G2 & G3 & G4 & G5 & G6).
  rewrite H1, H2, H3, H4, H5, H6. done.
Qed.

(** The log only grows: the records of the loop are appended. *)
Lemma hug_after_log (names : list string) (st : state) :
  st_log (foldl (HugSpec.after url interface) st names)
  = (st_log st ++ omap (HugSpec.logged url interface) names)%list.
Proof.
  revert st. induction names as [|name names IH]; intros st; simpl.
  - by rewrite app_nil_r.
  - rewrite IH, hug_after_log_step, <- app_assoc. f_equal.
    by destruct (HugSpec.logged url interface name).
Qed.

(** The registry after the loop: the body schemas registered in order
    under their class names, a later one replacing an earlier one. *)
Lemma hug_after_schemas (names : list string) (st : state) :
  APISpec.schemas (st_spec (foldl (HugSpec.after url interface) st names))
  = foldl HugSpec.register (APISpec.schemas (st_spec st))
      (omap (HugSpec.body_schema interface) names).
Proof.
  revert st. induction names as [|name names IH]; intros st; simpl; [done|].
  rewrite IH, hug_after_schemas_step.
  by destruct (HugSpec.body_schema interface name).
Qed.

(** The field objects after the loop: same field type; [metadata] and
    [required] replaced for the relocated ones, kept for the others. *)
Lemma hug_after_fields (l : loc) (names : list string) :
  ∀ (st : state) (f : field),
  st_fields st !! l = Some f →
  ∃ f', st_fields (foldl (HugSpec.after url interface) st names) !! l = Some f'
        ∧ f_kind f' = f_kind f
        ∧ (l ∈ omap (HugSpec.relocated interface) names →
           ∃ name, name ∈ names ∧ HugSpec.relocated interface name = Some l
                   ∧ f' = HugSpec.relocate url interface name f)
        ∧ (l ∉ omap (HugSpec.relocated interface) names → f' = f).
Proof.
  induction names as [|name names IH]; intros st f Hf; simpl.
  - exists f. split; [done|]. split; [done|]. split; [|done].
    intros H. by apply elem_of_nil in H.
  - pose proof (hug_after_fields_step st name) as Hstep.
    destruct (HugSpec.relocated interface name) as [l'|] eqn:Hrel.
    + destruct (decide (l' = l)) as [->|Hne].
      * rewrite Hf in Hstep.
        set (f1 := HugSpec.relocate url interface name f) in *.
        assert (Hf1 : st_fields (HugSpec.after url interface st name) !! l = Some f1).
        { by rewrite Hstep, lookup_insert_eq. }
        destruct (IH _ _ Hf1) as (f' & Hf' & Hc & Hin & Hout).
        exists f'. split; [done|]. split; [by destruct f|]. split.
        -- intros _.
           destruct (decide (l ∈ omap (HugSpec.relocated interface) names)) as [Hd|Hd].
           ++ destruct (Hin Hd) as (q & Hq & Hrq & Hm).
              exists q. split; [by apply list_elem_of_further|]. split; [done|].
              rewrite Hm. unfold f1. apply relocate_kind. by destruct f.
           ++ exists name. split; [apply list_elem_of_here|]. split; [done|].
              by rewrite (Hout Hd).
        -- intros H. exfalso. apply H, list_elem_of_here.
      * assert (Hf1 : st_fields (HugSpec.after url interface st name) !! l = Some f).
        { rewrite Hstep. destruct (st_fields st !! l'); [|done].
          by rewrite lookup_insert_ne. }
        destruct (IH _ _ Hf1) as (f' & Hf' & Hc & Hin & Hout).
        exists f'. split; [done|]. split; [done|]. split.
        -- intros H. apply elem_of_cons in H as [H|H]; [congruence|].
           destruct (Hin H) as (q & Hq & Hrq & Hm).
           exists q. split; [by apply list_elem_of_further | done].
        -- intros H. apply Hout. intros H'. apply H. by apply list_elem_of_further.
    + assert (Hf1 : st_fields (HugSpec.after url interface st name) !! l = Some f).
      { by rewrite Hstep. }
      destruct (IH _ _ Hf1) as (f' & Hf' & Hc & Hin & Hout).
      exists f'. split; [done|]. split; [done|]. split.
      * intros H. destruct (Hin H) as (q & Hq & Hrq & Hm).
        exists q. split; [by apply list_elem_of_further | done].
      * done.
Qed.

End HugFrame.

(** ** The response loop of [get_operation] *)

Lemma dicts_extend_refl (st : state) : dicts_extend st st.
Proof. by intros l d. Qed.

Lemma dicts_extend_trans (st1 st2 st3 : state) :
  dicts_extend st1 st2 → dicts_extend st2 st3 → dicts_extend st1 st3.
Proof. intros H1 H2 l d H. by apply H2, H1. Qed.

Lemma fresh_dict (st : state) : st_dicts st !! fresh (dom (st_dicts st)) = None.
Proof. apply not_elem_of_dom, is_fresh. Qed.

Lemma dicts_extend_fresh (st st' : state) (d : gmap string pyval) :
  st_dicts st' = <[fresh (dom (st_dicts st)) := d]> (st_dicts st) → dicts_extend st st'.
Proof.
  intros H l d0 Hl. rewrite H, lookup_insert_ne; [done|].
  intros <-. by rewrite fresh_dict in Hl.
Qed.

Lemma responses_closed_extend (st st' : state) (rs : list (Z * loc)) :
  HugSpec.responses_closed st rs → dicts_extend st st' → HugSpec.responses_closed st' rs.
Proof.
  intros Hc He code l Hin. destruct (Hc code l Hin) as [d Hd].
  exists d. by apply He.
Qed.

Lemma response_at_extend (st st' : state) (rs : list (Z * loc)) (code : Z) :
  HugSpec.responses_closed st rs → dicts_extend st st' →
  HugSpec.response_at st' rs code = HugSpec.response_at st rs code.
Proof.
  intros Hc He. unfold HugSpec.response_at.
  destruct (dict_get code rs) as [l|] eqn:E; [|done].
  apply dict_get_elem in E. destruct (Hc _ _ E) as [d Hd].
  rewrite Hd. by apply He.
Qed.

Lemma response_at_cons (st : state) (c : Z) (l : loc) (items : list (Z * loc)) (code : Z) :
  HugSpec.response_at st ((c, l) :: items) code
  = if decide (c = code) then st_dicts st !! l else HugSpec.response_at st items code.
Proof. unfold HugSpec.response_at. simpl. by destruct (decide (c = code)). Qed.

Lemma resolve_schema_spec (schema : pyval) (st : state) :
  ∃ st', HugSwagger.resolve_schema schema st = Ok (HugSpec.schema_name schema) st'
         ∧ st_dicts st' = st_dicts st ∧ st_fields st' = st_fields st.
Proof.
  destruct schema; simpl; unfold bind, definition, log, ret; eexists; split; done.
Qed.

(** One step of the loop: a copy of the dictionary, resolved, is added
    to the store; the mapping refers to it when the dictionary has a
    [schema] entry. *)
Lemma resolve_response_spec (rs : list (Z * loc)) (code : Z) (l : loc)
    (d : gmap string pyval) (st : state) :
  st_dicts st !! l = Some d →
  ∃ st', HugSwagger.resolve_response rs (code, l) st
         = Ok match d !! "schema" with
              | Some _ => dict_set code (fresh (dom (st_dicts st))) rs
              | None => rs
              end st'
         ∧ st_dicts st' = <[fresh (dom (st_dicts st)) := HugSpec.resolved d]> (st_dicts st)
         ∧ st_fields st' = st_fields st.
Proof.
  intros Hd. unfold HugSwagger.resolve_response, bind, read_dict, new_dict.
  rewrite Hd. unfold HugSpec.resolved.
  destruct (d !! "schema") as [schema|] eqn:E.
  - match goal with |- context [HugSwagger.resolve_schema schema ?s] =>
      destruct (resolve_schema_spec schema s) as (st2 & Hr & Hd2 & Hf2) end.
    rewrite Hr. simpl in Hd2, Hf2.
    destruct (HugSpec.schema_name schema) as [name|].
    + unfold dict_setitem, bind, read_dict. rewrite Hd2, lookup_insert_eq.
      eexists. split; [done|]. simpl. rewrite Hd2, insert_insert_eq. done.
    + exists st2. done.
  - eexists. split; [done|]. done.
Qed.

Lemma resolve_loop (items : list (Z * loc)) :
  ∀ (rs : list (Z * loc)) (st : state),
  HugSpec.responses_closed st items →
  HugSpec.responses_closed st rs →
  NoDup (dict_keys items) →
  ∃ rs' st',
    for_each HugSwagger.resolve_response items rs st = Ok rs' st'
    ∧ dicts_extend st st'
    ∧ st_fields st' = st_fields st
    ∧ HugSpec.responses_closed st' rs'
    ∧ ∀ code,
        HugSpec.response_at st' rs' code
        = match HugSpec.response_at st items code with
          | Some d =>
              match d !! "schema" with
              | Some _ => Some (HugSpec.resolved d)
              | None => HugSpec.response_at st rs code
              end
          | None => HugSpec.response_at st rs code
          end.
Proof.
  induction items as [|[code0 l0] items IH]; intros rs st Hitems Hrs Hnd.
  - exists rs, st. split; [done|]. split; [apply dicts_extend_refl|].
    split; [done|]. split; [done|]. done.
  - destruct (Hitems code0 l0 (list_elem_of_here _ _)) as [d0 Hd0].
    destruct (resolve_response_spec rs code0 l0 d0 st Hd0) as (st1 & Hstep & Hd1 & Hf1).
    pose proof (dicts_extend_fresh st st1 _ Hd1) as Hext1.
    set (l' := fresh (dom (st_dicts st))) in *.
    set (rs1 := match d0 !! "schema" with
                | Some _ => dict_set code0 l' rs
                | None => rs
                end) in *.
    change (dict_keys ((code0, l0) :: items)) with (code0 :: dict_keys items) in Hnd.
    apply NoDup_cons in Hnd as [Hnotin Hnd].
    assert (Hrs1 : HugSpec.responses_closed st1 rs1).
    { unfold rs1. destruct (d0 !! "schema").
      - intros code l Hin. apply elem_of_dict_set in Hin as [[= -> ->]|Hin].
        + rewrite Hd1, lookup_insert_eq. done.
        + by apply (responses_closed_extend st st1 rs Hrs Hext1 code l).
      - by apply (responses_closed_extend st st1 rs). }
    destruct (IH rs1 st1) as (rs' & st' & Hrun & Hext & Hf & Hclosed & Hat).
    { apply (responses_closed_extend st st1); [|done].
      intros code l Hin. apply (Hitems code l). by apply list_elem_of_further. }
    { done. }
    { done. }
    exists rs', st'. split.
    { by rewrite for_each_cons, Hstep. }
    split; [by eapply dicts_extend_trans|].
    split; [congruence|]. split; [done|].
    intros code. rewrite Hat.
    assert (Hitems' : HugSpec.responses_closed st items).
    { intros c l Hin. apply (Hitems c l). by apply list_elem_of_further. }
    rewrite (response_at_extend st st1 items code Hitems' Hext1).
    rewrite response_at_cons.
    destruct (decide (code0 = code)) as [<-|Hne].
    + rewrite Hd0.
      assert (Hnone : HugSpec.response_at st items code0 = None).
      { unfold HugSpec.response_at. by rewrite (dict_get_notin code0 items). }
      rewrite Hnone. unfold rs1. destruct (d0 !! "schema").
      * unfold HugSpec.response_at. rewrite dict_get_set_eq, Hd1, lookup_insert_eq. done.
      * by apply response_at_extend.
    + assert (Hrs1' : HugSpec.response_at st1 rs1 code = HugSpec.response_at st rs code).
      { unfold rs1. destruct (d0 !! "schema").
        - unfold HugSpec.response_at at 1. rewrite dict_get_set_ne by done.
          fold (HugSpec.response_at st1 rs code). by apply response_at_extend.
        - by apply response_at_extend. }
      by rewrite Hrs1'.
Qed.

(** The loop over the whole mapping: every dictionary is resolved. *)
Lemma resolve_all (rs : list (Z * loc)) (st : state) :
  HugSpec.responses_closed st rs →
  NoDup (dict_keys rs) →
  ∃ rs' st',
    for_each HugSwagger.resolve_response rs rs st = Ok rs' st'
    ∧ dicts_extend st st'
    ∧ st_fields st' = st_fields st
    ∧ ∀ code,
        HugSpec.response_at st' rs' code
        = HugSpec.resolved <$> HugSpec.response_at st rs code.
Proof.
  intros Hc Hnd.
  destruct (resolve_loop rs rs st Hc Hc Hnd) as (rs' & st' & Hrun & Hext & Hf & _ & Hat).
  exists rs', st'. split; [done|]. split; [done|]. split; [done|].
  intros code. rewrite Hat.
  destruct (HugSpec.response_at st rs code) as [d|]; [|done].
  simpl. unfold HugSpec.resolved.
  by destruct (d !! "schema").
Qed.

(** ** [get_operation] before its loop *)

Lemma responses_closed_insert (st st' : state) (rs : list (Z * loc)) (l : loc)
    (d : gmap string pyval) :
  HugSpec.responses_closed st rs →
  st_dicts st' = <[l := d]> (st_dicts st) →
  HugSpec.responses_closed st' rs.
Proof.
  intros Hc Hd code l' Hin. rewrite Hd.
  destruct (decide (l = l')) as [<-|Hne].
  - rewrite lookup_insert_eq. done.
  - rewrite lookup_insert_ne by done. by apply (Hc code).
Qed.

Lemma setdefault_spec (code : Z) (rs : list (Z * loc)) (st : state) :
  HugSpec.responses_closed st rs →
  NoDup (dict_keys rs) →
  ∃ l rs' st',
    HugSwagger.setdefault code rs st = Ok (l, rs') st'
    ∧ dict_get code rs' = Some l
    ∧ st_dicts st' !! l = Some (default ∅ (HugSpec.response_at st rs code))
    ∧ HugSpec.responses_closed st' rs'
    ∧ NoDup (dict_keys rs')
    ∧ dicts_extend st st'
    ∧ st_fields st' = st_fields st
    ∧ (dict_get code rs = Some l ∨ st_dicts st !! l = None).
Proof.
  intros Hc Hnd. unfold HugSwagger.setdefault, HugSpec.response_at.
  destruct (dict_get code rs) as [l|] eqn:E.
  - exists l, rs, st. destruct (Hc code l (dict_get_elem _ _ _ E)) as [d Hd].
    rewrite Hd. repeat split; try done; [apply dicts_extend_refl | by left].
  - unfold bind, new_dict, ret. eexists _, _, _. split; [done|]. simpl.
    split; [apply dict_get_set_eq|]. split; [by rewrite lookup_insert_eq|].
    split.
    { intros c l Hin. apply elem_of_dict_set in Hin as [[= -> ->]|Hin]; simpl.
      - by rewrite lookup_insert_eq.
      - destruct (Hc c l Hin) as [d Hd]. exists d.
        rewrite lookup_insert_ne; [done|]. intros <-. by rewrite fresh_dict in Hd. }
    split; [by apply dict_set_NoDup|]. split; [by eapply dicts_extend_fresh|].
    split; [done|]. right. apply fresh_dict.
Qed.

Lemma dict_setitem_spec (l : loc) (key : string) (v : pyval) (d : gmap string pyval)
    (st : state) :
  st_dicts st !! l = Some d →
  dict_setitem l key v st = Ok tt (with_dicts (<[l := <[key := v]> d]> (st_dicts st)) st).
Proof. intros H. unfold dict_setitem, bind, read_dict. by rewrite H. Qed.

Lemma declared_responses_spec (interface : Interface) (use_default_response : bool)
    (st : state) :
  let attached := default [] (i_swagger_responses interface) in
  HugSpec.responses_closed st attached →
  NoDup (dict_keys attached) →
  ∃ rs1 st1,
    HugSwagger.declared_responses interface use_default_response st = Ok rs1 st1
    ∧ HugSpec.responses_closed st1 rs1
    ∧ NoDup (dict_keys rs1)
    ∧ st_fields st1 = st_fields st
    ∧ (∀ a, i_return_annotation interface = Some a →
            HugSpec.response_at st1 rs1 200
            = Some (<["schema" := a]> (default ∅ (HugSpec.response_at st attached 200))))
    ∧ ∀ l d, st_dicts st !! l = Some d →
             i_return_annotation interface = None ∨ dict_get 200 attached ≠ Some l →
             st_dicts st1 !! l = Some d.
Proof.
  intros attached Hc Hnd. unfold HugSwagger.declared_responses. fold attached.
  destruct (i_return_annotation interface) as [a|].
  - destruct (setdefault_spec 200 attached st Hc Hnd)
      as (l & rs' & st' & Hrun & Hget & Hl & Hc' & Hnd' & Hext & Hf & Horigin).
    unfold bind at 1. unfold bind at 1. rewrite Hrun.
    unfold bind at 1. rewrite (dict_setitem_spec l "schema" a _ st' Hl).
    unfold ret at 1.
    match goal with |- context [with_dicts ?h st'] => set (st2 := with_dicts h st') end.
    assert (Hc2 : HugSpec.responses_closed st2 rs').
    { by eapply responses_closed_insert. }
    assert (Hat : HugSpec.response_at st2 rs' 200
                  = Some (<["schema" := a]> (default ∅ (HugSpec.response_at st attached 200)))).
    { unfold HugSpec.response_at at 1. rewrite Hget. unfold st2. simpl.
      by rewrite lookup_insert_eq. }
    exists rs', st2. split.
    { destruct use_default_response; [|done].
      unfold bind, HugSwagger.setdefault. by rewrite Hget. }
    split; [done|]. split; [done|]. split; [done|].
    split; [by intros a' [= <-]|].
    intros l1 d1 Hl1 Hother. unfold st2. simpl.
    rewrite lookup_insert_ne; [by apply Hext|].
    intros <-. destruct Hother as [?|Hother]; [done|].
    destruct Horigin as [?|Hnone]; [done | congruence].
  - unfold bind at 1. unfold ret at 1.
    destruct use_default_response.
    + destruct (setdefault_spec 200 attached st Hc Hnd)
        as (l & rs' & st' & Hrun & Hget & Hl & Hc' & Hnd' & Hext & Hf & _).
      exists rs', st'. unfold bind. rewrite Hrun.
      repeat split; try done. intros l1 d1 Hl1 _. by apply Hext.
    + exists attached, st. by repeat split.
Qed.

(** [get_operation] returns, and returns the declared responses
    resolved. *)
Lemma get_operation_spec (interface : Interface) (use_default_response : bool)
    (st : state) :
  let attached := default [] (i_swagger_responses interface) in
  HugSpec.responses_closed st attached →
  NoDup (dict_keys attached) →
  ∃ rs1 st1 rs' st',
    HugSwagger.declared_responses interface use_default_response st = Ok rs1 st1
    ∧ HugSwagger.get_operation interface use_default_response st = Ok rs' st'
    ∧ st_fields st' = st_fields st
    ∧ (∀ code, HugSpec.response_at st' rs' code
               = HugSpec.resolved <$> HugSpec.response_at st1 rs1 code)
    ∧ (∀ a, i_return_annotation interface = Some a →
            HugSpec.response_at st1 rs1 200
            = Some (<["schema" := a]> (default ∅ (HugSpec.response_at st attached 200))))
    ∧ ∀ l d, st_dicts st !! l = Some d →
             i_return_annotation interface = None ∨ dict_get 200 attached ≠ Some l →
             st_dicts st' !! l = Some d.
Proof.
  intros attached Hc Hnd.
  destruct (declared_responses_spec interface use_default_response st Hc Hnd)
    as (rs1 & st1 & Hdecl & Hc1 & Hnd1 & Hf1 & Hat1 & Hkeep1).
  destruct (resolve_all rs1 st1 Hc1 Hnd1) as (rs' & st' & Hrun & Hext & Hf & Hat).
  exists rs1, st1, rs', st'. split; [done|]. split.
  { unfold HugSwagger.get_operation, bind. by rewrite Hdecl. }
  split; [congruence|]. split; [done|]. split; [done|].
  intros l d Hl Hother. by apply Hext, Hkeep1.
Qed.

(** ** The response decorators

    The mappings the decorators attach satisfy what the statements about
    [get_operation] assume of attached metadata: the dictionaries they
    refer to are in the store, and no status code occurs twice. *)

Lemma response_attaches (response_code : Z) (schema description : option pyval)
    (handler : Interface) (st : state) :
  HugSpec.responses_closed st (default [] (i_swagger_responses handler)) →
  NoDup (dict_keys (default [] (i_swagger_responses handler))) →
  ∃ handler' st',
    Decorators.response response_code schema description handler st = Ok handler' st'
    ∧ HugSpec.responses_closed st' (default [] (i_swagger_responses handler'))
    ∧ NoDup (dict_keys (default [] (i_swagger_responses handler')))
    ∧ ∀ d, HugSpec.response_at st' (default [] (i_swagger_responses handler'))
             response_code = Some d →
           d !! "schema" = schema ∧ d !! "description" = description.
Proof.
  intros Hclosed Hnd. unfold Decorators.response.
  set (responses := default [] (i_swagger_responses handler)) in *.
  unfold bind at 1. unfold new_dict at 1.
  set (l := fresh (dom (st_dicts st))).
  set (st1 := with_dicts (<[l := ∅]> (st_dicts st)) st).
  assert (H1 : st_dicts st1 !! l = Some ∅) by apply lookup_insert_eq.
  assert (∃ st2, (match schema with
                  | Some schema => dict_setitem l "schema" schema
                  | None => ret tt
                  end) st1 = Ok tt st2
                 ∧ ∃ d2, st_dicts st2 = <[l := d2]> (st_dicts st)
                         ∧ d2 !! "schema" = schema ∧ d2 !! "description" = None)
    as (st2 & Hrun2 & d2 & Hd2 & Hs2 & Hn2).
  { destruct schema as [schema|].
    - rewrite (dict_setitem_spec l "schema" schema ∅ st1 H1).
      eexists. split; [done|]. eexists. split.
      + simpl. apply insert_insert_eq.
      + split; [apply lookup_insert_eq | done].
    - exists st1. split; [done|]. exists ∅. done. }
  assert (H2 : st_dicts st2 !! l = Some d2) by (rewrite Hd2; apply lookup_insert_eq).
  assert (∃ st3, (match description with
                  | Some description => dict_setitem l "description" description
                  | None => ret tt
                  end) st2 = Ok tt st3
                 ∧ ∃ d3, st_dicts st3 = <[l := d3]> (st_dicts st)
                         ∧ d3 !! "schema" = schema ∧ d3 !! "description" = description)
    as (st3 & Hrun3 & d3 & Hd3 & Hs3 & Hn3).
  { destruct description as [description|].
    - rewrite (dict_setitem_spec l "description" description d2 st2 H2).
      eexists. split; [done|]. eexists. split.
      + simpl. rewrite Hd2. apply insert_insert_eq.
      + split; [by rewrite lookup_insert_ne | apply lookup_insert_eq].
    - exists st2. split; [done|]. exists d2. done. }
  eexists _, st3. split.
  { unfold bind. rewrite Hrun2, Hrun3. reflexivity. }
  simpl. split.
  { intros code l' Hin. rewrite Hd3.
    apply elem_of_dict_set in Hin as [[= -> ->]|Hin].
    - rewrite lookup_insert_eq. done.
    - destruct (Hclosed code l' Hin) as [d Hd]. exists d.
      rewrite lookup_insert_ne; [done|]. intros <-. unfold l in Hd.
      by rewrite fresh_dict in Hd. }
  split; [by apply dict_set_NoDup|].
  intros d. unfold HugSpec.response_at. rewrite dict_get_set_eq, Hd3, lookup_insert_eq.
  by intros [= <-].
Qed.

(** [annotated_handler] in [annotated_store] is a handler decorated
    with [response(200, description="OK")]. *)
Lemma annotated_handler_decorated :
  Decorators.response 200 None (Some (PyStr "OK"))
    {| i_signature := [];
       i_return_annotation := Some (PySchemaMeta Samples.users_UserSchema);
       i_swagger_responses := None;
       i_parameters := []; i_defaults := ∅;
       i_documentation := Samples.json_documentation |}
    Samples.empty_store
  = Ok Samples.annotated_handler Samples.annotated_store.
Proof. reflexivity. Qed.

(** ** Typed-scalar parameters *)

(** The entry of a typed-scalar parameter in the list [swagger.py]
    returns. *)
Lemma swagger_typed_scalar
    (conv : string → field → string → string → gmap string pyval)
    (v url : string) (interface : Interface) (st : state)
    (pre post : list sig_parameter) (p : sig_parameter) (l : loc) (f0 : field) :
  i_signature interface = (pre ++ p :: post)%list →
  p_annotation p = Some (PyField l) →
  st_fields st !! l = Some f0 →
  Swagger.skipped (p_name p) (p_annotation p) = false →
  fields_closed (st_fields st) (i_signature interface) →
  ∃ st',
    Swagger.get_parameters conv v interface url st
    = Ok (omap (SwaggerSpec.described conv v url (st_fields st)) pre
          ++ SwaggerSpec.field_parameter conv v url f0 p
          :: omap (SwaggerSpec.described conv v url (st_fields st)) post)%list st'.
Proof.
  intros Hsig Hann Hf0 Hskip Hclosed.
  rewrite (get_parameters_described conv v url interface st Hclosed).
  eexists. f_equal. rewrite Hsig, omap_app. f_equal. simpl.
  unfold SwaggerSpec.described at 1. by rewrite Hskip, Hann, Hf0.
Qed.

(** The entry of a typed-scalar parameter in the list [__init__.py]
    returns. *)
Lemma hug_typed_scalar (conv : field → string → string → gmap string pyval)
    (url : string) (interface : Interface) (st : state)
    (names_pre names_post : list string) (p : sig_parameter) (l : loc) (f0 : field) :
  i_parameters interface = (names_pre ++ p_name p :: names_post)%list →
  HugSpec.signature_entry interface (p_name p) = Some p →
  p_annotation p = Some (PyField l) →
  st_fields st !! l = Some f0 →
  parameters_declared interface (i_parameters interface) →
  fields_closed (st_fields st) (i_signature interface) →
  ∃ st',
    HugSwagger.get_parameters conv url interface st
    = Ok (omap (HugSpec.described conv url interface (st_fields st)) names_pre
          ++ HugSpec.field_parameter conv url interface (p_name p) f0
          :: omap (HugSpec.described conv url interface (st_fields st)) names_post)%list st'.
Proof.
  intros Hnames Hentry Hann Hf0 Hdecl Hclosed.
  rewrite (hug_get_parameters_described conv url interface st Hdecl Hclosed).
  eexists. f_equal. rewrite Hnames, omap_app. f_equal. simpl.
  unfold HugSpec.described at 1. by rewrite Hentry, Hann, Hf0.
Qed.

(** The location both generators compute is ["path"] exactly when the
    placeholder occurs in the url, and ["query"] otherwise. *)
Lemma get_parameter_location_spec (name url : string) :
  (has_placeholder name url → Swagger.get_parameter_location name url = "path")
  ∧ (¬ has_placeholder name url → Swagger.get_parameter_location name url = "query")
  ∧ HugSwagger.where_is_parameter name url = Swagger.get_parameter_location name url.
Proof.
  unfold Swagger.get_parameter_location, HugSwagger.where_is_parameter, has_placeholder.
  pose proof (str_in_spec ("{" +:+ name +:+ "}") url) as H.
  destruct (str_in ("{" +:+ name +:+ "}") url).
  - split; [done|]. split; [|done]. intros Hno. exfalso. apply Hno. by apply H.
  - split; [|done]. intros Hyes. apply H in Hyes. done.
Qed.

Lemma listing_declared :
  parameters_declared Samples.listing_handler (i_parameters Samples.listing_handler).
Proof.
  intros name Hin. simpl in Hin.
  repeat (apply elem_of_cons in Hin as [->|Hin]); [by eexists..|].
  by apply elem_of_nil in Hin.
Qed.

Lemma listing_closed :
  fields_closed (st_fields Samples.listing_store) (i_signature Samples.listing_handler).
Proof.
  intros p l Hin. simpl in Hin.
  repeat (apply elem_of_cons in Hin as [->|Hin]);
    [intros [= <-]; by eexists..|].
  by apply elem_of_nil in Hin.
Qed.

Lemma sample_converter_required (f : field) (name place : string) :
  Samples.field2parameter f name place !! "required" = Some (PyBool (f_required f)).
Proof. reflexivity. Qed.

Lemma sample_converter_in (f : field) (name place : string) :
  f_metadata f !! "location" = Some (PyStr place) →
  Samples.field2parameter f name place !! "in" = Some (PyStr place).
Proof.
  intros H. unfold Samples.field2parameter. rewrite H. reflexivity.
Qed.

(** ** What [get_parameters] changes *)

Lemma relocated_annotation (p : sig_parameter) (l : loc) :
  SwaggerSpec.relocated p = Some l →
  p_annotation p = Some (PyField l) ∧ Swagger.skipped (p_name p) (p_annotation p) = false.
Proof.
  unfold SwaggerSpec.relocated.
  destruct (Swagger.skipped (p_name p) (p_annotation p)); [done|].
  destruct (p_annotation p) as [[| | | | |l'| | | | |]|] eqn:E; try done.
  by intros [= ->].
Qed.

Lemma hug_relocated_annotation (interface : Interface) (name : string) (l : loc) :
  HugSpec.relocated interface name = Some l →
  ∃ p, HugSpec.signature_entry interface name = Some p
       ∧ p_annotation p = Some (PyField l).
Proof.
  unfold HugSpec.relocated.
  destruct (HugSpec.signature_entry interface name) as [p|]; [|done].
  destruct (directive_attr (p_annotation p)); [done|].
  destruct (p_annotation p) as [[| | | | |l'| | | | |]|] eqn:E; try done.
  intros [= ->]. by exists p.
Qed.

(** ** Body parameters *)

Lemma length_append (s t : string) :
  String.length (s +:+ t) = (String.length s + String.length t)%nat.
Proof.
  induction s as [|a s IH]; [done|].
  rewrite append_cons. simpl. by rewrite IH.
Qed.

Lemma append_cancel_r (s1 s2 t : string) : s1 +:+ t = s2 +:+ t → s1 = s2.
Proof.
  revert s2. induction s1 as [|a s1 IH]; intros [|b s2] H.
  - done.
  - apply (f_equal String.length) in H.
    rewrite !length_append in H. simpl in H. lia.
  - apply (f_equal String.length) in H.
    rewrite !length_append in H. simpl in H. lia.
  - rewrite !append_cons in H. injection H as -> H. f_equal. by apply IH.
Qed.

(** Classes of the same name in different modules get different
    qualified names. *)
Lemma schema_name_distinct (c1 c2 : schema_class) :
  cls_name c1 = cls_name c2 → cls_module c1 ≠ cls_module c2 →
  Swagger.schema_name c1 ≠ Swagger.schema_name c2.
Proof.
  intros Hname Hmodule H. apply Hmodule. unfold Swagger.schema_name in H.
  rewrite Hname in H. by apply append_cancel_r in H.
Qed.

Lemma schema_body_swagger
    (conv : string → field → string → string → gmap string pyval)
    (v url : string) (h0 : gmap loc field) (p : sig_parameter) (c : schema_class) :
  schema_body p c →
  SwaggerSpec.body_schema p = Some c
  ∧ SwaggerSpec.described conv v url h0 p
    = Some (body_parameter ("#/components/schemas/" +:+ Swagger.schema_name c)).
Proof.
  intros [Hname Hann].
  unfold SwaggerSpec.body_schema, SwaggerSpec.described, Swagger.skipped.
  rewrite Hname. destruct Hann as [-> | ->]; done.
Qed.

Lemma schema_body_hug (conv : field → string → string → gmap string pyval)
    (url : string) (interface : Interface) (h0 : gmap loc field)
    (p : sig_parameter) (c : schema_class) :
  schema_body p c →
  HugSpec.signature_entry interface "body" = Some p →
  HugSpec.body_schema interface "body" = Some c
  ∧ HugSpec.described conv url interface h0 "body"
    = Some (body_parameter ("#/definitions/" +:+ cls_name c)).
Proof.
  intros [Hname Hann] Hentry.
  unfold HugSpec.body_schema, HugSpec.described. rewrite Hentry.
  destruct Hann as [-> | ->]; done.
Qed.

Lemma other_name_swagger (p : sig_parameter) :
  p_name p ≠ "body" → SwaggerSpec.body_schema p = None.
Proof.
  intros Hname. unfold SwaggerSpec.body_schema.
  destruct (Swagger.skipped (p_name p) (p_annotation p)); [done|].
  destruct (String.eqb_spec (p_name p) "body") as [|_]; [done|].
  by destruct (p_annotation p) as [[]|].
Qed.

Lemma other_name_hug (interface : Interface) (name : string) :
  name ≠ "body" → HugSpec.body_schema interface name = None.
Proof.
  intros Hname. unfold HugSpec.body_schema.
  destruct (HugSpec.signature_entry interface name) as [p|]; [|done].
  destruct (directive_attr (p_annotation p)); [done|].
  destruct (String.eqb_spec name "body") as [|_]; [done|].
  by destruct (p_annotation p) as [[]|].
Qed.

Lemma omap_none {A B} (f : A → option B) (l : list A) :
  (∀ x, x ∈ l → f x = None) → omap f l = [].
Proof.
  induction l as [|x l IH]; intros H; simpl; [done|].
  rewrite (H x) by apply list_elem_of_here.
  apply IH. intros y Hy. apply H. by apply list_elem_of_further.
Qed.

(** A signature names [body] once: the body schema is the only schema
    it registers. *)
Lemma only_body_swagger (pre post : list sig_parameter) (p : sig_parameter)
    (c : schema_class) :
  NoDup (map p_name (pre ++ p :: post)%list) →
  schema_body p c →
  omap SwaggerSpec.body_schema (pre ++ p :: post)%list = [c].
Proof.
  intros Hnd Hbody.
  rewrite map_app in Hnd. simpl in Hnd.
  apply NoDup_app in Hnd as (_ & Hpre & Hpost).
  apply NoDup_cons in Hpost as [Hpost _].
  destruct (schema_body_swagger (fun _ _ _ _ => ∅) "" "" ∅ p c Hbody) as [Hp _].
  destruct Hbody as [Hname _].
  rewrite omap_app. simpl. rewrite Hp.
  rewrite !omap_none; [done|..].
  - intros q Hq. apply other_name_swagger. intros Hq'.
    apply Hpost. rewrite Hname, <- Hq'. by apply (list_elem_of_fmap_2 p_name).
  - intros q Hq. apply other_name_swagger. intros Hq'.
    apply (Hpre (p_name q)).
    + by apply (list_elem_of_fmap_2 p_name).
    + rewrite Hq', <- Hname. apply list_elem_of_here.
Qed.

Lemma only_body_hug (interface : Interface) (names_pre names_post : list string)
    (p : sig_parameter) (c : schema_class) :
  NoDup (names_pre ++ "body" :: names_post)%list →
  schema_body p c →
  HugSpec.signature_entry interface "body" = Some p →
  omap (HugSpec.body_schema interface) (names_pre ++ "body" :: names_post)%list = [c].
Proof.
  intros Hnd Hbody Hentry.
  apply NoDup_app in Hnd as (_ & Hpre & Hpost).
  apply NoDup_cons in Hpost as [Hpost _].
  destruct (schema_body_hug (fun _ _ _ => ∅) "" interface ∅ p c Hbody Hentry) as [Hp _].
  rewrite omap_app. simpl. rewrite Hp.
  rewrite !omap_none; [done|..].
  - intros name Hin. apply other_name_hug. by intros ->.
  - intros name Hin. apply other_name_hug. intros ->.
    apply (Hpre "body" Hin). apply list_elem_of_here.
Qed.

(** [sig.parameters[name]] is the entry of that name. *)
Lemma signature_entry_middle (interface : Interface) (pre post : list sig_parameter)
    (p : sig_parameter) :
  i_signature interface = (pre ++ p :: post)%list →
  NoDup (map p_name (i_signature interface)) →
  HugSpec.signature_entry interface (p_name p) = Some p.
Proof.
  intros Hsig Hnd. unfold HugSpec.signature_entry. rewrite Hsig in *. clear Hsig.
  induction pre as [|q pre IH]; simpl in *.
  - by rewrite decide_True.
  - apply NoDup_cons in Hnd as [Hq Hnd].
    rewrite decide_False; [by apply IH|].
    intros Heq. apply Hq. rewrite Heq, map_app. simpl.
    apply elem_of_app. right. apply list_elem_of_here.
Qed.

(** ** Registering a schema twice *)

Lemma fields_closed_same_core (h h0 : gmap loc field) (params : list sig_parameter) :
  fields_closed h0 params → same_core h h0 → fields_closed h params.
Proof.
  intros Hclosed Hcore p l Hin Hann.
  destruct (Hclosed p l Hin Hann) as [f0 Hf0].
  destruct (same_core_lookup h h0 l f0 Hcore Hf0) as (f & Hf & _). by exists f.
Qed.

Lemma foldl_after_same_core (url : string) (params : list sig_parameter) :
  ∀ (st : state) (h0 : gmap loc field),
  same_core (st_fields st) h0 →
  same_core (st_fields (foldl (SwaggerSpec.after url) st params)) h0.
Proof.
  induction params as [|p params IH]; intros st h0 H; simpl; [done|].
  by apply IH, after_same_core.
Qed.

Lemma register_again (reg : gmap string schema_class) (c : schema_class) :
  is_Some (reg !! Swagger.schema_name c) → SwaggerSpec.register reg c = reg.
Proof. intros [c' H]. unfold SwaggerSpec.register. by rewrite H. Qed.

(** ** Responses *)

Lemma resolved_other_keys (d : gmap string pyval) (key : string) :
  key ≠ "schema" → HugSpec.resolved d !! key = d !! key.
Proof.
  intros Hkey. unfold HugSpec.resolved.
  destruct (d !! "schema") as [schema|]; [|done].
  destruct (HugSpec.schema_name schema); [|done].
  by rewrite lookup_insert_ne.
Qed.

Lemma resolved_schema (d : gmap string pyval) :
  HugSpec.resolved d !! "schema"
  = match d !! "schema" with
    | Some schema =>
        Some match HugSpec.schema_name schema with
             | Some name => PyRef ("#/definitions/" +:+ name)
             | None => schema
             end
    | None => None
    end.
Proof.
  unfold HugSpec.resolved.
  destruct (d !! "schema") as [schema|] eqn:E; [|done].
  destruct (HugSpec.schema_name schema); [|done].
  by rewrite lookup_insert_eq.
Qed.

(** ** Registering the operation of a route *)

Lemma operation_at_put_path (path method : string) (data : APISpec.operation)
    (spec : APISpec.t) (path' : string) :
  APISpec.operation_at (APISpec.put_path path method data spec) path' method
  = if decide (path = path') then Some data else APISpec.operation_at spec path' method.
Proof.
  unfold APISpec.operation_at, APISpec.put_path. simpl.
  destruct (decide (path = path')) as [<-|Hne].
  - by rewrite !lookup_insert_eq.
  - by rewrite lookup_insert_ne.
Qed.

(** The loop over the versions of one route entry. *)
Lemma add_paths (path_of : version → string) (method : string)
    (data : APISpec.operation) (versions : list version) :
  ∀ st, ∃ st',
    for_each (fun _ version => add_path (path_of version) method data) versions tt st
    = Ok tt st'
    ∧ (∀ path, APISpec.operation_at (st_spec st) path method = Some data →
               APISpec.operation_at (st_spec st') path method = Some data)
    ∧ ∀ version, version ∈ versions →
        APISpec.operation_at (st_spec st') (path_of version) method = Some data.
Proof.
  induction versions as [|version versions IH]; intros st.
  - exists st. split; [done|]. split; [done|].
    intros version H. by apply elem_of_nil in H.
  - rewrite for_each_cons. unfold add_path at 1.
    match goal with |- context [for_each _ versions tt ?s] =>
      destruct (IH s) as (st' & Hrun & Hkeep & Hall) end.
    exists st'. split; [done|]. split.
    + intros path Hpath. apply Hkeep. simpl. rewrite operation_at_put_path.
      by destruct (decide (path_of version = path)).
    + intros version' Hin. apply elem_of_cons in Hin as [->|Hin]; [|by apply Hall].
      apply Hkeep. simpl. rewrite operation_at_put_path. by rewrite decide_True.
Qed.

(** ** What [get_operation] leaves of the attached metadata *)

(** The copy of the attached mapping is shallow, and the loop works on
    copies of the response dictionaries: an attached dictionary is
    what it was when [get_operation] returns, unless it is the one
    attached for 200 and the handler has a return annotation. *)
Lemma get_operation_keeps_other_metadata (interface : Interface)
    (use_default_response : bool) (st : state) :
  HugSpec.responses_closed st (default [] (i_swagger_responses interface)) →
  NoDup (dict_keys (default [] (i_swagger_responses interface))) →
  ∃ rs' st',
    HugSwagger.get_operation interface use_default_response st = Ok rs' st'
    ∧ ∀ l d, st_dicts st !! l = Some d →
        i_return_annotation interface = None
        ∨ dict_get 200 (default [] (i_swagger_responses interface)) ≠ Some l →
        st_dicts st' !! l = Some d.
Proof.
  intros Hclosed Hnd.
  destruct (get_operation_spec interface use_default_response st Hclosed Hnd)
    as (rs1 & st1 & rs' & st' & _ & Hrun & _ & _ & _ & Hkeep).
  by exists rs', st'.
Qed.

(** * The claims *)

(** C1 (the code departs from the claim).  [get_operation] copies the
    attached mapping with [copy], which is shallow, and
    [responses.setdefault(200, {})["schema"] = annotation] then writes
    into the dictionary the handler itself holds for 200: for a handler
    decorated with [response(200, description="OK")] and annotated
    [-> UserSchema], the handler's own dictionary for 200 has gained a
    [schema] entry when [get_operation] returns. *)
Theorem C1_get_operation_writes_into_attached_metadata :
  ∃ rs st',
    HugSwagger.get_operation Samples.annotated_handler true Samples.annotated_store
    = Ok rs st'
    ∧ st_dicts Samples.annotated_store !! 0%nat = Some {[ "description" := PyStr "OK" ]}
    ∧ st_dicts st' !! 0%nat
      = Some {[ "description" := PyStr "OK";
                "schema" := PySchemaMeta Samples.users_UserSchema ]}.
Proof.
  eexists _, _. split; [reflexivity|].
  split; reflexivity.
Qed.

(** C2, counterexample.  A response attached with a schema value that
    is neither a name nor a schema keeps its [schema] entry: the loop
    of [get_operation] sets its local [schema] to [None] and stores the
    copy of the response as it is. *)
Lemma C2_unrecognized_schema_is_kept :
  ∃ rs st' d,
    HugSwagger.get_operation Samples.not_found_handler false Samples.not_found_store
    = Ok rs st'
    ∧ HugSpec.response_at st' rs 404 = Some d
    ∧ d !! "schema" = Some (PyObject "{'type': 'string'}")
    ∧ d !! "description" = Some (PyStr "not found").
Proof.
  eexists _, _, _. split; [reflexivity|]. split; [reflexivity|].
  split; reflexivity.
Qed.

(** C2, amended.  [get_operation] returns every declared response with
    its entries other than [schema] intact and its [schema] resolved: a
    name, schema instance or schema class becomes a [$ref] object; a
    value of any other type stays in place, as it is.  So no [schema]
    entry of the returned mapping is a raw name, schema instance or
    schema class. *)
Theorem C2_get_operation_resolves_schemas (interface : Interface)
    (use_default_response : bool) (st : state) :
  HugSpec.responses_closed st (default [] (i_swagger_responses interface)) →
  NoDup (dict_keys (default [] (i_swagger_responses interface))) →
  ∃ rs1 st1 rs' st',
    HugSwagger.declared_responses interface use_default_response st = Ok rs1 st1
    ∧ HugSwagger.get_operation interface use_default_response st = Ok rs' st'
    ∧ (∀ code, HugSpec.response_at st1 rs1 code = None →
               HugSpec.response_at st' rs' code = None)
    ∧ (∀ code d, HugSpec.response_at st1 rs1 code = Some d →
         ∃ d', HugSpec.response_at st' rs' code = Some d'
               ∧ (∀ key, key ≠ "schema" → d' !! key = d !! key)
               ∧ d' !! "schema"
                 = match d !! "schema" with
                   | Some schema =>
                       Some match HugSpec.schema_name schema with
                            | Some name => PyRef ("#/definitions/" +:+ name)
                            | None => schema
                            end
                   | None => None
                   end)
    ∧ (∀ code d' schema,
         HugSpec.response_at st' rs' code = Some d' →
         d' !! "schema" = Some schema →
         HugSpec.schema_name schema = None).
Proof.
  intros Hclosed Hnd.
  destruct (get_operation_spec interface use_default_response st Hclosed Hnd)
    as (rs1 & st1 & rs' & st' & Hdecl & Hrun & _ & Hat & _).
  exists rs1, st1, rs', st'. split; [done|]. split; [done|].
  split; [intros code H; by rewrite Hat, H|].
  split.
  - intros code d Hd. exists (HugSpec.resolved d).
    split; [by rewrite Hat, Hd|].
    split; [intros key; apply resolved_other_keys | apply resolved_schema].
  - intros code d' schema Hd' Hschema. rewrite Hat in Hd'.
    destruct (HugSpec.response_at st1 rs1 code) as [d|]; [|done].
    injection Hd' as <-. rewrite resolved_schema in Hschema.
    destruct (d !! "schema") as [schema0|]; [|done].
    injection Hschema as <-.
    by destruct (HugSpec.schema_name schema0) eqn:E.
Qed.

(** C2, witness: the handler with the unrecognized schema value. *)
Lemma C2_get_operation_resolves_schemas_witness :
  ∃ rs1 st1 rs' st',
    HugSwagger.declared_responses Samples.not_found_handler false Samples.not_found_store
    = Ok rs1 st1
    ∧ HugSwagger.get_operation Samples.not_found_handler false Samples.not_found_store
      = Ok rs' st'
    ∧ (∀ code d' schema,
         HugSpec.response_at st' rs' code = Some d' →
         d' !! "schema" = Some schema →
         HugSpec.schema_name schema = None).
Proof.
  destruct (C2_get_operation_resolves_schemas Samples.not_found_handler false
              Samples.not_found_store)
    as (rs1 & st1 & rs' & st' & H1 & H2 & _ & _ & H3).
  - intros code l Hin. simpl in Hin. apply list_elem_of_singleton in Hin.
    injection Hin as -> ->. by eexists.
  - simpl. apply NoDup_singleton.
  - by exists rs1, st1, rs', st'.
Defined.

(** C3, counterexample.  [__init__.py] registers a body schema under
    its bare class name: the classes [UserSchema] of [app.users] and
    of [app.admin] are both documented as [#/definitions/UserSchema],
    and the registry ends with one definition, the second. *)
Lemma C3_same_class_name_collides :
  ∃ st1 st2,
    HugSwagger.get_parameters Samples.field2parameter "/users"
      Samples.create_user_handler Samples.empty_store
    = Ok [body_parameter "#/definitions/UserSchema"] st1
    ∧ HugSwagger.get_parameters Samples.field2parameter "/admins"
        Samples.create_admin_handler st1
      = Ok [body_parameter "#/definitions/UserSchema"] st2
    ∧ cls_module Samples.users_UserSchema ≠ cls_module Samples.admin_UserSchema
    ∧ APISpec.schemas (st_spec st2) = {[ "UserSchema" := Samples.admin_UserSchema ]}.
Proof.
  eexists _, _. split; [reflexivity|]. split; [reflexivity|].
  split; [done | reflexivity].
Qed.

(** C3, amended.  A [body] argument annotated with a schema class or
    instance yields exactly one parameter
    [{in: "body", name: "body", required: true, schema: {$ref: ...}}]
    and one registration.  [swagger.py] registers the class under
    [module.ClassName] unless that name is registered already, so
    classes of one name in different modules get different names;
    [__init__.py] registers it under the bare class name, replacing an
    earlier definition of that name. *)
Theorem C3_body_parameter
    (conv_swagger : string → field → string → string → gmap string pyval)
    (conv_hug : field → string → string → gmap string pyval)
    (v url : string) (interface : Interface) (st : state)
    (pre post : list sig_parameter) (names_pre names_post : list string)
    (p : sig_parameter) (c : schema_class) :
  i_signature interface = (pre ++ p :: post)%list →
  NoDup (map p_name (i_signature interface)) →
  p_name p = "body" →
  p_annotation p = Some (PySchema c) ∨ p_annotation p = Some (PySchemaMeta c) →
  i_parameters interface = (names_pre ++ "body" :: names_post)%list →
  NoDup (i_parameters interface) →
  parameters_declared interface (i_parameters interface) →
  fields_closed (st_fields st) (i_signature interface) →
  ∃ st_swagger st_hug,
    Swagger.get_parameters conv_swagger v interface url st
    = Ok (omap (SwaggerSpec.described conv_swagger v url (st_fields st)) pre
          ++ body_parameter
               ("#/components/schemas/" +:+ cls_module c +:+ "." +:+ cls_name c)
          :: omap (SwaggerSpec.described conv_swagger v url (st_fields st)) post)%list
         st_swagger
    ∧ APISpec.schemas (st_spec st_swagger)
      = SwaggerSpec.register (APISpec.schemas (st_spec st)) c
    ∧ (∀ c', cls_name c' = cls_name c → cls_module c' ≠ cls_module c →
             Swagger.schema_name c' ≠ Swagger.schema_name c)
    ∧ HugSwagger.get_parameters conv_hug url interface st
      = Ok (omap (HugSpec.described conv_hug url interface (st_fields st)) names_pre
            ++ body_parameter ("#/definitions/" +:+ cls_name c)
            :: omap (HugSpec.described conv_hug url interface (st_fields st)) names_post)%list
           st_hug
    ∧ APISpec.schemas (st_spec st_hug)
      = <[cls_name c := c]> (APISpec.schemas (st_spec st)).
Proof.
  intros Hsig Hnd Hname Hann Hnames Hndn Hdecl Hclosed.
  assert (Hbody : schema_body p c) by done.
  assert (Hentry : HugSpec.signature_entry interface "body" = Some p).
  { rewrite <- Hname. by eapply signature_entry_middle. }
  eexists _, _.
  split.
  { rewrite (get_parameters_described conv_swagger v url interface st Hclosed).
    f_equal. rewrite Hsig, omap_app. f_equal. simpl.
    by destruct (schema_body_swagger conv_swagger v url (st_fields st) p c Hbody)
      as [_ ->]. }
  split.
  { rewrite after_schemas, Hsig.
    rewrite (only_body_swagger pre post p c); [done | by rewrite <- Hsig | done]. }
  split; [intros c'; apply schema_name_distinct|].
  split.
  { rewrite (hug_get_parameters_described conv_hug url interface st Hdecl Hclosed).
    f_equal. rewrite Hnames, omap_app. f_equal. simpl.
    by destruct (schema_body_hug conv_hug url interface (st_fields st) p c Hbody Hentry)
      as [_ ->]. }
  rewrite hug_after_schemas, Hnames.
  rewrite (only_body_hug interface names_pre names_post p c);
    [done | by rewrite <- Hnames | done | done].
Qed.

(** C3, witness: [def create_user(body: UserSchema)]. *)
Lemma C3_body_parameter_witness :
  ∃ st_swagger st_hug,
    Swagger.get_parameters Samples.OpenAPIConverter "3.0.2" Samples.create_user_handler
      "/users" Samples.empty_store
    = Ok [body_parameter "#/components/schemas/app.users.UserSchema"] st_swagger
    ∧ APISpec.schemas (st_spec st_swagger)
      = SwaggerSpec.register (APISpec.schemas (st_spec Samples.empty_store))
          Samples.users_UserSchema
    ∧ (∀ c', cls_name c' = "UserSchema" → cls_module c' ≠ "app.users" →
             Swagger.schema_name c' ≠ Swagger.schema_name Samples.users_UserSchema)
    ∧ HugSwagger.get_parameters Samples.field2parameter "/users"
        Samples.create_user_handler Samples.empty_store
      = Ok [body_parameter "#/definitions/UserSchema"] st_hug
    ∧ APISpec.schemas (st_spec st_hug)
      = <["UserSchema" := Samples.users_UserSchema]>
          (APISpec.schemas (st_spec Samples.empty_store)).
Proof.
  apply (C3_body_parameter Samples.OpenAPIConverter Samples.field2parameter
           "3.0.2" "/users" Samples.create_user_handler Samples.empty_store
           [] [] [] []
           {| p_name := "body"; p_annotation := Some (PySchemaMeta Samples.users_UserSchema);
              p_default := None |}
           Samples.users_UserSchema).
  - reflexivity.
  - simpl. apply NoDup_singleton.
  - reflexivity.
  - right. reflexivity.
  - reflexivity.
  - simpl. apply NoDup_singleton.
  - intros name Hin. simpl in Hin. apply list_elem_of_singleton in Hin as ->.
    by eexists.
  - intros q l Hin. simpl in Hin. apply list_elem_of_singleton in Hin as ->.
    intros [=].
Defined.

(** C4, counterexample.  A handler with
    [response(200, schema="ExplicitSchema", description="OK")] and the
    return annotation [UserSchema]: the [schema] of 200 is the
    annotation's, the attached one is gone; the description stays. *)
Lemma C4_annotation_replaces_attached_schema :
  ∃ rs st' d,
    HugSwagger.get_operation Samples.annotated_handler true Samples.explicit_store
    = Ok rs st'
    ∧ HugSpec.response_at st' rs 200 = Some d
    ∧ d !! "schema" = Some (PyRef "#/definitions/UserSchema")
    ∧ d !! "schema" ≠ Some (PyRef "#/definitions/ExplicitSchema")
    ∧ d !! "description" = Some (PyStr "OK").
Proof.
  eexists _, _, _. split; [reflexivity|]. split; [reflexivity|].
  split; [reflexivity|]. split; [|reflexivity].
  intros [=].
Qed.

(** C4, amended.  The return annotation of a handler becomes the
    [schema] of status code 200, resolved like any other schema value,
    in place of a [schema] attached for 200; the other entries attached
    for 200, such as [description], are kept. *)
Theorem C4_return_annotation_is_schema_of_200 (interface : Interface)
    (use_default_response : bool) (st : state) (annotation : pyval) :
  i_return_annotation interface = Some annotation →
  HugSpec.responses_closed st (default [] (i_swagger_responses interface)) →
  NoDup (dict_keys (default [] (i_swagger_responses interface))) →
  ∃ rs' st' d',
    HugSwagger.get_operation interface use_default_response st = Ok rs' st'
    ∧ HugSpec.response_at st' rs' 200 = Some d'
    ∧ d' !! "schema"
      = Some match HugSpec.schema_name annotation with
             | Some name => PyRef ("#/definitions/" +:+ name)
             | None => annotation
             end
    ∧ ∀ key, key ≠ "schema" →
        d' !! key
        = default ∅ (HugSpec.response_at st
                       (default [] (i_swagger_responses interface)) 200) !! key.
Proof.
  intros Hann Hclosed Hnd.
  destruct (get_operation_spec interface use_default_response st Hclosed Hnd)
    as (rs1 & st1 & rs' & st' & Hdecl & Hrun & _ & Hat & H200 & _).
  eexists rs', st', _. split; [done|].
  split; [by rewrite Hat, (H200 annotation Hann)|].
  split.
  - by rewrite resolved_schema, lookup_insert_eq.
  - intros key Hkey. rewrite resolved_other_keys by done.
    by rewrite lookup_insert_ne.
Qed.

(** C4, witness: the handler with an attached schema for 200 and a
    return annotation. *)
Lemma C4_return_annotation_is_schema_of_200_witness :
  ∃ rs' st' d',
    HugSwagger.get_operation Samples.annotated_handler true Samples.explicit_store
    = Ok rs' st'
    ∧ HugSpec.response_at st' rs' 200 = Some d'
    ∧ d' !! "schema" = Some (PyRef "#/definitions/UserSchema")
    ∧ ∀ key, key ≠ "schema" →
        d' !! key
        = ({[ "schema" := PyStr "ExplicitSchema"; "description" := PyStr "OK" ]}
             : gmap string pyval) !! key.
Proof.
  apply (C4_return_annotation_is_schema_of_200 Samples.annotated_handler true
           Samples.explicit_store (PySchemaMeta Samples.users_UserSchema)).
  - reflexivity.
  - intros code l Hin. simpl in Hin. apply list_elem_of_singleton in Hin.
    injection Hin as -> ->. by eexists.
  - simpl. apply NoDup_singleton.
Defined.

(** C5.  A typed-scalar parameter with a default value yields
    [required = false] and carries the default; one without yields
    [required = true], and the generator attaches no [default]: the
    entry is as the converter left it.  In [swagger.py] the generator
    writes [required] itself; in [__init__.py] it assigns the field's
    [required] attribute and the converter, which reports that
    attribute, writes it. *)
Theorem C5_required_and_default
    (conv_swagger : string → field → string → string → gmap string pyval)
    (conv_hug : field → string → string → gmap string pyval)
    (v url : string) (interface : Interface) (st : state)
    (pre post : list sig_parameter) (names_pre names_post : list string)
    (p : sig_parameter) (l : loc) (f0 : field) :
  i_signature interface = (pre ++ p :: post)%list →
  p_annotation p = Some (PyField l) →
  st_fields st !! l = Some f0 →
  Swagger.skipped (p_name p) (p_annotation p) = false →
  i_parameters interface = (names_pre ++ p_name p :: names_post)%list →
  HugSpec.signature_entry interface (p_name p) = Some p →
  i_defaults interface !! p_name p = p_default p →
  parameters_declared interface (i_parameters interface) →
  fields_closed (st_fields st) (i_signature interface) →
  (∀ f name place, conv_hug f name place !! "required" = Some (PyBool (f_required f))) →
  ∃ d_swagger d_hug st_swagger st_hug,
    Swagger.get_parameters conv_swagger v interface url st
    = Ok (omap (SwaggerSpec.described conv_swagger v url (st_fields st)) pre
          ++ d_swagger
          :: omap (SwaggerSpec.described conv_swagger v url (st_fields st)) post)%list
         st_swagger
    ∧ HugSwagger.get_parameters conv_hug url interface st
      = Ok (omap (HugSpec.described conv_hug url interface (st_fields st)) names_pre
            ++ d_hug
            :: omap (HugSpec.described conv_hug url interface (st_fields st)) names_post)%list
           st_hug
    ∧ match p_default p with
      | Some default_value =>
          d_swagger !! "required" = Some (PyBool false)
          ∧ d_swagger !! "default" = Some default_value
          ∧ d_hug !! "required" = Some (PyBool false)
          ∧ d_hug !! "default" = Some default_value
      | None =>
          d_swagger !! "required" = Some (PyBool true)
          ∧ d_swagger !! "default"
            = SwaggerSpec.converted conv_swagger v url f0 p !! "default"
          ∧ d_hug !! "required" = Some (PyBool true)
          ∧ d_hug !! "default"
            = HugSpec.converted conv_hug url interface (p_name p) f0 !! "default"
      end.
Proof.
  intros Hsig Hann Hf0 Hskip Hnames Hentry Hdef Hdecl Hclosed Hreq.
  destruct (swagger_typed_scalar conv_swagger v url interface st pre post p l f0)
    as [st_swagger Hsw]; try done.
  destruct (hug_typed_scalar conv_hug url interface st names_pre names_post p l f0)
    as [st_hug Hhug]; try done.
  eexists _, _, st_swagger, st_hug. split; [exact Hsw|]. split; [exact Hhug|].
  unfold SwaggerSpec.field_parameter, HugSpec.field_parameter. rewrite Hdef.
  destruct (p_default p) as [default_value|].
  - split; [apply lookup_insert_eq|].
    split; [rewrite lookup_insert_ne by done; apply lookup_insert_eq|].
    split; [|apply lookup_insert_eq].
    rewrite lookup_insert_ne by done. unfold HugSpec.converted. rewrite Hreq.
    unfold HugSpec.relocate. simpl. rewrite Hdef. done.
  - split; [apply lookup_insert_eq|].
    split; [by rewrite lookup_insert_ne|].
    split; [|done].
    unfold HugSpec.converted. rewrite Hreq.
    unfold HugSpec.relocate. simpl. rewrite Hdef. done.
Qed.

(** C5, witness: [limit: fields.Integer() = 10] of the listing handler. *)
Lemma C5_required_and_default_witness :
  ∃ d_swagger d_hug st_swagger st_hug,
    Swagger.get_parameters Samples.OpenAPIConverter "3.0.2" Samples.listing_handler
      Samples.listing_url Samples.listing_store
    = Ok (omap (SwaggerSpec.described Samples.OpenAPIConverter "3.0.2" Samples.listing_url
                  (st_fields Samples.listing_store)) [Samples.user_id_parameter]
          ++ d_swagger :: [])%list st_swagger
    ∧ HugSwagger.get_parameters Samples.field2parameter Samples.listing_url
        Samples.listing_handler Samples.listing_store
      = Ok (omap (HugSpec.described Samples.field2parameter Samples.listing_url
                    Samples.listing_handler (st_fields Samples.listing_store)) ["user_id"]
            ++ d_hug :: [])%list st_hug
    ∧ d_swagger !! "required" = Some (PyBool false)
    ∧ d_swagger !! "default" = Some (PyInt 10)
    ∧ d_hug !! "required" = Some (PyBool false)
    ∧ d_hug !! "default" = Some (PyInt 10).
Proof.
  apply (C5_required_and_default Samples.OpenAPIConverter Samples.field2parameter
           "3.0.2" Samples.listing_url Samples.listing_handler Samples.listing_store
           [Samples.user_id_parameter] [] ["user_id"] []
           Samples.limit_parameter 1%nat Samples.limit_field).
  - reflexivity.
  - reflexivity.
  - reflexivity.
  - reflexivity.
  - reflexivity.
  - reflexivity.
  - reflexivity.
  - exact listing_declared.
  - exact listing_closed.
  - exact sample_converter_required.
Defined.

(** C6.  The descriptor of a typed-scalar parameter [name] on a route
    [url] has [in = "path"] exactly when ["{name}"] occurs in [url],
    and [in = "query"] otherwise.  The generators compute the location,
    record it on the field and pass it to the converter as the default
    location; the converter, which reports the location it is given,
    writes [in]. *)
Theorem C6_parameter_location
    (conv_swagger : string → field → string → string → gmap string pyval)
    (conv_hug : field → string → string → gmap string pyval)
    (v url : string) (interface : Interface) (st : state)
    (pre post : list sig_parameter) (names_pre names_post : list string)
    (p : sig_parameter) (l : loc) (f0 : field) :
  i_signature interface = (pre ++ p :: post)%list →
  p_annotation p = Some (PyField l) →
  st_fields st !! l = Some f0 →
  Swagger.skipped (p_name p) (p_annotation p) = false →
  i_parameters interface = (names_pre ++ p_name p :: names_post)%list →
  HugSpec.signature_entry interface (p_name p) = Some p →
  parameters_declared interface (i_parameters interface) →
  fields_closed (st_fields st) (i_signature interface) →
  (∀ f name place,
     place = "path" ∨ place = "query" →
     f_metadata f !! "location" = Some (PyStr place) →
     conv_swagger v f name place !! "in" = Some (PyStr place)) →
  (∀ f name place,
     place = "path" ∨ place = "query" →
     f_metadata f !! "location" = Some (PyStr place) →
     conv_hug f name place !! "in" = Some (PyStr place)) →
  ∃ d_swagger d_hug st_swagger st_hug,
    Swagger.get_parameters conv_swagger v interface url st
    = Ok (omap (SwaggerSpec.described conv_swagger v url (st_fields st)) pre
          ++ d_swagger
          :: omap (SwaggerSpec.described conv_swagger v url (st_fields st)) post)%list
         st_swagger
    ∧ HugSwagger.get_parameters conv_hug url interface st
      = Ok (omap (HugSpec.described conv_hug url interface (st_fields st)) names_pre
            ++ d_hug
            :: omap (HugSpec.described conv_hug url interface (st_fields st)) names_post)%list
           st_hug
    ∧ (d_swagger !! "in" = Some (PyStr "path") ↔ has_placeholder (p_name p) url)
    ∧ (d_hug !! "in" = Some (PyStr "path") ↔ has_placeholder (p_name p) url)
    ∧ (¬ has_placeholder (p_name p) url →
       d_swagger !! "in" = Some (PyStr "query") ∧ d_hug !! "in" = Some (PyStr "query")).
Proof.
  intros Hsig Hann Hf0 Hskip Hnames Hentry Hdecl Hclosed Hin_swagger Hin_hug.
  destruct (swagger_typed_scalar conv_swagger v url interface st pre post p l f0)
    as [st_swagger Hsw]; try done.
  destruct (hug_typed_scalar conv_hug url interface st names_pre names_post p l f0)
    as [st_hug Hhug]; try done.
  eexists _, _, st_swagger, st_hug. split; [exact Hsw|]. split; [exact Hhug|].
  destruct (get_parameter_location_spec (p_name p) url) as (Hpath & Hquery & Hsame).
  assert (Hplace : Swagger.get_parameter_location (p_name p) url = "path"
                   ∨ Swagger.get_parameter_location (p_name p) url = "query").
  { unfold Swagger.get_parameter_location.
    destruct (str_in _ url); [by left | by right]. }
  assert (Hsw_in : SwaggerSpec.field_parameter conv_swagger v url f0 p !! "in"
                   = Some (PyStr (Swagger.get_parameter_location (p_name p) url))).
  { unfold SwaggerSpec.field_parameter.
    destruct (p_default p); rewrite !lookup_insert_ne by done;
      (apply Hin_swagger; [done | apply lookup_singleton_eq]). }
  assert (Hhug_in : HugSpec.field_parameter conv_hug url interface (p_name p) f0 !! "in"
                    = Some (PyStr (Swagger.get_parameter_location (p_name p) url))).
  { unfold HugSpec.field_parameter, HugSpec.converted.
    destruct (i_defaults interface !! p_name p); rewrite ?lookup_insert_ne by done;
      rewrite Hsame;
      (apply Hin_hug; [done | simpl; rewrite Hsame; apply lookup_singleton_eq]). }
  rewrite Hsw_in, Hhug_in.
  assert (Hiff : Some (PyStr (Swagger.get_parameter_location (p_name p) url))
                 = Some (PyStr "path") ↔ has_placeholder (p_name p) url).
  { split.
    - intros Heq. destruct (classic_placeholder (p_name p) url) as [Hyes|Hno]; [done|].
      rewrite (Hquery Hno) in Heq. discriminate.
    - intros Hyes. by rewrite (Hpath Hyes). }
  split; [done|]. split; [done|].
  intros Hno. by rewrite (Hquery Hno).
Qed.

(** C6, witness: [user_id] of the listing handler, on
    [/users/{user_id}]. *)
Lemma C6_parameter_location_witness :
  ∃ d_swagger d_hug st_swagger st_hug,
    Swagger.get_parameters Samples.OpenAPIConverter "3.0.2" Samples.listing_handler
      Samples.listing_url Samples.listing_store
    = Ok (omap (SwaggerSpec.described Samples.OpenAPIConverter "3.0.2" Samples.listing_url
                  (st_fields Samples.listing_store)) []
          ++ d_swagger
          :: omap (SwaggerSpec.described Samples.OpenAPIConverter "3.0.2"
                     Samples.listing_url (st_fields Samples.listing_store))
               [Samples.limit_parameter])%list st_swagger
    ∧ HugSwagger.get_parameters Samples.field2parameter Samples.listing_url
        Samples.listing_handler Samples.listing_store
      = Ok (omap (HugSpec.described Samples.field2parameter Samples.listing_url
                    Samples.listing_handler (st_fields Samples.listing_store)) []
            ++ d_hug
            :: omap (HugSpec.described Samples.field2parameter Samples.listing_url
                       Samples.listing_handler (st_fields Samples.listing_store))
                 ["limit"])%list st_hug
    ∧ (d_swagger !! "in" = Some (PyStr "path") ↔ has_placeholder "user_id" Samples.listing_url)
    ∧ (d_hug !! "in" = Some (PyStr "path") ↔ has_placeholder "user_id" Samples.listing_url)
    ∧ (¬ has_placeholder "user_id" Samples.listing_url →
       d_swagger !! "in" = Some (PyStr "query") ∧ d_hug !! "in" = Some (PyStr "query")).
Proof.
  apply (C6_parameter_location Samples.OpenAPIConverter Samples.field2parameter
           "3.0.2" Samples.listing_url Samples.listing_handler Samples.listing_store
           [] [Samples.limit_parameter] [] ["limit"]
           Samples.user_id_parameter 0%nat Samples.user_id_field).
  - reflexivity.
  - reflexivity.
  - reflexivity.
  - reflexivity.
  - reflexivity.
  - reflexivity.
  - exact listing_declared.
  - exact listing_closed.
  - intros f name place _. apply sample_converter_in.
  - intros f name place _. apply sample_converter_in.
Defined.

(** C7, counterexample.  [get_parameters] assigns the [metadata]
    attribute of a typed-field annotation: the field that annotates
    [user_id], declared with [description="user id"], holds only
    [{"location": "path"}] afterwards. *)
Lemma C7_get_parameters_overwrites_metadata :
  ∃ ps st',
    Swagger.get_parameters Samples.OpenAPIConverter "3.0.2" Samples.listing_handler
      Samples.listing_url Samples.listing_store = Ok ps st'
    ∧ f_metadata <$> st_fields Samples.listing_store !! 0%nat
      = Some {[ "description" := PyStr "user id" ]}
    ∧ f_metadata <$> st_fields st' !! 0%nat = Some {[ "location" := PyStr "path" ]}
    ∧ f_metadata <$> st_fields st' !! 0%nat
      ≠ f_metadata <$> st_fields Samples.listing_store !! 0%nat.
Proof.
  eexists _, _. split; [reflexivity|].
  split; [reflexivity|]. split; [reflexivity|].
  intros [=].
Qed.

(** C7, amended.  Besides registering schemas and logging,
    [get_parameters] assigns attributes of the field objects that
    annotate the parameters it classifies: [metadata] becomes
    [{"location": place}] in both generators, and [required] becomes
    "the parameter has no default" in [__init__.py].  Nothing else
    changes: the field type (and, in [swagger.py], [required]), the
    field objects that annotate no classified parameter, the response
    dictionaries, and the title, version, options and paths of the
    document builder; [swagger.py] does not log, [__init__.py] appends
    its records to the log.  The interface and its signature are only
    read. *)
Theorem C7_get_parameters_side_effects
    (conv_swagger : string → field → string → string → gmap string pyval)
    (conv_hug : field → string → string → gmap string pyval)
    (v url : string) (interface : Interface) (st : state) :
  parameters_declared interface (i_parameters interface) →
  fields_closed (st_fields st) (i_signature interface) →
  ∃ ps_swagger st_swagger ps_hug st_hug,
    Swagger.get_parameters conv_swagger v interface url st = Ok ps_swagger st_swagger
    ∧ HugSwagger.get_parameters conv_hug url interface st = Ok ps_hug st_hug
    ∧ st_dicts st_swagger = st_dicts st
    ∧ st_log st_swagger = st_log st
    ∧ APISpec.title (st_spec st_swagger) = APISpec.title (st_spec st)
    ∧ APISpec.version (st_spec st_swagger) = APISpec.version (st_spec st)
    ∧ APISpec.options (st_spec st_swagger) = APISpec.options (st_spec st)
    ∧ APISpec.paths (st_spec st_swagger) = APISpec.paths (st_spec st)
    ∧ (∀ l f, st_fields st !! l = Some f →
         ∃ f', st_fields st_swagger !! l = Some f'
               ∧ f_kind f' = f_kind f
               ∧ f_required f' = f_required f
               ∧ (l ∈ omap SwaggerSpec.relocated (i_signature interface) →
                  ∃ p, p ∈ i_signature interface
                       ∧ p_annotation p = Some (PyField l)
                       ∧ f_metadata f'
                         = {[ "location"
                              := PyStr (Swagger.get_parameter_location (p_name p) url) ]})
               ∧ (l ∉ omap SwaggerSpec.relocated (i_signature interface) → f' = f))
    ∧ st_dicts st_hug = st_dicts st
    ∧ st_log st_hug
      = (st_log st ++ omap (HugSpec.logged url interface) (i_parameters interface))%list
    ∧ APISpec.title (st_spec st_hug) = APISpec.title (st_spec st)
    ∧ APISpec.version (st_spec st_hug) = APISpec.version (st_spec st)
    ∧ APISpec.options (st_spec st_hug) = APISpec.options (st_spec st)
    ∧ APISpec.paths (st_spec st_hug) = APISpec.paths (st_spec st)
    ∧ (∀ l f, st_fields st !! l = Some f →
         ∃ f', st_fields st_hug !! l = Some f'
               ∧ f_kind f' = f_kind f
               ∧ (l ∈ omap (HugSpec.relocated interface) (i_parameters interface) →
                  ∃ name, name ∈ i_parameters interface
                          ∧ f_metadata f'
                            = {[ "location"
                                 := PyStr (HugSwagger.where_is_parameter name url) ]}
                          ∧ f_required f'
                            = bool_decide (i_defaults interface !! name = None))
               ∧ (l ∉ omap (HugSpec.relocated interface) (i_parameters interface) →
                  f' = f)).
Proof.
  intros Hdecl Hclosed.
  eexists _, _, _, _.
  split; [by apply get_parameters_described|].
  split; [by apply hug_get_parameters_described|].
  destruct (after_unchanged url (i_signature interface) st)
    as (S1 & S2 & S3 & S4 & _ & S6 & S7).
  destruct (hug_after_unchanged url interface (i_parameters interface) st)
    as (G1 & G2 & G3 & _ & G5 & G6).
  do 6 (split; [done|]).
  split.
  { intros l f Hf.
    destruct (after_fields url l (i_signature interface) st f Hf)
      as (f' & Hf' & Hcore & Hin & Hout).
    exists f'. split; [done|].
    unfold field_core in Hcore. injection Hcore as Hk Hr.
    split; [done|]. split; [done|]. split; [|done].
    intros Hl. destruct (Hin Hl) as (p & Hp & Hrel & Hm).
    exists p. split; [done|]. split; [|done].
    by apply relocated_annotation. }
  split; [done|]. split; [apply hug_after_log|].
  do 4 (split; [done|]).
  intros l f Hf.
  destruct (hug_after_fields url interface l (i_parameters interface) st f Hf)
    as (f' & Hf' & Hk & Hin & Hout).
  exists f'. split; [done|]. split; [done|]. split; [|done].
  intros Hl. destruct (Hin Hl) as (name & Hname & Hrel & ->).
  exists name. done.
Qed.

(** C7, witness: the listing handler. *)
Lemma C7_get_parameters_side_effects_witness :
  ∃ ps_swagger st_swagger ps_hug st_hug,
    Swagger.get_parameters Samples.OpenAPIConverter "3.0.2" Samples.listing_handler
      Samples.listing_url Samples.listing_store = Ok ps_swagger st_swagger
    ∧ HugSwagger.get_parameters Samples.field2parameter Samples.listing_url
        Samples.listing_handler Samples.listing_store = Ok ps_hug st_hug
    ∧ st_dicts st_swagger = st_dicts Samples.listing_store
    ∧ st_dicts st_hug = st_dicts Samples.listing_store.
Proof.
  destruct (C7_get_parameters_side_effects Samples.OpenAPIConverter
              Samples.field2parameter "3.0.2" Samples.listing_url
              Samples.listing_handler Samples.listing_store
              listing_declared listing_closed)
    as (ps1 & st1 & ps2 & st2 & H1 & H2 & H3 & _ & _ & _ & _ & _ & _ & H4 & _).
  by exists ps1, st1, ps2, st2.
Defined.

(** C8.  Two routes whose handlers take the same body schema: both
    parameter lists are produced, both hold the body parameter, and
    the second registration, under a name that is registered already,
    neither raises nor changes the registry, which holds one
    definition under that name. *)
Theorem C8_registration_is_idempotent
    (conv : string → field → string → string → gmap string pyval)
    (v url1 url2 : string) (interface1 interface2 : Interface) (st : state)
    (p1 p2 : sig_parameter) (pre2 post2 : list sig_parameter) (c : schema_class) :
  p1 ∈ i_signature interface1 →
  i_signature interface2 = (pre2 ++ p2 :: post2)%list →
  NoDup (map p_name (i_signature interface2)) →
  schema_body p1 c →
  schema_body p2 c →
  fields_closed (st_fields st) (i_signature interface1) →
  fields_closed (st_fields st) (i_signature interface2) →
  ∃ ps1 st1 ps2 st2,
    Swagger.get_parameters conv v interface1 url1 st = Ok ps1 st1
    ∧ Swagger.get_parameters conv v interface2 url2 st1 = Ok ps2 st2
    ∧ body_parameter ("#/components/schemas/" +:+ Swagger.schema_name c) ∈ ps1
    ∧ body_parameter ("#/components/schemas/" +:+ Swagger.schema_name c) ∈ ps2
    ∧ is_Some (APISpec.schemas (st_spec st1) !! Swagger.schema_name c)
    ∧ except_duplicate (components_schema (Swagger.schema_name c) c) st1 = Ok tt st1
    ∧ APISpec.schemas (st_spec st2) = APISpec.schemas (st_spec st1).
Proof.
  intros Hp1 Hsig2 Hnd2 Hbody1 Hbody2 Hclosed1 Hclosed2.
  set (st1 := foldl (SwaggerSpec.after url1) st (i_signature interface1)).
  assert (Hcore1 : same_core (st_fields st1) (st_fields st)).
  { by apply foldl_after_same_core. }
  assert (Hclosed2' : fields_closed (st_fields st1) (i_signature interface2)).
  { by eapply fields_closed_same_core. }
  assert (Hreg : is_Some (APISpec.schemas (st_spec st1) !! Swagger.schema_name c)).
  { unfold st1. rewrite after_schemas. apply registers_registered.
    apply list_elem_of_omap. exists p1. split; [done|].
    by destruct (schema_body_swagger conv v url1 (st_fields st) p1 c Hbody1). }
  eexists _, st1, _, _.
  split; [by apply get_parameters_described|].
  split; [by apply get_parameters_described|].
  split.
  { apply list_elem_of_omap. exists p1. split; [done|].
    by destruct (schema_body_swagger conv v url1 (st_fields st) p1 c Hbody1). }
  split.
  { apply list_elem_of_omap. exists p2. split.
    - rewrite Hsig2. apply elem_of_app. right. apply list_elem_of_here.
    - by destruct (schema_body_swagger conv v url2 (st_fields st1) p2 c Hbody2). }
  split; [done|]. split.
  { destruct Hreg as [c' Hc']. unfold except_duplicate, components_schema.
    by rewrite Hc'. }
  rewrite after_schemas, Hsig2.
  rewrite (only_body_swagger pre2 post2 p2 c); [|by rewrite <- Hsig2 | done].
  simpl. by apply register_again.
Qed.

(** C8, witness: [create_user] routed at [/users] and at [/v2/users]. *)
Lemma C8_registration_is_idempotent_witness :
  ∃ ps1 st1 ps2 st2,
    Swagger.get_parameters Samples.OpenAPIConverter "3.0.2" Samples.create_user_handler
      "/users" Samples.empty_store = Ok ps1 st1
    ∧ Swagger.get_parameters Samples.OpenAPIConverter "3.0.2" Samples.create_user_handler
        "/v2/users" st1 = Ok ps2 st2
    ∧ body_parameter
        ("#/components/schemas/" +:+ Swagger.schema_name Samples.users_UserSchema) ∈ ps1
    ∧ body_parameter
        ("#/components/schemas/" +:+ Swagger.schema_name Samples.users_UserSchema) ∈ ps2
    ∧ is_Some (APISpec.schemas (st_spec st1)
               !! Swagger.schema_name Samples.users_UserSchema)
    ∧ except_duplicate
        (components_schema (Swagger.schema_name Samples.users_UserSchema)
           Samples.users_UserSchema) st1 = Ok tt st1
    ∧ APISpec.schemas (st_spec st2) = APISpec.schemas (st_spec st1).
Proof.
  apply (C8_registration_is_idempotent Samples.OpenAPIConverter "3.0.2"
           "/users" "/v2/users" Samples.create_user_handler Samples.create_user_handler
           Samples.empty_store
           {| p_name := "body"; p_annotation := Some (PySchemaMeta Samples.users_UserSchema);
              p_default := None |}
           {| p_name := "body"; p_annotation := Some (PySchemaMeta Samples.users_UserSchema);
              p_default := None |}
           [] [] Samples.users_UserSchema).
  - apply list_elem_of_here.
  - reflexivity.
  - simpl. apply NoDup_singleton.
  - split; [reflexivity | right; reflexivity].
  - split; [reflexivity | right; reflexivity].
  - intros q l Hin. simpl in Hin. apply list_elem_of_singleton in Hin as ->.
    intros [=].
  - intros q l Hin. simpl in Hin. apply list_elem_of_singleton in Hin as ->.
    intros [=].
Defined.

(** C9, counterexample.  A route registered for version 0: the
    operation is at the url itself, not under [/v0]. *)
Lemma C9_version_zero_is_unprefixed :
  ∃ st' data,
    HugSwagger.document_interface Samples.field2parameter HugSwagger.settings
      "/users" "GET" (OneVersion (Some 0)) Samples.plain_handler Samples.empty_store
    = Ok tt st'
    ∧ APISpec.operation_at (st_spec st') "/users" "get" = Some data
    ∧ APISpec.operation_at (st_spec st') "/v0/users" "get" = None.
Proof.
  eexists _, _. split.
  - unfold HugSwagger.document_interface, bind. reflexivity.
  - split; reflexivity.
Qed.

(** C9, amended.  For every version of a route entry, the operation is
    registered under the lowercased method at the url itself when the
    version is absent or 0, and at ["/v{version}" + url] when it is
    another integer: the code tests the truth value of the version.
    The operation is the [methods_data] built from the parameters and
    the responses of the interface. *)
Theorem C9_operation_registered_per_version
    (conv : field → string → string → gmap string pyval)
    (cfg : HugSwagger.Settings) (url method : string) (versions : versions_key)
    (interface : Interface) (st : state) :
  parameters_declared interface (i_parameters interface) →
  fields_closed (st_fields st) (i_signature interface) →
  HugSpec.responses_closed st (default [] (i_swagger_responses interface)) →
  NoDup (dict_keys (default [] (i_swagger_responses interface))) →
  ∃ parameters st1 responses st2 st',
    HugSwagger.get_parameters conv url interface st = Ok parameters st1
    ∧ HugSwagger.get_operation interface (HugSwagger.USE_DEFAULT_RESPONSE cfg) st1
      = Ok responses st2
    ∧ HugSwagger.document_interface conv cfg url method versions interface st
      = Ok tt st'
    ∧ ∀ version, version ∈ HugSwagger.normalize_versions versions →
        APISpec.operation_at (st_spec st')
          match version with
          | None => url
          | Some 0 => url
          | Some z => "/v" +:+ pretty z +:+ url
          end
          (lower method)
        = Some (HugSwagger.methods_data (i_documentation interface) parameters responses).
Proof.
  intros Hdecl Hclosed Hresponses Hnd.
  pose proof (hug_get_parameters_described conv url interface st Hdecl Hclosed)
    as Hparams.
  set (parameters := omap (HugSpec.described conv url interface (st_fields st))
                       (i_parameters interface)) in *.
  set (st1 := foldl (HugSpec.after url interface) st (i_parameters interface)) in *.
  assert (Hresponses1 :
            HugSpec.responses_closed st1 (default [] (i_swagger_responses interface))).
  { destruct (hug_after_unchanged url interface (i_parameters interface) st)
      as (Hdicts & _).
    intros code l Hin. unfold st1. rewrite Hdicts. by apply (Hresponses code). }
  destruct (get_operation_spec interface (HugSwagger.USE_DEFAULT_RESPONSE cfg) st1
              Hresponses1 Hnd)
    as (_ & _ & responses & st2 & _ & Hrun & _).
  destruct (add_paths (fun version => HugSwagger.versioned_url version url)
              (lower method)
              (HugSwagger.methods_data (i_documentation interface) parameters responses)
              (HugSwagger.normalize_versions versions) st2)
    as (st' & Hloop & _ & Hall).
  exists parameters, st1, responses, st2, st'.
  split; [done|]. split; [done|]. split.
  - unfold HugSwagger.document_interface, bind. by rewrite Hparams, Hrun.
  - intros version Hin. specialize (Hall version Hin).
    unfold HugSwagger.versioned_url in Hall.
    destruct version as [[| |]|]; exact Hall.
Qed.

(** C9, witness: a route entry for the versions 1 and 2. *)
Lemma C9_operation_registered_per_version_witness :
  ∃ parameters st1 responses st2 st',
    HugSwagger.get_parameters Samples.field2parameter "/users" Samples.plain_handler
      Samples.empty_store = Ok parameters st1
    ∧ HugSwagger.get_operation Samples.plain_handler
        (HugSwagger.USE_DEFAULT_RESPONSE HugSwagger.settings) st1
      = Ok responses st2
    ∧ HugSwagger.document_interface Samples.field2parameter HugSwagger.settings
        "/users" "GET" (Versions [Some 1; Some 2]) Samples.plain_handler
        Samples.empty_store = Ok tt st'
    ∧ ∀ version, version ∈ [Some 1; Some 2] →
        APISpec.operation_at (st_spec st')
          match version with
          | None => "/users"
          | Some 0 => "/users"
          | Some z => "/v" +:+ pretty z +:+ "/users"
          end
          "get"
        = Some (HugSwagger.methods_data Samples.json_documentation parameters responses).
Proof.
  apply (C9_operation_registered_per_version Samples.field2parameter
           HugSwagger.settings "/users" "GET" (Versions [Some 1; Some 2])
           Samples.plain_handler Samples.empty_store).
  - intros name Hin. by apply elem_of_nil in Hin.
  - intros p l Hin. by apply elem_of_nil in Hin.
  - intros code l Hin. by apply elem_of_nil in Hin.
  - apply NoDup_nil_2.
Defined.

(** C10, counterexample.  [APISpec(...)] is built before the routes
    are looked at: for a version string apispec refuses, here
    ["1.0"], [generate_spec] raises apispec's error on an application
    with no routes as well, and returns no document. *)
Lemma C10_refused_version_raises :
  Swagger.generate_spec Samples.OpenAPIConverter Samples.refused_version
    Samples.refused_path {| http_routes := [] |} Swagger.DEFAULT_TITLE None "1.0"
    Swagger.DEFAULT_HOST Swagger.DEFAULT_SCHEMES ∅ Samples.empty_store
  = Raise (APISpecError "Not a valid OpenAPI version number: 1.0") Samples.empty_store.
Proof. reflexivity. Qed.

(** C10, amended.  On an application with no routes, for an OpenAPI
    version string apispec accepts and options none of which is named
    like a key of the document itself, [generate_spec] returns the
    document of a new [APISpec]: the configured title, version, host
    and schemes, and no path.  ([to_dict()] merges an option named
    [info] or [paths] into that entry of the document, and an option
    named [plugins] is a second value for that argument of
    [APISpec(...)], hence the condition on the options.) *)
Theorem C10_generate_spec_without_routes
    (conv : string → field → string → string → gmap string pyval)
    (refused_version : string → option exn)
    (refused_path : string → string → string → option exn)
    (title : string) (version : option string) (openapi_version host : string)
    (schemes : list string) (options : gmap string pyval) (st : state) :
  refused_version openapi_version = None →
  plain_options options →
  ∃ doc st',
    Swagger.generate_spec conv refused_version refused_path {| http_routes := [] |}
      title version openapi_version host schemes options st = Ok doc st'
    ∧ APISpec.info_title doc = title
    ∧ APISpec.info_version doc = version
    ∧ APISpec.doc_dialect_version doc = openapi_version
    ∧ APISpec.root doc !! "host" = Some (PyStr host)
    ∧ APISpec.root doc !! "schemes" = Some (PyStrs schemes)
    ∧ APISpec.doc_paths doc = ∅.
Proof.
  intros Haccepted _.
  unfold Swagger.generate_spec, Swagger.new_spec, bind. rewrite Haccepted.
  unfold put_spec, get_spec, ret. simpl.
  eexists _, _. split; [reflexivity|]. simpl.
  repeat split.
  - rewrite lookup_insert_ne by done. apply lookup_insert_eq.
  - apply lookup_insert_eq.
Qed.

Lemma C10_generate_spec_without_routes_witness :
  ∃ doc st',
    Swagger.generate_spec Samples.OpenAPIConverter Samples.refused_version
      Samples.refused_path {| http_routes := [] |} Swagger.DEFAULT_TITLE None
      Swagger.DEFAULT_OPENAPI_VERSION Swagger.DEFAULT_HOST Swagger.DEFAULT_SCHEMES ∅
      Samples.empty_store = Ok doc st'
    ∧ APISpec.info_title doc = Swagger.DEFAULT_TITLE
    ∧ APISpec.root doc !! "host" = Some (PyStr Swagger.DEFAULT_HOST)
    ∧ APISpec.doc_paths doc = ∅.
Proof.
  destruct (C10_generate_spec_without_routes Samples.OpenAPIConverter
              Samples.refused_version Samples.refused_path Swagger.DEFAULT_TITLE None
              Swagger.DEFAULT_OPENAPI_VERSION Swagger.DEFAULT_HOST
              Swagger.DEFAULT_SCHEMES ∅ Samples.empty_store eq_refl)
    as (doc & st' & Hrun & Ht & _ & _ & Hhost & _ & Hpaths).
  - intros key _. apply lookup_empty.
  - by exists doc, st'.
Defined.

(** * Further properties *)

(** ** Arguments [swagger.py] passes over *)

(** X1.  [swagger.py] passes over the arguments annotated with a
    directive, named [request] or [response], or prefixed [hug_],
    before it looks at anything else: [get_parameters] gives the same
    result, and the same store, as on the signature without them. *)
Theorem X1_skipped_arguments_are_passed_over
    (conv : string → field → string → string → gmap string pyval)
    (v url : string) (interface : Interface) (st : state) :
  Swagger.get_parameters conv v interface url st
  = Swagger.get_parameters conv v (without_skipped interface) url st.
Proof.
  unfold Swagger.get_parameters, without_skipped. simpl.
  generalize (@nil (gmap string pyval)) as acc. revert st.
  induction (i_signature interface) as [|p params IH]; intros st acc; [done|].
  simpl. destruct (Swagger.skipped (p_name p) (p_annotation p)) eqn:Hskip; simpl.
  - rewrite <- IH. unfold bind, Swagger.classify. by rewrite Hskip.
  - unfold bind. destruct (Swagger.classify conv v url acc p st); [apply IH | done].
Qed.

(** X2.  Arguments that are neither annotated with a field nor a
    [body] annotated with a schema are left out without an error:
    when a signature has no other argument, [get_parameters] returns
    the empty list and the store it was given. *)
Theorem X2_unsupported_arguments_are_left_out
    (conv : string → field → string → string → gmap string pyval)
    (v url : string) (interface : Interface) (st : state) :
  (∀ p, p ∈ i_signature interface → ¬ documentable p) →
  Swagger.get_parameters conv v interface url st = Ok [] st.
Proof.
  unfold Swagger.get_parameters.
  generalize (@nil (gmap string pyval)) as acc.
  induction (i_signature interface) as [|p params IH]; intros acc Hno; [done|].
  rewrite for_each_cons.
  assert (Hstep : Swagger.classify conv v url acc p st = Ok acc st).
  { assert (Hp : ¬ documentable p) by (apply Hno, list_elem_of_here).
    unfold Swagger.classify.
    destruct (Swagger.skipped (p_name p) (p_annotation p)); [done|].
    destruct (p_annotation p) as [[| | | | |l|c|c| | |]|] eqn:Hann; try done.
    - exfalso. apply Hp. left. by exists l.
    - destruct (String.eqb_spec (p_name p) "body") as [Hname|]; [|done].
      exfalso. apply Hp. right. split; [done|]. exists c. by left.
    - destruct (String.eqb_spec (p_name p) "body") as [Hname|]; [|done].
      exfalso. apply Hp. right. split; [done|]. exists c. by right. }
  rewrite Hstep. apply IH. intros q Hq. apply Hno. by apply list_elem_of_further.
Qed.

(** [def handler(page, body: object(), session: object())]: no argument
    is documentable. *)
Lemma X2_unsupported_arguments_are_left_out_witness :
  Swagger.get_parameters Samples.OpenAPIConverter "3.0.2"
    {| i_signature :=
         [ {| p_name := "page"; p_annotation := None; p_default := None |};
           {| p_name := "body"; p_annotation := Some (PyObject "A()"); p_default := None |};
           {| p_name := "session"; p_annotation := Some (PySchema Samples.users_UserSchema);
              p_default := None |} ];
       i_return_annotation := None; i_swagger_responses := None;
       i_parameters := ["page"; "body"; "session"]; i_defaults := ∅;
       i_documentation := Samples.json_documentation |}
    "/things" Samples.empty_store
  = Ok [] Samples.empty_store.
Proof.
  apply X2_unsupported_arguments_are_left_out.
  intros p Hin. simpl in Hin.
  repeat (apply elem_of_cons in Hin as [->|Hin]);
    [| | |by apply elem_of_nil in Hin];
    intros [[l Hl]|[Hname [c [Hc|Hc]]]]; discriminate.
Defined.

(** X3.  A body schema whose qualified name is registered already,
    with whatever content, is documented all the same and the earlier
    definition stays: a conflict of names is neither reported nor
    resolved in favour of the later schema. *)
Theorem X3_earlier_definition_is_kept
    (conv : string → field → string → string → gmap string pyval)
    (v url : string) (interface : Interface) (st : state)
    (p : sig_parameter) (c c0 : schema_class) :
  p ∈ i_signature interface →
  schema_body p c →
  APISpec.schemas (st_spec st) !! Swagger.schema_name c = Some c0 →
  fields_closed (st_fields st) (i_signature interface) →
  ∃ ps st',
    Swagger.get_parameters conv v interface url st = Ok ps st'
    ∧ body_parameter ("#/components/schemas/" +:+ Swagger.schema_name c) ∈ ps
    ∧ APISpec.schemas (st_spec st') !! Swagger.schema_name c = Some c0.
Proof.
  intros Hp Hbody Hreg Hclosed.
  eexists _, _. split; [by apply get_parameters_described|].
  split.
  - apply list_elem_of_omap. exists p. split; [done|].
    by destruct (schema_body_swagger conv v url (st_fields st) p c Hbody).
  - rewrite after_schemas. by apply registers_keep.
Qed.

Lemma X3_earlier_definition_is_kept_witness :
  ∃ ps st',
    Swagger.get_parameters Samples.OpenAPIConverter "3.0.2" Samples.create_user_handler
      "/users"
      (with_spec (APISpec.with_schemas
                    {[ "app.users.UserSchema" := Samples.admin_UserSchema ]}
                    (st_spec Samples.empty_store)) Samples.empty_store)
    = Ok ps st'
    ∧ body_parameter
        ("#/components/schemas/" +:+ Swagger.schema_name Samples.users_UserSchema) ∈ ps
    ∧ APISpec.schemas (st_spec st') !! Swagger.schema_name Samples.users_UserSchema
      = Some Samples.admin_UserSchema.
Proof.
  apply (X3_earlier_definition_is_kept Samples.OpenAPIConverter "3.0.2" "/users"
           Samples.create_user_handler _
           {| p_name := "body"; p_annotation := Some (PySchemaMeta Samples.users_UserSchema);
              p_default := None |}
           Samples.users_UserSchema Samples.admin_UserSchema).
  - apply list_elem_of_here.
  - split; [reflexivity | right; reflexivity].
  - reflexivity.
  - intros q l Hin. simpl in Hin. apply list_elem_of_singleton in Hin as ->.
    intros [=].
Defined.

(** ** Loops that only act on the store *)

(** A loop whose steps return, keep an invariant [I], move the store
    along a preorder [R] and establish [Q x] for their item, where [Q]
    is stable under [R]: the loop returns, keeps [I], moves the store
    along [R] and establishes [Q] for every item. *)
Lemma for_each_unit {A} (I : state → Prop) (R : state → state → Prop)
    (Q : A → state → Prop) (body : unit → A → M unit) (xs : list A) :
  (∀ st, R st st) →
  (∀ st1 st2 st3, R st1 st2 → R st2 st3 → R st1 st3) →
  (∀ x st st', Q x st → R st st' → Q x st') →
  (∀ x st, x ∈ xs → I st →
     ∃ st', body tt x st = Ok tt st' ∧ I st' ∧ R st st' ∧ Q x st') →
  ∀ st, I st →
    ∃ st', for_each body xs tt st = Ok tt st' ∧ I st' ∧ R st st'
           ∧ ∀ x, x ∈ xs → Q x st'.
Proof.
  intros Hrefl Htrans Hstable.
  induction xs as [|x xs IH]; intros Hstep st HI.
  - exists st. split; [done|]. split; [done|]. split; [apply Hrefl|].
    intros x Hx. by apply elem_of_nil in Hx.
  - destruct (Hstep x st (list_elem_of_here _ _) HI) as (st1 & Hrun1 & HI1 & HR1 & HQ1).
    destruct (IH (fun y s Hy => Hstep y s (list_elem_of_further _ _ _ Hy)) st1 HI1)
      as (st' & Hrun & HI' & HR' & HQ').
    exists st'. split; [by rewrite for_each_cons, Hrun1|].
    split; [done|]. split; [by eapply Htrans|].
    intros y Hy. apply elem_of_cons in Hy as [->|Hy]; [|by apply HQ'].
    by eapply Hstable.
Qed.

Lemma operation_at_put_path_any (path method : string) (data : APISpec.operation)
    (spec : APISpec.t) (path' method' : string) :
  APISpec.operation_at (APISpec.put_path path method data spec) path' method'
  = if decide (path = path' ∧ method = method') then Some data
    else APISpec.operation_at spec path' method'.
Proof.
  unfold APISpec.operation_at, APISpec.put_path. simpl.
  destruct (decide (path = path')) as [<-|Hne].
  - rewrite lookup_insert_eq.
    destruct (decide (method = method')) as [<-|Hm].
    + rewrite lookup_insert_eq. by rewrite decide_True.
    + rewrite lookup_insert_ne by done. rewrite decide_False by (by intros [_ ?]).
      by destruct (APISpec.paths spec !! path).
  - rewrite lookup_insert_ne by done. rewrite decide_False; [done | by intros [? _]].
Qed.

Lemma paths_put_path (path method : string) (data : APISpec.operation)
    (spec : APISpec.t) (path' : string) :
  is_Some (APISpec.paths (APISpec.put_path path method data spec) !! path')
  ↔ path = path' ∨ is_Some (APISpec.paths spec !! path').
Proof.
  unfold APISpec.put_path. simpl.
  destruct (decide (path = path')) as [<-|Hne].
  - rewrite lookup_insert_eq. split; [by left | done].
  - rewrite lookup_insert_ne by done. split; [by right | by intros [?|?]].
Qed.

Lemma elem_of_route_entries (routes : route_table) (url method : string)
    (versions : versions_key) (interface : Interface) :
  (url, method, versions, interface) ∈ route_entries routes
  ↔ ∃ route versioned_interfaces,
      (url, route) ∈ routes ∧ (method, versioned_interfaces) ∈ route
      ∧ (versions, interface) ∈ versioned_interfaces.
Proof.
  unfold route_entries. rewrite list_elem_of_In, in_flat_map. split.
  - intros ([url' route] & Hroute & Hin). apply in_flat_map in Hin.
    destruct Hin as ([method' vis] & Hvis & Hin). apply in_map_iff in Hin.
    destruct Hin as ([versions' interface'] & [= -> -> -> ->] & Hin).
    exists route, vis. by rewrite !list_elem_of_In.
  - intros (route & vis & Hroute & Hvis & Hin).
    apply list_elem_of_In in Hroute, Hvis, Hin.
    exists (url, route). split; [done|]. apply in_flat_map.
    exists (method, vis). split; [done|]. apply in_map_iff.
    by exists (versions, interface).
Qed.

Lemma spec_extends_refl (spec : APISpec.t) : spec_extends spec spec.
Proof. by split. Qed.

Lemma spec_extends_trans (s1 s2 s3 : APISpec.t) :
  spec_extends s1 s2 → spec_extends s2 s3 → spec_extends s1 s3.
Proof. intros [H1 H2] [H3 H4]. split; eauto. Qed.

Lemma swagger_entry_documented_extends (url method : string) (interface : Interface)
    (spec spec' : APISpec.t) :
  swagger_entry_documented url method interface spec → spec_extends spec spec' →
  swagger_entry_documented url method interface spec'.
Proof. intros [H1 H2] [H3 H4]. split; eauto. Qed.

(** The description of a parameter reads a field up to its [metadata]. *)
Lemma described_same_core
    (conv : string → field → string → string → gmap string pyval)
    (v url : string) (h h0 : gmap loc field) (p : sig_parameter) :
  same_core h h0 →
  SwaggerSpec.described conv v url h p = SwaggerSpec.described conv v url h0 p.
Proof.
  intros Hcore. unfold SwaggerSpec.described.
  destruct (Swagger.skipped _ _); [done|].
  destruct (p_annotation p) as [[| | | | |l| | | | |]|]; try done.
  specialize (Hcore l).
  destruct (h !! l) as [f|], (h0 !! l) as [f0|]; simpl in Hcore; try done.
  unfold SwaggerSpec.field_parameter, SwaggerSpec.converted.
  by rewrite (set_metadata_core _ f f0) by congruence.
Qed.

Lemma registers_from (cs : list schema_class) :
  ∀ (reg : gmap string schema_class) (name : string) (c : schema_class),
  foldl SwaggerSpec.register reg cs !! name = Some c →
  reg !! name = Some c ∨ (c ∈ cs ∧ name = Swagger.schema_name c).
Proof.
  induction cs as [|c0 cs IH]; intros reg name c Hc; simpl in Hc; [by left|].
  apply IH in Hc as [Hc|[Hc ->]]; [|right; split; [by apply list_elem_of_further | done]].
  unfold SwaggerSpec.register in Hc.
  destruct (reg !! Swagger.schema_name c0) eqn:Hreg; [by left|].
  destruct (decide (Swagger.schema_name c0 = name)) as [<-|Hne].
  - rewrite lookup_insert_eq in Hc. injection Hc as ->. right. split; [|done].
    apply list_elem_of_here.
  - rewrite lookup_insert_ne in Hc by done. by left.
Qed.

Lemma body_schema_schema_body (p : sig_parameter) (c : schema_class) :
  SwaggerSpec.body_schema p = Some c → schema_body p c.
Proof.
  unfold SwaggerSpec.body_schema, schema_body.
  destruct (Swagger.skipped _ _); [done|].
  destruct (p_annotation p) as [[| | | | | |c'|c'| | |]|]; try done;
    destruct (String.eqb_spec (p_name p) "body"); try done;
    intros [= ->]; eauto.
Qed.

(** ** One route of [generate_spec] *)

Lemma swagger_document_interface_spec
    (conv : string → field → string → string → gmap string pyval)
    (refused_path : string → string → string → option exn)
    (v url method : string) (interface : Interface) (st : state) (h0 : gmap loc field) :
  same_core (st_fields st) h0 →
  fields_closed h0 (i_signature interface) →
  refused_path v url (lower method) = None →
  Swagger.document_interface conv refused_path v url method interface st
  = let st' := foldl (SwaggerSpec.after url) st (i_signature interface) in
    Ok tt (with_spec
             (APISpec.put_path url (lower method)
                (clean_operation
                   (swagger_operation interface
                      (omap (SwaggerSpec.described conv v url h0)
                         (i_signature interface))))
                (st_spec st')) st').
Proof.
  intros Hcore Hclosed Haccepted.
  unfold Swagger.document_interface, Swagger.get_parameters, bind.
  rewrite (for_each_described conv v url _ [] st h0 Hcore Hclosed).
  unfold Swagger.path. by rewrite Haccepted.
Qed.

(** ** The route loops of [generate_spec] *)

Section SwaggerRoutes.

Variable conv : string → field → string → string → gmap string pyval.
Variable refused_path : string → string → string → option exn.
Variable v : string.
Variable routes : route_table.
Variable st0 : state.

Hypothesis Hclosed : routes_closed (st_fields st0) routes.
Hypothesis Haccepted : routes_accepted refused_path v routes.

Lemma swagger_document_interface_step (url method : string) (versions : versions_key)
    (interface : Interface) (st : state) :
  (url, method, versions, interface) ∈ route_entries routes →
  swagger_generating conv v routes st0 st →
  ∃ st', Swagger.document_interface conv refused_path v url method interface st
         = Ok tt st'
         ∧ swagger_generating conv v routes st0 st'
         ∧ spec_extends (st_spec st) (st_spec st')
         ∧ swagger_entry_documented url method interface (st_spec st').
Proof.
  intros Hin (Hcore & Hd & Hl & Ht & Hv & Ho & Hopt & Hpaths & Hops).
  rewrite (swagger_document_interface_spec conv refused_path v url method interface st
             (st_fields st0) Hcore (Hclosed _ _ _ _ Hin) (Haccepted _ _ _ _ Hin)).
  destruct (after_unchanged url (i_signature interface) st)
    as (Hd1 & Hl1 & Ht1 & Hv1 & Ho1 & Hopt1 & Hp1).
  pose proof (after_schemas url (i_signature interface) st) as Hs1.
  pose proof (foldl_after_same_core url (i_signature interface) st _ Hcore) as Hcore1.
  simpl. set (st1 := foldl (SwaggerSpec.after url) st (i_signature interface)) in *.
  assert (Hat : ∀ path m, APISpec.operation_at (st_spec st1) path m
                          = APISpec.operation_at (st_spec st) path m).
  { intros path m. unfold APISpec.operation_at. by rewrite Hp1. }
  eexists. split; [reflexivity|]. split; [|split].
  - split; [done|]. simpl.
    do 6 (split; [congruence|]). split.
    + intros path Hp. apply paths_put_path in Hp as [<-|Hp].
      * apply elem_of_route_entries in Hin as (route & vis & Hroute & _).
        by apply (list_elem_of_fmap_2 fst) in Hroute.
      * rewrite Hp1 in Hp. by apply Hpaths.
    + intros path m op Hop. rewrite operation_at_put_path_any in Hop.
      case_decide as Hkey.
      * destruct Hkey as [<- <-]. injection Hop as <-.
        by exists method, versions, interface.
      * rewrite Hat in Hop. by apply Hops.
  - split; simpl.
    + intros path m Hop. rewrite operation_at_put_path_any.
      case_decide; [done|]. by rewrite Hat.
    + intros name [c Hc]. change (is_Some (APISpec.schemas (st_spec st1) !! name)).
      rewrite Hs1. exists c. by apply registers_keep.
  - split; simpl.
    + rewrite operation_at_put_path_any. by rewrite decide_True.
    + intros p c Hp Hbody. change (is_Some (APISpec.schemas (st_spec st1)
                                              !! Swagger.schema_name c)).
      rewrite Hs1. apply registers_registered, list_elem_of_omap.
      exists p. split; [done|].
      apply (schema_body_swagger conv v url (st_fields st0) p c Hbody).
Qed.

Lemma swagger_routes_spec (st : state) :
  swagger_generating conv v routes st0 st →
  ∃ st',
    for_each (fun _ '(url, route) =>
      for_each (fun _ '(method, versioned_interfaces) =>
        for_each (fun _ '(versions, interface) =>
          Swagger.document_interface conv refused_path v url method interface)
          versioned_interfaces tt)
        route tt)
      routes tt st = Ok tt st'
    ∧ swagger_generating conv v routes st0 st'
    ∧ ∀ url method versions interface,
        (url, method, versions, interface) ∈ route_entries routes →
        swagger_entry_documented url method interface (st_spec st').
Proof.
  intros HI.
  pose (R := fun s s' : state => spec_extends (st_spec s) (st_spec s')).
  assert (Hrefl : ∀ s, R s s) by (intros; apply spec_extends_refl).
  assert (Htrans : ∀ s1 s2 s3, R s1 s2 → R s2 s3 → R s1 s3)
    by (intros ???; apply spec_extends_trans).
  edestruct (for_each_unit (swagger_generating conv v routes st0) R
    (fun (x : string * list (string * list (versions_key * Interface))) s =>
       ∀ method vis versions interface,
         (method, vis) ∈ x.2 → (versions, interface) ∈ vis →
         swagger_entry_documented x.1 method interface (st_spec s))
    (fun _ '(url, route) =>
       for_each (fun _ '(method, versioned_interfaces) =>
         for_each (fun _ '(versions, interface) =>
           Swagger.document_interface conv refused_path v url method interface)
           versioned_interfaces tt)
         route tt)
    routes)
    as (st' & Hrun & HI' & _ & HQ); [done | done | | | exact HI | ].
  - intros x s s' HQ HR method vis versions interface Hm Hv.
    eapply swagger_entry_documented_extends; [by eapply HQ | done].
  - intros [url route] s Hroute HIs.
    edestruct (for_each_unit (swagger_generating conv v routes st0) R
      (fun (x : string * list (versions_key * Interface)) s =>
         ∀ versions interface, (versions, interface) ∈ x.2 →
           swagger_entry_documented url x.1 interface (st_spec s))
      (fun _ '(method, versioned_interfaces) =>
         for_each (fun _ '(versions, interface) =>
           Swagger.document_interface conv refused_path v url method interface)
           versioned_interfaces tt)
      route)
      as (s' & Hrun & HI' & HR' & HQ); [done | done | | | exact HIs | ].
    + intros x s1 s2 HQ HR versions interface Hv.
      eapply swagger_entry_documented_extends; [by eapply HQ | done].
    + intros [method vis] s1 Hmethod HIs1.
      edestruct (for_each_unit (swagger_generating conv v routes st0) R
        (fun (x : versions_key * Interface) s =>
           swagger_entry_documented url method x.2 (st_spec s))
        (fun _ '(versions, interface) =>
           Swagger.document_interface conv refused_path v url method interface)
        vis)
        as (s' & Hrun & HI' & HR' & HQ); [done | done | | | exact HIs1 | ].
      * intros x s2 s3 HQ HR.
        eapply swagger_entry_documented_extends; [exact HQ | done].
      * intros [versions interface] s2 Hv HIs2.
        apply (swagger_document_interface_step url method versions); [|done].
        apply elem_of_route_entries. by exists route, vis.
      * exists s'. split; [exact Hrun|]. split; [done|]. split; [done|].
        intros versions interface Hv. by apply (HQ (versions, interface)).
    + exists s'. split; [exact Hrun|]. split; [done|]. split; [done|].
      intros method vis versions interface Hm Hv.
      by apply (HQ (method, vis) Hm versions interface).
  - exists st'. split; [exact Hrun|]. split; [done|].
    intros url method versions interface Hin.
    apply elem_of_route_entries in Hin as (route & vis & Hroute & Hm & Hv).
    by apply (HQ (url, route) Hroute method vis versions interface).
Qed.

End SwaggerRoutes.

(** [generate_spec] on an application whose base url has the route
    table [routes], when apispec accepts the version and the
    entries. *)
Lemma generate_spec_spec
    (conv : string → field → string → string → gmap string pyval)
    (refused_version : string → option exn)
    (refused_path : string → string → string → option exn)
    (hug_api : API) (title : string) (version : option string)
    (openapi_version host : string) (schemes : list string)
    (options : gmap string pyval) (routes : route_table) (st : state) :
  refused_version openapi_version = None →
  dict_get "" (http_routes hug_api) = Some routes →
  routes_closed (st_fields st) routes →
  routes_accepted refused_path openapi_version routes →
  let options' := <["schemes" := PyStrs schemes]> (<["host" := PyStr host]> options) in
  let st0 := with_spec (APISpec.new title version openapi_version options') st in
  ∃ st',
    Swagger.generate_spec conv refused_version refused_path hug_api title version
      openapi_version host schemes options st = Ok (APISpec.to_dict (st_spec st')) st'
    ∧ swagger_generating conv openapi_version routes st0 st'
    ∧ ∀ url method versions interface,
        (url, method, versions, interface) ∈ route_entries routes →
        swagger_entry_documented url method interface (st_spec st').
Proof.
  intros Hversion Hbase Hclosed Haccepted options' st0.
  assert (HI : swagger_generating conv openapi_version routes st0 st0).
  { split; [done|]. do 6 (split; [done|]). split; simpl.
    - intros path [x Hx]. by rewrite lookup_empty in Hx.
    - intros path m op Hop. unfold APISpec.operation_at in Hop. simpl in Hop.
      by rewrite lookup_empty in Hop. }
  destruct (swagger_routes_spec conv refused_path openapi_version routes st0
              Hclosed Haccepted st0 HI)
    as (st' & Hrun & HI' & HQ).
  exists st'. split; [|by split].
  unfold Swagger.generate_spec, Swagger.new_spec, bind. rewrite Hversion.
  unfold put_spec.
  destruct (http_routes hug_api) as [|r rs] eqn:Hroutes; [done|].
  rewrite Hbase. fold options'. fold st0. by rewrite Hrun.
Qed.

Lemma users_routes_closed :
  routes_closed (st_fields Samples.listing_store)
    [(Samples.listing_url, [("GET", [(OneVersion None, Samples.listing_handler)])]);
     ("/users", [("POST", [(OneVersion None, Samples.create_user_handler)])])].
Proof.
  intros url method versions interface Hin. simpl in Hin.
  apply elem_of_cons in Hin as [[= -> -> -> ->]|Hin]; [apply listing_closed|].
  apply elem_of_cons in Hin as [[= -> -> -> ->]|Hin]; [|by apply elem_of_nil in Hin].
  intros p l Hp Hann. apply elem_of_cons in Hp as [->|Hp]; [done|].
  by apply elem_of_nil in Hp.
Qed.

Lemma users_routes_accepted :
  routes_accepted Samples.refused_path "3.0.2"
    [(Samples.listing_url, [("GET", [(OneVersion None, Samples.listing_handler)])]);
     ("/users", [("POST", [(OneVersion None, Samples.create_user_handler)])])].
Proof.
  intros url method versions interface Hin. simpl in Hin.
  apply elem_of_cons in Hin as [[= -> -> -> ->]|Hin]; [reflexivity|].
  apply elem_of_cons in Hin as [[= -> -> -> ->]|Hin]; [reflexivity|].
  by apply elem_of_nil in Hin.
Qed.

Lemma no_options : plain_options ∅.
Proof. intros key _. apply lookup_empty. Qed.

Lemma clean_parameter_required (p : gmap string pyval) :
  clean_parameter p !! "in" = Some (PyStr "path") →
  clean_parameter p !! "required" = Some (PyBool true).
Proof.
  unfold clean_parameter.
  destruct (p !! "in") as [w|] eqn:Hin; [|by rewrite Hin].
  destruct w; try by rewrite Hin.
  match goal with |- context [String.eqb ?s "path"] =>
    destruct (String.eqb_spec s "path") as [->|Hne] end.
  - intros _. apply lookup_insert_eq.
  - rewrite Hin. by intros [= ->].
Qed.

(** A route that hug serves for a method OpenAPI has no operation
    for stops the generator: [spec.path] raises. *)
Lemma connect_route_is_refused :
  ∃ st',
    Swagger.generate_spec Samples.OpenAPIConverter Samples.refused_version
      Samples.refused_path
      {| http_routes :=
           [("", [("/users", [("CONNECT", [(OneVersion None,
                                                Samples.create_user_handler)])])])] |}
      "Users" (Some "1.0") "3.0.2" "localhost:8000" ["https"] ∅ Samples.listing_store
    = Raise (APISpecError "One or more HTTP methods are invalid: connect") st'.
Proof.
  eexists. unfold Swagger.generate_spec, Swagger.new_spec, bind. simpl.
  unfold Swagger.document_interface, bind. simpl.
  rewrite (get_parameters_described Samples.OpenAPIConverter "3.0.2" "/users"
             Samples.create_user_handler).
  2: { intros p l Hp Hann. apply list_elem_of_singleton in Hp as ->. done. }
  unfold Swagger.path. reflexivity.
Qed.

(** ** [generate_spec] as a whole *)

(** X4.  [generate_spec] returns a document on an application whose
    base url [""] has a route table, when apispec accepts the OpenAPI
    version and accepts the url and the method of every entry of the
    table, and the field annotations of the handlers are objects of
    the store.  With options none of which is named like a key of the
    document itself, the routes do not touch what the document was
    created with: title, version, OpenAPI version, and the options
    with [host] and [schemes] at the root.  Of the store, the response
    dictionaries and the log are as before ([swagger.py] reads no
    response metadata and logs nothing), and the field objects are as
    before up to their [metadata]. *)
Theorem X4_generate_spec_returns_the_document
    (conv : string → field → string → string → gmap string pyval)
    (refused_version : string → option exn)
    (refused_path : string → string → string → option exn)
    (hug_api : API) (title : string) (version : option string)
    (openapi_version host : string) (schemes : list string)
    (options : gmap string pyval) (routes : route_table) (st : state) :
  refused_version openapi_version = None →
  plain_options options →
  dict_get "" (http_routes hug_api) = Some routes →
  routes_closed (st_fields st) routes →
  routes_accepted refused_path openapi_version routes →
  ∃ doc st',
    Swagger.generate_spec conv refused_version refused_path hug_api title version
      openapi_version host schemes options st = Ok doc st'
    ∧ APISpec.info_title doc = title
    ∧ APISpec.info_version doc = version
    ∧ APISpec.doc_dialect_version doc = openapi_version
    ∧ APISpec.root doc
      = <["schemes" := PyStrs schemes]> (<["host" := PyStr host]> options)
    ∧ st_dicts st' = st_dicts st
    ∧ st_log st' = st_log st
    ∧ same_core (st_fields st') (st_fields st).
Proof.
  intros Hversion _ Hbase Hclosed Haccepted.
  destruct (generate_spec_spec conv refused_version refused_path hug_api title version
              openapi_version host schemes options routes st Hversion Hbase Hclosed
              Haccepted)
    as (st' & Hrun & (Hcore & Hd & Hl & Ht & Hv & Ho & Hopt & _) & _).
  exists (APISpec.to_dict (st_spec st')), st'. split; [done|].
  simpl. by rewrite Ht, Hv, Ho, Hopt.
Qed.

Lemma X4_generate_spec_returns_the_document_witness :
  ∃ doc st',
    Swagger.generate_spec Samples.OpenAPIConverter Samples.refused_version
      Samples.refused_path users_api "Users" (Some "1.0") "3.0.2" "localhost:8000"
      ["https"] ∅ Samples.listing_store = Ok doc st'
    ∧ APISpec.info_title doc = "Users"
    ∧ APISpec.info_version doc = Some "1.0"
    ∧ APISpec.doc_dialect_version doc = "3.0.2"
    ∧ APISpec.root doc
      = <["schemes" := PyStrs ["https"]]> (<["host" := PyStr "localhost:8000"]> ∅)
    ∧ st_dicts st' = st_dicts Samples.listing_store
    ∧ st_log st' = st_log Samples.listing_store
    ∧ same_core (st_fields st') (st_fields Samples.listing_store).
Proof.
  apply (X4_generate_spec_returns_the_document Samples.OpenAPIConverter
           Samples.refused_version Samples.refused_path users_api
           "Users" (Some "1.0") "3.0.2" "localhost:8000" ["https"] ∅ _
           Samples.listing_store eq_refl no_options eq_refl users_routes_closed
           users_routes_accepted).
Defined.

(** X5.  When apispec accepts the OpenAPI version and accepts the url
    and the method of every entry of the route table, every entry is
    documented: the document [generate_spec] returns has an operation
    under the entry's url and its method in lowercase; and, with
    options none of which is named like a key of the document itself,
    the document has no path that is not a url of the table. *)
Theorem X5_every_route_has_an_operation
    (conv : string → field → string → string → gmap string pyval)
    (refused_version : string → option exn)
    (refused_path : string → string → string → option exn)
    (hug_api : API) (title : string) (version : option string)
    (openapi_version host : string) (schemes : list string)
    (options : gmap string pyval) (routes : route_table) (st : state) :
  refused_version openapi_version = None →
  plain_options options →
  dict_get "" (http_routes hug_api) = Some routes →
  routes_closed (st_fields st) routes →
  routes_accepted refused_path openapi_version routes →
  ∃ doc st',
    Swagger.generate_spec conv refused_version refused_path hug_api title version
      openapi_version host schemes options st = Ok doc st'
    ∧ (∀ url method versions interface,
         (url, method, versions, interface) ∈ route_entries routes →
         is_Some (document_operation doc url (lower method)))
    ∧ ∀ path, is_Some (APISpec.doc_paths doc !! path) → path ∈ map fst routes.
Proof.
  intros Hversion _ Hbase Hclosed Haccepted.
  destruct (generate_spec_spec conv refused_version refused_path hug_api title version
              openapi_version host schemes options routes st Hversion Hbase Hclosed
              Haccepted)
    as (st' & Hrun & (_ & _ & _ & _ & _ & _ & _ & Hpaths & _) & Hdone).
  exists (APISpec.to_dict (st_spec st')), st'. split; [done|]. split; [|done].
  intros url method versions interface Hin.
  by destruct (Hdone url method versions interface Hin) as [Hop _].
Qed.

Lemma X5_every_route_has_an_operation_witness :
  ∃ doc st',
    Swagger.generate_spec Samples.OpenAPIConverter Samples.refused_version
      Samples.refused_path users_api "Users" (Some "1.0") "3.0.2" "localhost:8000"
      ["https"] ∅ Samples.listing_store = Ok doc st'
    ∧ is_Some (document_operation doc "/users/{user_id}" "get")
    ∧ is_Some (document_operation doc "/users" "post").
Proof.
  destruct (X5_every_route_has_an_operation Samples.OpenAPIConverter
              Samples.refused_version Samples.refused_path users_api
              "Users" (Some "1.0") "3.0.2" "localhost:8000" ["https"] ∅ _
              Samples.listing_store eq_refl no_options eq_refl users_routes_closed
              users_routes_accepted)
    as (doc & st' & Hrun & Hops & _).
  exists doc, st'. split; [done|]. split.
  - apply (Hops Samples.listing_url "GET" (OneVersion None) Samples.listing_handler).
    apply list_elem_of_here.
  - apply (Hops "/users" "POST" (OneVersion None) Samples.create_user_handler).
    apply list_elem_of_further, list_elem_of_here.
Defined.

(** X6.  When apispec accepts the OpenAPI version and the url and
    method of every entry of the route table, every operation of the
    document [generate_spec] returns is the operation of an entry of
    the table with that url and method, as [spec.path] cleans it: its
    content type, summary and description are those of the handler's
    documentation and its parameters those of the handler's signature,
    with [required] set on every parameter in the path, whether or not
    the argument has a default.  In particular [swagger.py] documents
    no responses, and [parameters] is never present and empty. *)
Theorem X6_every_operation_is_of_a_route
    (conv : string → field → string → string → gmap string pyval)
    (refused_version : string → option exn)
    (refused_path : string → string → string → option exn)
    (hug_api : API) (title : string) (version : option string)
    (openapi_version host : string) (schemes : list string)
    (options : gmap string pyval) (routes : route_table) (st : state) :
  refused_version openapi_version = None →
  plain_options options →
  dict_get "" (http_routes hug_api) = Some routes →
  routes_closed (st_fields st) routes →
  routes_accepted refused_path openapi_version routes →
  ∃ doc st',
    Swagger.generate_spec conv refused_version refused_path hug_api title version
      openapi_version host schemes options st = Ok doc st'
    ∧ ∀ path method op,
        document_operation doc path method = Some op →
        swagger_documented conv openapi_version (st_fields st) routes path method op
        ∧ APISpec.op_responses op = None
        ∧ APISpec.op_parameters op ≠ Some []
        ∧ ∀ parameters p,
            APISpec.op_parameters op = Some parameters → p ∈ parameters →
            p !! "in" = Some (PyStr "path") → p !! "required" = Some (PyBool true).
Proof.
  intros Hversion _ Hbase Hclosed Haccepted.
  destruct (generate_spec_spec conv refused_version refused_path hug_api title version
              openapi_version host schemes options routes st Hversion Hbase Hclosed
              Haccepted)
    as (st' & Hrun & (_ & _ & _ & _ & _ & _ & _ & _ & Hops) & _).
  exists (APISpec.to_dict (st_spec st')), st'. split; [done|].
  intros path method op Hop. apply Hops in Hop. split; [done|].
  destruct Hop as (method' & versions & interface & _ & _ & ->). split; [done|].
  simpl. destruct (omap _ _) as [|q qs]; simpl; [done|]. split; [done|].
  intros parameters p [= <-] Hp.
  change (p ∈ map clean_parameter (q :: qs)) in Hp.
  apply list_elem_of_fmap in Hp as (q' & -> & _).
  apply clean_parameter_required.
Qed.

Lemma X6_every_operation_is_of_a_route_witness :
  ∃ doc st',
    Swagger.generate_spec Samples.OpenAPIConverter Samples.refused_version
      Samples.refused_path users_api "Users" (Some "1.0") "3.0.2" "localhost:8000"
      ["https"] ∅ Samples.listing_store = Ok doc st'
    ∧ ∀ path method op,
        document_operation doc path method = Some op →
        APISpec.op_responses op = None ∧ APISpec.op_parameters op ≠ Some [].
Proof.
  destruct (X6_every_operation_is_of_a_route Samples.OpenAPIConverter
              Samples.refused_version Samples.refused_path users_api
              "Users" (Some "1.0") "3.0.2" "localhost:8000" ["https"] ∅ _
              Samples.listing_store eq_refl no_options eq_refl users_routes_closed
              users_routes_accepted)
    as (doc & st' & Hrun & Hops).
  exists doc, st'. split; [done|].
  intros path method op Hop. by destruct (Hops path method op Hop) as (_ & ? & ? & _).
Defined.

(** X7.  When apispec accepts the OpenAPI version and the url and
    method of every entry of the route table, the schema of every
    [body] argument of the table is among the definitions of the
    document [generate_spec] returns, under its qualified name, the
    name its parameter's [$ref] carries. *)
Theorem X7_body_schemas_are_defined
    (conv : string → field → string → string → gmap string pyval)
    (refused_version : string → option exn)
    (refused_path : string → string → string → option exn)
    (hug_api : API) (title : string) (version : option string)
    (openapi_version host : string) (schemes : list string)
    (options : gmap string pyval) (routes : route_table) (st : state) :
  refused_version openapi_version = None →
  plain_options options →
  dict_get "" (http_routes hug_api) = Some routes →
  routes_closed (st_fields st) routes →
  routes_accepted refused_path openapi_version routes →
  ∃ doc st',
    Swagger.generate_spec conv refused_version refused_path hug_api title version
      openapi_version host schemes options st = Ok doc st'
    ∧ ∀ c, body_of_table routes c →
           is_Some (APISpec.doc_schemas doc !! Swagger.schema_name c).
Proof.
  intros Hversion _ Hbase Hclosed Haccepted.
  destruct (generate_spec_spec conv refused_version refused_path hug_api title version
              openapi_version host schemes options routes st Hversion Hbase Hclosed
              Haccepted)
    as (st' & Hrun & _ & Hdone).
  exists (APISpec.to_dict (st_spec st')), st'. split; [done|].
  intros c (url & method & versions & interface & p & Hin & Hp & Hbody).
  destruct (Hdone url method versions interface Hin) as [_ Hdef]. by eapply Hdef.
Qed.

Lemma X7_body_schemas_are_defined_witness :
  ∃ doc st',
    Swagger.generate_spec Samples.OpenAPIConverter Samples.refused_version
      Samples.refused_path users_api "Users" (Some "1.0") "3.0.2" "localhost:8000"
      ["https"] ∅ Samples.listing_store = Ok doc st'
    ∧ is_Some (APISpec.doc_schemas doc !! "app.users.UserSchema").
Proof.
  destruct (X7_body_schemas_are_defined Samples.OpenAPIConverter
              Samples.refused_version Samples.refused_path users_api
              "Users" (Some "1.0") "3.0.2" "localhost:8000" ["https"] ∅ _
              Samples.listing_store eq_refl no_options eq_refl users_routes_closed
              users_routes_accepted)
    as (doc & st' & Hrun & Hdef).
  exists doc, st'. split; [done|].
  apply (Hdef Samples.users_UserSchema).
  exists "/users", "POST", (OneVersion None), Samples.create_user_handler,
    {| p_name := "body"; p_annotation := Some (PySchemaMeta Samples.users_UserSchema);
       p_default := None |}.
  split; [apply list_elem_of_further, list_elem_of_here|].
  split; [apply list_elem_of_here|]. split; [done | by right].
Defined.

(** ** What [get_operation] does besides resolving *)

Lemma dict_get_in {K V : Type} `{EqDecision K} (k : K) (d : list (K * V)) :
  k ∈ dict_keys d → is_Some (dict_get k d).
Proof.
  induction d as [|[k0 v0] d IH]; simpl; intros H; [by apply elem_of_nil in H|].
  case_decide; [done|]. apply elem_of_cons in H as [H|H]; [congruence | by apply IH].
Qed.

Lemma dict_get_keys {K V : Type} `{EqDecision K} (k : K) (v : V) (d : list (K * V)) :
  dict_get k d = Some v → k ∈ dict_keys d.
Proof.
  intros H. apply dict_get_elem in H. by apply (list_elem_of_fmap_2 fst) in H.
Qed.

Lemma dict_get_none {K V : Type} `{EqDecision K} (k : K) (d : list (K * V)) :
  dict_get k d = None → k ∉ dict_keys d.
Proof.
  intros H Hin. apply (dict_get_in (V := V)) in Hin as [v Hv]. congruence.
Qed.

Lemma dicts_grow_refl (st : state) : dicts_grow st st.
Proof. by intros l. Qed.

Lemma dicts_grow_trans (st1 st2 st3 : state) :
  dicts_grow st1 st2 → dicts_grow st2 st3 → dicts_grow st1 st3.
Proof. intros H1 H2 l H. by apply H2, H1. Qed.

Lemma dicts_extend_grow (st st' : state) : dicts_extend st st' → dicts_grow st st'.
Proof. intros H l [d Hd]. exists d. by apply H. Qed.

Lemma dicts_grow_insert (st st' : state) (l : loc) (d : gmap string pyval) :
  st_dicts st' = <[l := d]> (st_dicts st) → dicts_grow st st'.
Proof.
  intros H l' Hl'. rewrite H. destruct (decide (l = l')) as [<-|Hne].
  - by rewrite lookup_insert_eq.
  - by rewrite lookup_insert_ne.
Qed.

Lemma schemas_only_refl (spec : APISpec.t) : schemas_only spec spec.
Proof. by repeat split. Qed.

Lemma schemas_only_trans (s1 s2 s3 : APISpec.t) :
  schemas_only s1 s2 → schemas_only s2 s3 → schemas_only s1 s3.
Proof.
  intros (? & ? & ? & ? & ?) (? & ? & ? & ? & ?). repeat split; congruence.
Qed.

Lemma setdefault_effects (code : Z) (rs rs' : list (Z * loc)) (l : loc)
    (st st' : state) :
  HugSwagger.setdefault code rs st = Ok (l, rs') st' →
  dict_keys rs' = (if decide (code ∈ dict_keys rs) then dict_keys rs
                   else dict_keys rs ++ [code])%list
  ∧ st_spec st' = st_spec st ∧ st_log st' = st_log st ∧ dicts_grow st st'.
Proof.
  unfold HugSwagger.setdefault.
  destruct (dict_get code rs) as [l0|] eqn:E.
  - intros [= <- <- <-]. rewrite decide_True by (by eapply dict_get_keys).
    repeat split; try done. apply dicts_grow_refl.
  - unfold bind, new_dict, ret. intros [= <- <- <-].
    apply dict_get_none in E. rewrite decide_False by done.
    split; [by apply dict_keys_set_notin|]. split; [done|]. split; [done|].
    by eapply dicts_grow_insert.
Qed.

Lemma declared_responses_effects (interface : Interface) (use_default_response : bool)
    (rs1 : list (Z * loc)) (st st1 : state) :
  HugSwagger.declared_responses interface use_default_response st = Ok rs1 st1 →
  dict_keys rs1 = declared_codes interface use_default_response
  ∧ st_spec st1 = st_spec st ∧ st_log st1 = st_log st ∧ dicts_grow st st1.
Proof.
  unfold HugSwagger.declared_responses, declared_codes.
  set (attached := default [] (i_swagger_responses interface)).
  destruct (i_return_annotation interface) as [a|].
  - unfold bind at 1. unfold bind at 1.
    destruct (HugSwagger.setdefault 200 attached st) as [[l rs] st2|] eqn:Hset; [|done].
    apply setdefault_effects in Hset as (Hkeys & Hspec & Hlog & Hgrow).
    unfold bind at 1. unfold dict_setitem, bind at 1, read_dict.
    destruct (st_dicts st2 !! l) as [d|] eqn:Hd; [|done].
    unfold ret at 1.
    match goal with |- context [with_dicts ?h st2] => set (st3 := with_dicts h st2) end.
    assert (Hgrow3 : dicts_grow st st3).
    { eapply dicts_grow_trans; [exact Hgrow|]. by eapply dicts_grow_insert. }
    assert (H200 : 200 ∈ dict_keys rs).
    { rewrite Hkeys. case_decide; [done|]. apply elem_of_app. right.
      apply list_elem_of_here. }
    assert (Hkeys' : dict_keys rs
                     = if decide (200 ∈ dict_keys attached) then dict_keys attached
                       else (dict_keys attached ++ [200])%list) by done.
    destruct use_default_response.
    + unfold bind. destruct (HugSwagger.setdefault 200 rs st3) as [[l' rs'] st4|] eqn:Hset';
        [|done].
      apply setdefault_effects in Hset' as (Hkeys4 & Hspec4 & Hlog4 & Hgrow4).
      intros [= <- <-]. rewrite decide_True in Hkeys4 by done.
      split; [congruence|]. split; [by rewrite Hspec4|]. split; [by rewrite Hlog4|].
      by eapply dicts_grow_trans.
    + intros [= <- <-]. by repeat split.
  - unfold bind at 1. unfold ret at 1. destruct use_default_response.
    + unfold bind.
      destruct (HugSwagger.setdefault 200 attached st) as [[l rs] st2|] eqn:Hset; [|done].
      apply setdefault_effects in Hset as (Hkeys & Hspec & Hlog & Hgrow).
      by intros [= <- <-].
    + intros [= <- <-]. repeat split; try done. apply dicts_grow_refl.
Qed.

(** One step of the loop: a schema instance or class is registered
    under its class name, a value that is no name and no schema is
    logged. *)
Lemma resolve_response_effects (rs : list (Z * loc)) (code : Z) (l : loc)
    (d : gmap string pyval) (st : state) :
  st_dicts st !! l = Some d →
  ∃ rs' st', HugSwagger.resolve_response rs (code, l) st = Ok rs' st'
    ∧ schemas_only (st_spec st) (st_spec st')
    ∧ APISpec.schemas (st_spec st')
      = match response_class d with
        | Some c => HugSpec.register (APISpec.schemas (st_spec st)) c
        | None => APISpec.schemas (st_spec st)
        end
    ∧ st_log st' = (st_log st ++ option_list (response_error d))%list
    ∧ (code ∈ dict_keys rs → dict_keys rs' = dict_keys rs).
Proof.
  intros Hd. unfold HugSwagger.resolve_response, bind, read_dict, new_dict.
  rewrite Hd. unfold response_class, response_error.
  destruct (d !! "schema") as [schema|] eqn:E.
  - destruct schema; simpl; unfold bind, definition, log, ret, dict_setitem, bind,
      read_dict; simpl; rewrite ?lookup_insert_eq; simpl;
      (eexists _, _; split; [reflexivity|]); simpl;
      (split; [apply schemas_only_refl || by repeat split|]);
      (split; [done|]); (split; [by rewrite ?app_nil_r|]);
      by apply dict_keys_set_in.
  - eexists _, _. split; [reflexivity|]. simpl.
    split; [apply schemas_only_refl|]. split; [done|]. by rewrite app_nil_r.
Qed.

Lemma response_dicts_cons (st : state) (code : Z) (l : loc) (d : gmap string pyval)
    (items : list (Z * loc)) :
  st_dicts st !! l = Some d →
  response_dicts st ((code, l) :: items) = d :: response_dicts st items.
Proof. intros H. unfold response_dicts. simpl. by rewrite H. Qed.

Lemma response_dicts_extend (st st' : state) (items : list (Z * loc)) :
  HugSpec.responses_closed st items → dicts_extend st st' →
  response_dicts st' items = response_dicts st items.
Proof.
  intros Hc He. induction items as [|[code l] items IH]; [done|].
  destruct (Hc code l (list_elem_of_here _ _)) as [d Hd].
  rewrite (response_dicts_cons st code l d items Hd).
  rewrite (response_dicts_cons st' code l d items (He _ _ Hd)).
  f_equal. apply IH. intros c l' Hin. apply (Hc c l'). by apply list_elem_of_further.
Qed.

Lemma resolve_loop_effects (items : list (Z * loc)) :
  ∀ (rs : list (Z * loc)) (st : state),
  HugSpec.responses_closed st items →
  ∃ rs' st',
    for_each HugSwagger.resolve_response items rs st = Ok rs' st'
    ∧ schemas_only (st_spec st) (st_spec st')
    ∧ APISpec.schemas (st_spec st')
      = foldl HugSpec.register (APISpec.schemas (st_spec st))
          (omap response_class (response_dicts st items))
    ∧ st_log st' = (st_log st ++ omap response_error (response_dicts st items))%list
    ∧ ((∀ code, code ∈ dict_keys items → code ∈ dict_keys rs) →
       dict_keys rs' = dict_keys rs).
Proof.
  induction items as [|[code0 l0] items IH]; intros rs st Hitems.
  - exists rs, st. split; [done|]. split; [apply schemas_only_refl|].
    split; [done|]. split; [by rewrite app_nil_r | done].
  - destruct (Hitems code0 l0 (list_elem_of_here _ _)) as [d0 Hd0].
    destruct (resolve_response_effects rs code0 l0 d0 st Hd0)
      as (rs1 & st1 & Hstep & Honly1 & Hsch1 & Hlog1 & Hkeys1).
    destruct (resolve_response_spec rs code0 l0 d0 st Hd0) as (st1' & Hstep' & Hd1 & _).
    rewrite Hstep in Hstep'. injection Hstep' as _ <-.
    pose proof (dicts_extend_fresh st st1 _ Hd1) as Hext1.
    assert (Hitems' : HugSpec.responses_closed st items).
    { intros c l Hin. apply (Hitems c l). by apply list_elem_of_further. }
    destruct (IH rs1 st1 (responses_closed_extend st st1 items Hitems' Hext1))
      as (rs' & st' & Hrun & Honly & Hsch & Hlog & Hkeys).
    rewrite (response_dicts_extend st st1 items Hitems' Hext1) in Hsch, Hlog.
    exists rs', st'. split; [by rewrite for_each_cons, Hstep|].
    split; [by eapply schemas_only_trans|].
    rewrite (response_dicts_cons st code0 l0 d0 items Hd0).
    split; [|split].
    + rewrite Hsch, Hsch1. simpl. by destruct (response_class d0).
    + rewrite Hlog, Hlog1. simpl. rewrite <- app_assoc.
      by destruct (response_error d0).
    + intros Hsub.
      assert (Hin0 : code0 ∈ dict_keys rs) by apply Hsub, list_elem_of_here.
      rewrite <- (Hkeys1 Hin0). apply Hkeys. intros code Hin.
      rewrite (Hkeys1 Hin0). by apply Hsub, list_elem_of_further.
Qed.

Lemma hug_register_keeps (reg : gmap string schema_class) (c : schema_class)
    (name : string) :
  is_Some (reg !! name) → is_Some (HugSpec.register reg c !! name).
Proof.
  intros H. unfold HugSpec.register.
  destruct (decide (cls_name c = name)) as [<-|Hne].
  - by rewrite lookup_insert_eq.
  - by rewrite lookup_insert_ne.
Qed.

Lemma hug_registers_keep (cs : list schema_class) :
  ∀ (reg : gmap string schema_class) (name : string),
  is_Some (reg !! name) → is_Some (foldl HugSpec.register reg cs !! name).
Proof.
  induction cs as [|c cs IH]; intros reg name H; [done|].
  simpl. by apply IH, hug_register_keeps.
Qed.

Lemma hug_registers_registered (cs : list schema_class) :
  ∀ (reg : gmap string schema_class) (c : schema_class),
  c ∈ cs → is_Some (foldl HugSpec.register reg cs !! cls_name c).
Proof.
  induction cs as [|c0 cs IH]; intros reg c Hin; [by apply elem_of_nil in Hin|].
  simpl. apply elem_of_cons in Hin as [->|Hin]; [|by apply IH].
  apply hug_registers_keep. unfold HugSpec.register. by rewrite lookup_insert_eq.
Qed.

(** The definitions [register] leaves are those it was given and the
    classes it registered, each under its class name. *)
Lemma hug_registers_from (cs : list schema_class) :
  ∀ (reg : gmap string schema_class) (name : string) (c : schema_class),
  foldl HugSpec.register reg cs !! name = Some c →
  reg !! name = Some c ∨ (c ∈ cs ∧ name = cls_name c).
Proof.
  induction cs as [|c0 cs IH]; intros reg name c Hc; simpl in Hc; [by left|].
  apply IH in Hc as [Hc|[Hc ->]]; [|right; split; [by apply list_elem_of_further | done]].
  unfold HugSpec.register in Hc.
  destruct (decide (cls_name c0 = name)) as [<-|Hne].
  - rewrite lookup_insert_eq in Hc. injection Hc as ->. right. split; [|done].
    apply list_elem_of_here.
  - rewrite lookup_insert_ne in Hc by done. by left.
Qed.

(** [get_operation] as a whole: its status codes, and what it leaves
    in the document builder, the log and the store. *)
Lemma get_operation_effects (interface : Interface) (use_default_response : bool)
    (st : state) :
  let attached := default [] (i_swagger_responses interface) in
  HugSpec.responses_closed st attached →
  NoDup (dict_keys attached) →
  ∃ rs1 st1 rs' st',
    HugSwagger.declared_responses interface use_default_response st = Ok rs1 st1
    ∧ HugSwagger.get_operation interface use_default_response st = Ok rs' st'
    ∧ dict_keys rs' = declared_codes interface use_default_response
    ∧ schemas_only (st_spec st) (st_spec st')
    ∧ APISpec.schemas (st_spec st')
      = foldl HugSpec.register (APISpec.schemas (st_spec st))
          (omap response_class (response_dicts st1 rs1))
    ∧ st_log st' = (st_log st ++ omap response_error (response_dicts st1 rs1))%list
    ∧ st_fields st' = st_fields st
    ∧ dicts_grow st st'.
Proof.
  intros attached Hc Hnd.
  destruct (declared_responses_spec interface use_default_response st Hc Hnd)
    as (rs1 & st1 & Hdecl & Hc1 & Hnd1 & Hf1 & _).
  destruct (declared_responses_effects interface use_default_response rs1 st st1 Hdecl)
    as (Hkeys1 & Hspec1 & Hlog1 & Hgrow1).
  destruct (resolve_all rs1 st1 Hc1 Hnd1) as (rs' & st' & Hrun & Hext & Hf & _).
  destruct (resolve_loop_effects rs1 rs1 st1 Hc1)
    as (rs'' & st'' & Hrun' & Honly & Hsch & Hlog & Hkeys).
  rewrite Hrun in Hrun'. injection Hrun' as <- <-.
  exists rs1, st1, rs', st'. split; [done|]. split.
  { unfold HugSwagger.get_operation, bind. by rewrite Hdecl. }
  split; [by rewrite Hkeys|]. rewrite <- Hspec1, <- Hlog1.
  split; [done|]. split; [done|]. split; [done|]. split; [congruence|].
  eapply dicts_grow_trans; [exact Hgrow1 | by apply dicts_extend_grow].
Qed.

Lemma not_found_closed :
  HugSpec.responses_closed Samples.not_found_store
    (default [] (i_swagger_responses Samples.not_found_handler)).
Proof.
  intros code l Hin. apply list_elem_of_singleton in Hin as [= -> ->].
  by eexists.
Qed.

Lemma not_found_NoDup :
  NoDup (dict_keys (default [] (i_swagger_responses Samples.not_found_handler))).
Proof. apply NoDup_singleton. Qed.

Lemma response_at_dicts (st : state) (rs : list (Z * loc)) (code : Z)
    (d : gmap string pyval) :
  HugSpec.response_at st rs code = Some d → d ∈ response_dicts st rs.
Proof.
  unfold HugSpec.response_at. destruct (dict_get code rs) as [l|] eqn:E; [|done].
  intros Hd. apply list_elem_of_omap. exists (code, l).
  split; [by apply dict_get_elem | done].
Qed.

(** X8.  [get_operation] returns one response per status code: the
    attached codes in the order they were attached, followed by [200]
    when [200] is not attached and the handler has a return annotation
    or the default response is on.  No code is dropped or repeated,
    whatever the attached dictionaries hold. *)
Theorem X8_get_operation_status_codes (interface : Interface)
    (use_default_response : bool) (st : state) :
  HugSpec.responses_closed st (default [] (i_swagger_responses interface)) →
  NoDup (dict_keys (default [] (i_swagger_responses interface))) →
  ∃ responses st',
    HugSwagger.get_operation interface use_default_response st = Ok responses st'
    ∧ dict_keys responses = declared_codes interface use_default_response.
Proof.
  intros Hc Hnd.
  destruct (get_operation_effects interface use_default_response st Hc Hnd)
    as (rs1 & st1 & rs' & st' & _ & Hrun & Hkeys & _).
  by exists rs', st'.
Qed.

(** [@response(404, ...)] with the default response on: [404], then
    [200]. *)
Lemma X8_get_operation_status_codes_witness :
  ∃ responses st',
    HugSwagger.get_operation Samples.not_found_handler true Samples.not_found_store
    = Ok responses st'
    ∧ dict_keys responses = [404; 200].
Proof.
  apply (X8_get_operation_status_codes Samples.not_found_handler true
           Samples.not_found_store not_found_closed not_found_NoDup).
Defined.

(** X9.  Besides the response dictionaries, [get_operation] changes
    the schema definitions and the log, and nothing else of the
    document builder.  Of the responses it has declared (the attached
    ones, the return annotation, the default), every schema instance
    or class is registered under its class name, so that its [$ref]
    names a definition; every definition is one that was registered
    before or one of these classes, so a schema given by name
    registers nothing; and the log gains one ERROR record per schema
    value that is neither a name nor a schema, in order, and no other
    record. *)
Theorem X9_get_operation_registers_and_logs (interface : Interface)
    (use_default_response : bool) (st : state) :
  HugSpec.responses_closed st (default [] (i_swagger_responses interface)) →
  NoDup (dict_keys (default [] (i_swagger_responses interface))) →
  ∃ declared st1 responses st',
    HugSwagger.declared_responses interface use_default_response st = Ok declared st1
    ∧ HugSwagger.get_operation interface use_default_response st = Ok responses st'
    ∧ schemas_only (st_spec st) (st_spec st')
    ∧ (∀ code d c, HugSpec.response_at st1 declared code = Some d →
                   response_class d = Some c →
                   is_Some (APISpec.schemas (st_spec st') !! cls_name c))
    ∧ (∀ name c, APISpec.schemas (st_spec st') !! name = Some c →
                 APISpec.schemas (st_spec st) !! name = Some c
                 ∨ (name = cls_name c
                    ∧ ∃ d, d ∈ response_dicts st1 declared ∧ response_class d = Some c))
    ∧ st_log st'
      = (st_log st ++ omap response_error (response_dicts st1 declared))%list.
Proof.
  intros Hc Hnd.
  destruct (get_operation_effects interface use_default_response st Hc Hnd)
    as (rs1 & st1 & rs' & st' & Hdecl & Hrun & _ & Honly & Hsch & Hlog & _).
  exists rs1, st1, rs', st'. split; [done|]. split; [done|]. split; [done|].
  split; [|split; [|done]].
  - intros code d c Hat Hclass. rewrite Hsch.
    apply hug_registers_registered, list_elem_of_omap.
    exists d. split; [by eapply response_at_dicts | done].
  - intros name c Hname. rewrite Hsch in Hname.
    apply hug_registers_from in Hname as [?|[Hin ->]]; [by left|].
    right. split; [done|]. apply list_elem_of_omap in Hin as (d & Hd & Hclass).
    by exists d.
Qed.

(** [@response(404, schema={"type": "string"}, ...)]: nothing is
    registered, one record is logged. *)
Lemma X9_get_operation_registers_and_logs_witness :
  ∃ responses st',
    HugSwagger.get_operation Samples.not_found_handler false Samples.not_found_store
    = Ok responses st'
    ∧ APISpec.paths (st_spec st') = APISpec.paths (st_spec Samples.not_found_store)
    ∧ st_log st'
      = [LogRecord ERROR "Wrong response schema %s" [PyObject "{'type': 'string'}"]].
Proof.
  destruct (X9_get_operation_registers_and_logs Samples.not_found_handler false
              Samples.not_found_store not_found_closed not_found_NoDup)
    as (rs1 & st1 & rs' & st' & Hdecl & Hrun & (_ & _ & _ & _ & Hpaths) & _ & _ & Hlog).
  exists rs', st'. split; [done|]. split; [done|].
  rewrite Hlog. injection Hdecl as <- <-. reflexivity.
Defined.

(** ** What [__init__.py] does with each parameter name *)

Lemma for_each_app {A B} (body : B → A → M B) (xs ys : list A) :
  ∀ (acc : B) (st : state),
  for_each body (xs ++ ys)%list acc st
  = match for_each body xs acc st with
    | Ok acc' st' => for_each body ys acc' st'
    | Raise e st' => Raise e st'
    end.
Proof.
  induction xs as [|x xs IH]; intros acc st; [done|].
  change ((x :: xs) ++ ys)%list with (x :: (xs ++ ys))%list.
  rewrite !for_each_cons. destruct (body acc x st); [apply IH | done].
Qed.

Lemma omap_lengths {A B C} (f : A → option B) (g : A → option C) (xs : list A) :
  (∀ x, x ∈ xs → f x = None ↔ is_Some (g x)) →
  (length (omap f xs) + length (omap g xs) = length xs)%nat.
Proof.
  induction xs as [|x xs IH]; intros H; [done|].
  specialize (IH (fun y Hy => H y (list_elem_of_further _ _ _ Hy))).
  pose proof (H x (list_elem_of_here _ _)) as Hx. unfold omap in *. simpl.
  destruct (f x) as [b|], (g x) as [c|]; simpl.
  - destruct Hx as [_ Hx]. by discriminate Hx.
  - lia.
  - lia.
  - destruct Hx as [Hx _]. by destruct Hx.
Qed.

(** A name of the signature is left out of the parameters exactly when
    it leaves a record in the log. *)
Lemma described_or_logged (conv : field → string → string → gmap string pyval)
    (url : string) (interface : Interface) (h0 : gmap loc field) (name : string) :
  is_Some (HugSpec.signature_entry interface name) →
  fields_closed h0 (i_signature interface) →
  HugSpec.described conv url interface h0 name = None
  ↔ is_Some (HugSpec.logged url interface name).
Proof.
  intros [p Hentry] Hclosed.
  unfold HugSpec.described, HugSpec.logged, HugSpec.body_schema. rewrite Hentry.
  destruct (directive_attr (p_annotation p)); [by split|].
  destruct (p_annotation p) as [[| | | | |l|c|c| | |]|] eqn:Hann;
    try (by split);
    try (destruct (String.eqb name "body"); split; intros H; try done;
         try (by eexists); by destruct H).
  assert (Hp : p ∈ i_signature interface).
  { unfold HugSpec.signature_entry in Hentry. apply dict_get_elem in Hentry.
    apply list_elem_of_fmap in Hentry as (p' & [= _ ->] & Hp'). done. }
  destruct (Hclosed p l Hp Hann) as [f0 Hf0]. rewrite Hf0. split; [done | by intros []].
Qed.

Lemma same_kind_refl (h : gmap loc field) : same_kind h h.
Proof. by intros l. Qed.

(** X10.  [__init__.py] drops no parameter silently: of the names hug
    lists for the handler, each either yields a parameter of the
    operation or leaves one record in the log (a directive, a missing
    annotation, an annotation that is no field and no body schema),
    never both and never neither.  So the parameters and the new log
    records together are as many as the names. *)
Theorem X10_every_parameter_is_documented_or_logged
    (conv : field → string → string → gmap string pyval)
    (url : string) (interface : Interface) (st : state) :
  parameters_declared interface (i_parameters interface) →
  fields_closed (st_fields st) (i_signature interface) →
  ∃ parameters st',
    HugSwagger.get_parameters conv url interface st = Ok parameters st'
    ∧ parameters
      = omap (HugSpec.described conv url interface (st_fields st))
          (i_parameters interface)
    ∧ st_log st'
      = (st_log st ++ omap (HugSpec.logged url interface) (i_parameters interface))%list
    ∧ (∀ name, name ∈ i_parameters interface →
         HugSpec.described conv url interface (st_fields st) name = None
         ↔ is_Some (HugSpec.logged url interface name))
    ∧ (length parameters + (length (st_log st') - length (st_log st))
       = length (i_parameters interface))%nat.
Proof.
  intros Hdecl Hclosed.
  rewrite (hug_get_parameters_described conv url interface st Hdecl Hclosed).
  eexists _, _. split; [reflexivity|]. split; [done|].
  rewrite hug_after_log. split; [done|].
  assert (Hxor : ∀ name, name ∈ i_parameters interface →
            HugSpec.described conv url interface (st_fields st) name = None
            ↔ is_Some (HugSpec.logged url interface name)).
  { intros name Hin. apply described_or_logged; [by apply Hdecl | done]. }
  split; [done|]. rewrite length_app.
  pose proof (omap_lengths _ _ _ Hxor). lia.
Qed.

Lemma X10_every_parameter_is_documented_or_logged_witness :
  ∃ parameters st',
    HugSwagger.get_parameters Samples.field2parameter Samples.listing_url
      Samples.listing_handler Samples.listing_store = Ok parameters st'
    ∧ (length parameters + (length (st_log st')
                            - length (st_log Samples.listing_store)) = 2)%nat.
Proof.
  destruct (X10_every_parameter_is_documented_or_logged Samples.field2parameter
              Samples.listing_url Samples.listing_handler Samples.listing_store
              listing_declared listing_closed)
    as (ps & st' & Hrun & _ & _ & _ & Hlen).
  by exists ps, st'.
Defined.

(** X11.  A name hug lists for the handler that is not in the
    handler's signature stops [get_parameters] with [KeyError]: no
    parameter list is returned, and what the names before it have
    changed in the store stays changed. *)
Theorem X11_undeclared_parameter_is_a_key_error
    (conv : field → string → string → gmap string pyval)
    (url : string) (interface : Interface) (st : state)
    (names_pre names_post : list string) (name : string) :
  i_parameters interface = (names_pre ++ name :: names_post)%list →
  parameters_declared interface names_pre →
  HugSpec.signature_entry interface name = None →
  fields_closed (st_fields st) (i_signature interface) →
  HugSwagger.get_parameters conv url interface st
  = Raise (KeyError name) (foldl (HugSpec.after url interface) st names_pre).
Proof.
  intros Hnames Hdecl Hnone Hclosed.
  unfold HugSwagger.get_parameters. rewrite Hnames, for_each_app.
  rewrite (hug_for_each_described conv url interface names_pre [] st (st_fields st)
             (same_kind_refl _) Hdecl Hclosed).
  rewrite for_each_cons. unfold HugSwagger.classify.
  unfold HugSpec.signature_entry in Hnone. by rewrite Hnone.
Qed.

(** [listing] with hug listing a third name, [page], that the
    signature does not have. *)
Lemma X11_undeclared_parameter_is_a_key_error_witness :
  ∃ st',
    HugSwagger.get_parameters Samples.field2parameter Samples.listing_url
      {| i_signature := i_signature Samples.listing_handler;
         i_return_annotation := None; i_swagger_responses := None;
         i_parameters := ["user_id"; "page"; "limit"];
         i_defaults := i_defaults Samples.listing_handler;
         i_documentation := Samples.json_documentation |}
      Samples.listing_store
    = Raise (KeyError "page") st'
    ∧ f_metadata <$> st_fields st' !! 0%nat = Some {[ "location" := PyStr "path" ]}.
Proof.
  eexists. split.
  - apply (X11_undeclared_parameter_is_a_key_error Samples.field2parameter
             Samples.listing_url _ Samples.listing_store ["user_id"] ["limit"] "page").
    + reflexivity.
    + intros name Hin. apply list_elem_of_singleton in Hin as ->. by eexists.
    + reflexivity.
    + apply listing_closed.
  - reflexivity.
Defined.

(** ** What the decorators attach *)

Lemma response_exact (response_code : Z) (schema description : option pyval)
    (handler : Interface) (st : state) :
  let l := fresh (dom (st_dicts st)) in
  Decorators.response response_code schema description handler st
  = Ok (Decorators.with_swagger_responses
          (dict_set response_code l (default [] (i_swagger_responses handler))) handler)
       (with_dicts (<[l := response_descriptor schema description]> (st_dicts st)) st).
Proof.
  unfold Decorators.response, response_descriptor.
  destruct schema as [schema|], description as [description|];
    unfold bind, new_dict, dict_setitem, bind, read_dict, ret; simpl;
    rewrite ?lookup_insert_eq; simpl; rewrite ?lookup_insert_eq; simpl;
    unfold with_dicts; simpl; by rewrite ?insert_insert_eq.
Qed.

(** X12.  [response(code, schema, description)] attaches to the
    handler, for [code], a new dictionary that holds the given schema
    and description and nothing else: a descriptor attached for [code]
    before is replaced, not merged, and keeps its place in the order.
    The descriptors of the other codes, and every dictionary the store
    held, are as before. *)
Theorem X12_response_replaces_the_descriptor (response_code : Z)
    (schema description : option pyval) (handler : Interface) (st : state) :
  HugSpec.responses_closed st (default [] (i_swagger_responses handler)) →
  ∃ handler' st',
    Decorators.response response_code schema description handler st = Ok handler' st'
    ∧ HugSpec.response_at st' (default [] (i_swagger_responses handler')) response_code
      = Some (response_descriptor schema description)
    ∧ (∀ code, code ≠ response_code →
         HugSpec.response_at st' (default [] (i_swagger_responses handler')) code
         = HugSpec.response_at st (default [] (i_swagger_responses handler)) code)
    ∧ dict_keys (default [] (i_swagger_responses handler'))
      = (if decide (response_code ∈ dict_keys (default [] (i_swagger_responses handler)))
         then dict_keys (default [] (i_swagger_responses handler))
         else dict_keys (default [] (i_swagger_responses handler)) ++ [response_code])%list
    ∧ dicts_extend st st'.
Proof.
  intros Hclosed. rewrite response_exact. eexists _, _. split; [reflexivity|].
  set (attached := default [] (i_swagger_responses handler)) in *.
  set (l := fresh (dom (st_dicts st))).
  set (st' := with_dicts _ st).
  assert (Hext : dicts_extend st st') by (by eapply dicts_extend_fresh).
  simpl. split; [|split; [|split; [|done]]].
  - unfold HugSpec.response_at. rewrite dict_get_set_eq. apply lookup_insert_eq.
  - intros code Hne. unfold HugSpec.response_at at 1.
    rewrite dict_get_set_ne by done. by apply response_at_extend.
  - case_decide.
    + by apply dict_keys_set_in.
    + by apply dict_keys_set_notin.
Qed.

(** [@response(200, description="OK")] under
    [@response(200, schema="UserSchema")]: the descriptor for [200]
    has the schema and no description. *)
Lemma X12_response_replaces_the_descriptor_witness :
  ∃ handler' st',
    Decorators.response 200 (Some (PyStr "UserSchema")) None
      Samples.annotated_handler Samples.annotated_store = Ok handler' st'
    ∧ HugSpec.response_at st' (default [] (i_swagger_responses handler')) 200
      = Some {[ "schema" := PyStr "UserSchema" ]}.
Proof.
  destruct (X12_response_replaces_the_descriptor 200 (Some (PyStr "UserSchema")) None
              Samples.annotated_handler Samples.annotated_store)
    as (handler' & st' & Hrun & Hat & _).
  - intros code l Hin. apply list_elem_of_singleton in Hin as [= -> ->]. by eexists.
  - by exists handler', st'.
Defined.

Lemma response_codes_loop (codes : list Z) :
  ∀ (rs : list (Z * loc)) (st : state),
  HugSpec.responses_closed st rs →
  ∃ rs' st',
    for_each (fun responses code =>
                let* l := new_dict ∅ in ret (dict_set code l responses))
      codes rs st = Ok rs' st'
    ∧ dicts_extend st st'
    ∧ HugSpec.responses_closed st' rs'
    ∧ (∀ code, code ∉ codes → dict_get code rs' = dict_get code rs)
    ∧ ∀ code, code ∈ codes →
        ∃ l, dict_get code rs' = Some l
             ∧ st_dicts st !! l = None
             ∧ st_dicts st' !! l = Some ∅
             ∧ ∀ code', dict_get code' rs' = Some l → code' = code.
Proof.
  induction codes as [|c codes IH]; intros rs st Hclosed.
  - exists rs, st. split; [done|]. split; [apply dicts_extend_refl|].
    split; [done|]. split; [done|]. intros code Hin. by apply elem_of_nil in Hin.
  - rewrite for_each_cons. unfold bind at 1, new_dict at 1, ret at 1.
    set (l1 := fresh (dom (st_dicts st))).
    set (st1 := with_dicts (<[l1 := ∅]> (st_dicts st)) st).
    set (rs1 := dict_set c l1 rs).
    assert (Hfresh : st_dicts st !! l1 = None) by apply fresh_dict.
    assert (Hext1 : dicts_extend st st1) by (by eapply dicts_extend_fresh).
    assert (Hl1 : st_dicts st1 !! l1 = Some ∅) by apply lookup_insert_eq.
    assert (Hclosed1 : HugSpec.responses_closed st1 rs1).
    { intros code l Hin. apply elem_of_dict_set in Hin as [[= -> ->]|Hin]; [by eexists|].
      by apply (responses_closed_extend st st1 rs Hclosed Hext1 code l). }
    destruct (IH rs1 st1 Hclosed1) as (rs' & st' & Hrun & Hext & Hclosed' & Hold & Hnew).
    exists rs', st'. split; [done|]. split; [by eapply dicts_extend_trans|].
    split; [done|]. split.
    + intros code Hnotin. apply not_elem_of_cons in Hnotin as [Hne Hnotin].
      rewrite (Hold code Hnotin). by apply dict_get_set_ne.
    + intros code Hin.
      destruct (decide (code ∈ codes)) as [Hrest|Hrest].
      * destruct (Hnew code Hrest) as (l & Hget & Hnone & Hempty & Huniq).
        exists l. split; [done|]. split; [|by split].
        destruct (st_dicts st !! l) as [d|] eqn:Hd; [|done].
        apply Hext1 in Hd. congruence.
      * apply elem_of_cons in Hin as [->|Hin]; [|done].
        exists l1. split; [by rewrite (Hold c Hrest); apply dict_get_set_eq|].
        split; [done|]. split; [by apply Hext|].
        intros code' Hget'. destruct (decide (code' ∈ codes)) as [Hin'|Hout'].
        -- destruct (Hnew code' Hin') as (l & Hget & Hnone & _). congruence.
        -- rewrite (Hold code' Hout') in Hget'.
           destruct (decide (c = code')) as [|Hne]; [done|].
           unfold rs1 in Hget'. rewrite dict_get_set_ne in Hget' by done.
           apply dict_get_elem in Hget'. destruct (Hclosed code' l1 Hget') as [d Hd].
           congruence.
Qed.

(** X13.  [response_codes(code, ...)] attaches to the handler, for
    each of the codes, an empty dictionary that is a new object of its
    own: no other status code of the mapping refers to it, so what is
    later written for one code does not show under another.  The
    descriptors of the codes it was not given, and every dictionary
    the store held, are as before. *)
Theorem X13_response_codes_attaches_empty_descriptors (codes : list Z)
    (handler : Interface) (st : state) :
  HugSpec.responses_closed st (default [] (i_swagger_responses handler)) →
  ∃ handler' st',
    Decorators.response_codes codes handler st = Ok handler' st'
    ∧ (∀ code, code ∈ codes →
         HugSpec.response_at st' (default [] (i_swagger_responses handler')) code
         = Some ∅)
    ∧ (∀ code code' l, code ∈ codes →
         dict_get code (default [] (i_swagger_responses handler')) = Some l →
         dict_get code' (default [] (i_swagger_responses handler')) = Some l →
         code' = code)
    ∧ (∀ code, code ∉ codes →
         HugSpec.response_at st' (default [] (i_swagger_responses handler')) code
         = HugSpec.response_at st (default [] (i_swagger_responses handler)) code)
    ∧ dicts_extend st st'.
Proof.
  intros Hclosed. unfold Decorators.response_codes.
  set (attached := default [] (i_swagger_responses handler)) in *.
  destruct (response_codes_loop codes attached st Hclosed)
    as (rs' & st' & Hrun & Hext & Hclosed' & Hold & Hnew).
  unfold bind at 1. fold attached. rewrite Hrun.
  eexists _, _. split; [reflexivity|]. simpl.
  split; [|split; [|split; [|done]]].
  - intros code Hin. destruct (Hnew code Hin) as (l & Hget & _ & Hempty & _).
    unfold HugSpec.response_at. by rewrite Hget.
  - intros code code' l Hin Hget Hget'.
    destruct (Hnew code Hin) as (l0 & Hget0 & _ & _ & Huniq).
    apply Huniq. congruence.
  - intros code Hout. unfold HugSpec.response_at at 1. rewrite (Hold code Hout).
    by apply response_at_extend.
Qed.

(** [@response_codes(404, 500)] on the handler decorated with
    [@response(200, description="OK")]. *)
Lemma X13_response_codes_attaches_empty_descriptors_witness :
  ∃ handler' st',
    Decorators.response_codes [404; 500] Samples.annotated_handler
      Samples.annotated_store = Ok handler' st'
    ∧ HugSpec.response_at st' (default [] (i_swagger_responses handler')) 404 = Some ∅
    ∧ HugSpec.response_at st' (default [] (i_swagger_responses handler')) 500 = Some ∅
    ∧ HugSpec.response_at st' (default [] (i_swagger_responses handler')) 200
      = Some {[ "description" := PyStr "OK" ]}.
Proof.
  destruct (X13_response_codes_attaches_empty_descriptors [404; 500]
              Samples.annotated_handler Samples.annotated_store)
    as (handler' & st' & Hrun & Hnew & _ & Hold & _).
  - intros code l Hin. apply list_elem_of_singleton in Hin as [= -> ->]. by eexists.
  - exists handler', st'. split; [done|].
    split; [apply Hnew, list_elem_of_here|].
    split; [apply Hnew, list_elem_of_further, list_elem_of_here|].
    rewrite Hold; [reflexivity|].
    intros Hin. apply elem_of_cons in Hin as [[=]|Hin].
    apply list_elem_of_singleton in Hin. done.
Defined.

(** ** The route loops of [swagger_json] *)

Lemma add_paths_exact (path_of : version → string) (method : string)
    (data : APISpec.operation) (versions : list version) :
  ∀ st, ∃ st',
    for_each (fun _ version => add_path (path_of version) method data) versions tt st
    = Ok tt st'
    ∧ st_fields st' = st_fields st ∧ st_dicts st' = st_dicts st
    ∧ st_log st' = st_log st
    ∧ APISpec.title (st_spec st') = APISpec.title (st_spec st)
    ∧ APISpec.version (st_spec st') = APISpec.version (st_spec st)
    ∧ APISpec.openapi_version (st_spec st') = APISpec.openapi_version (st_spec st)
    ∧ APISpec.options (st_spec st') = APISpec.options (st_spec st)
    ∧ APISpec.schemas (st_spec st') = APISpec.schemas (st_spec st)
    ∧ (∀ path m,
         APISpec.operation_at (st_spec st') path m
         = if decide (m = method ∧ path ∈ map path_of versions) then Some data
           else APISpec.operation_at (st_spec st) path m)
    ∧ ∀ path, is_Some (APISpec.paths (st_spec st') !! path)
              ↔ path ∈ map path_of versions ∨ is_Some (APISpec.paths (st_spec st) !! path).
Proof.
  induction versions as [|version versions IH]; intros st.
  - exists st. split; [done|]. do 8 (split; [done|]). split.
    + intros path m. rewrite decide_False; [done|].
      intros [_ Hin]. by apply elem_of_nil in Hin.
    + intros path. split; [by right|]. intros [Hin|?]; [|done].
      by apply elem_of_nil in Hin.
  - rewrite for_each_cons. unfold add_path at 1.
    set (st1 := with_spec _ st).
    destruct (IH st1) as (st' & Hrun & Hf & Hd & Hl & Ht & Hv & Ho & Hopt & Hs & Hops & Hpaths).
    exists st'. split; [done|]. do 8 (split; [by (congruence || done)|]). split.
    + intros path m. rewrite Hops. unfold st1. simpl.
      rewrite operation_at_put_path_any.
      destruct (decide (m = method ∧ path ∈ map path_of versions)) as [[-> Hin]|Hno].
      * rewrite decide_True; [done|]. split; [done|]. by apply list_elem_of_further.
      * destruct (decide (path_of version = path ∧ method = m)) as [[<- <-]|Hno'].
        -- rewrite decide_True; [done|]. split; [done|]. apply list_elem_of_here.
        -- rewrite decide_False; [done|]. intros [-> Hin].
           apply elem_of_cons in Hin as [->|Hin]; [by apply Hno' | by apply Hno].
    + intros path. rewrite Hpaths.
      change (st_spec st1)
        with (APISpec.put_path (path_of version) method data (st_spec st)).
      rewrite paths_put_path. simpl. rewrite elem_of_cons.
      split; [intros [?|[<-|?]] | intros [[->|?]|?]]; auto.
Qed.

Lemma hug_described_same_kind (conv : field → string → string → gmap string pyval)
    (url : string) (interface : Interface) (h h0 : gmap loc field) (name : string) :
  same_kind h h0 →
  HugSpec.described conv url interface h name
  = HugSpec.described conv url interface h0 name.
Proof.
  intros Hkind. unfold HugSpec.described.
  destruct (HugSpec.signature_entry interface name) as [p|]; [|done].
  destruct (directive_attr _); [done|].
  destruct (p_annotation p) as [[| | | | |l| | | | |]|]; try done.
  specialize (Hkind l).
  destruct (h !! l) as [f|], (h0 !! l) as [f0|]; simpl in Hkind; try done.
  unfold HugSpec.field_parameter, HugSpec.converted.
  by rewrite (relocate_kind url interface name f f0) by congruence.
Qed.

Lemma hug_foldl_after_same_kind (url : string) (interface : Interface)
    (names : list string) :
  ∀ (st : state) (h0 : gmap loc field),
  same_kind (st_fields st) h0 →
  same_kind (st_fields (foldl (HugSpec.after url interface) st names)) h0.
Proof.
  induction names as [|name names IH]; intros st h0 H; [done|].
  simpl. by apply IH, hug_after_same_kind.
Qed.

Lemma responses_closed_grow (st st' : state) (rs : list (Z * loc)) :
  HugSpec.responses_closed st rs → dicts_grow st st' → HugSpec.responses_closed st' rs.
Proof. intros Hc Hg code l Hin. by apply Hg, (Hc code). Qed.

(** One entry of the route table: the parameters, the responses, and
    one registration per version. *)
Lemma hug_document_interface_spec
    (conv : field → string → string → gmap string pyval) (cfg : HugSwagger.Settings)
    (url method : string) (versions : versions_key) (interface : Interface)
    (st : state) (h0 : gmap loc field) :
  same_kind (st_fields st) h0 →
  parameters_declared interface (i_parameters interface) →
  fields_closed h0 (i_signature interface) →
  HugSpec.responses_closed st (default [] (i_swagger_responses interface)) →
  NoDup (dict_keys (default [] (i_swagger_responses interface))) →
  ∃ responses st',
    HugSwagger.document_interface conv cfg url method versions interface st = Ok tt st'
    ∧ dict_keys responses = declared_codes interface (HugSwagger.USE_DEFAULT_RESPONSE cfg)
    ∧ same_kind (st_fields st') h0
    ∧ dicts_grow st st'
    ∧ st_log st `prefix_of` st_log st'
    ∧ APISpec.title (st_spec st') = APISpec.title (st_spec st)
    ∧ APISpec.version (st_spec st') = APISpec.version (st_spec st)
    ∧ APISpec.openapi_version (st_spec st') = APISpec.openapi_version (st_spec st)
    ∧ APISpec.options (st_spec st') = APISpec.options (st_spec st)
    ∧ (∀ name, is_Some (APISpec.schemas (st_spec st) !! name) →
               is_Some (APISpec.schemas (st_spec st') !! name))
    ∧ (∀ c, c ∈ omap (HugSpec.body_schema interface) (i_parameters interface) →
            is_Some (APISpec.schemas (st_spec st') !! cls_name c))
    ∧ (∀ path m,
         APISpec.operation_at (st_spec st') path m
         = if decide (m = lower method
                      ∧ path ∈ map (fun version => HugSwagger.versioned_url version url)
                                 (HugSwagger.normalize_versions versions))
           then Some (HugSwagger.methods_data (i_documentation interface)
                        (omap (HugSpec.described conv url interface h0)
                           (i_parameters interface)) responses)
           else APISpec.operation_at (st_spec st) path m)
    ∧ ∀ path, is_Some (APISpec.paths (st_spec st') !! path)
              ↔ path ∈ map (fun version => HugSwagger.versioned_url version url)
                         (HugSwagger.normalize_versions versions)
                ∨ is_Some (APISpec.paths (st_spec st) !! path).
Proof.
  intros Hkind Hdecl Hclosed Hresp Hnd.
  unfold HugSwagger.document_interface, HugSwagger.get_parameters.
  unfold bind at 1.
  rewrite (hug_for_each_described conv url interface (i_parameters interface) [] st h0
             Hkind Hdecl Hclosed).
  set (sta := foldl (HugSpec.after url interface) st (i_parameters interface)).
  destruct (hug_after_unchanged url interface (i_parameters interface) st)
    as (Hda & Hta & Hva & Hoa & Hopta & Hpa).
  pose proof (hug_after_log url interface (i_parameters interface) st) as Hla.
  pose proof (hug_after_schemas url interface (i_parameters interface) st) as Hsa.
  pose proof (hug_foldl_after_same_kind url interface (i_parameters interface) st h0 Hkind)
    as Hka.
  fold sta in Hda, Hta, Hva, Hoa, Hopta, Hpa, Hla, Hsa, Hka.
  assert (Hrespa : HugSpec.responses_closed sta (default [] (i_swagger_responses interface))).
  { intros code l Hin. rewrite Hda. by apply (Hresp code). }
  destruct (get_operation_effects interface (HugSwagger.USE_DEFAULT_RESPONSE cfg) sta
              Hrespa Hnd)
    as (rs1 & st1 & rs' & stb & _ & Hrun & Hkeys & (Htb & Hvb & Hob & Hoptb & Hpb)
        & Hsb & Hlb & Hfb & Hgb).
  unfold bind at 1. rewrite Hrun.
  match goal with |- context [for_each ?body ?xs tt stb] =>
    destruct (add_paths_exact (fun version => HugSwagger.versioned_url version url)
                (lower method)
                (HugSwagger.methods_data (i_documentation interface)
                   ([] ++ omap (HugSpec.described conv url interface h0)
                            (i_parameters interface))%list rs')
                (HugSwagger.normalize_versions versions) stb)
      as (stc & Hrunc & Hfc & Hdc & Hlc & Htc & Hvc & Hoc & Hoptc & Hsc & Hopsc & Hpathsc)
  end.
  exists rs', stc. split; [exact Hrunc|]. split; [done|].
  split; [by rewrite Hfc, Hfb|].
  split.
  { intros l Hl. rewrite Hdc. apply Hgb. by rewrite Hda. }
  split.
  { rewrite Hlc, Hlb, Hla, <- app_assoc. by eexists. }
  do 4 (split; [congruence|]).
  split.
  { intros name Hname. rewrite Hsc, Hsb. apply hug_registers_keep.
    rewrite Hsa. by apply hug_registers_keep. }
  split.
  { intros c Hc. rewrite Hsc, Hsb. apply hug_registers_keep.
    rewrite Hsa. by apply hug_registers_registered. }
  split.
  { intros path m. rewrite Hopsc. case_decide; [done|].
    unfold APISpec.operation_at. by rewrite Hpb, Hpa. }
  intros path. rewrite Hpathsc. by rewrite Hpb, Hpa.
Qed.

Lemma hug_entry_documented_extends (url method : string) (versions : versions_key)
    (interface : Interface) (spec spec' : APISpec.t) :
  hug_entry_documented url method versions interface spec → spec_extends spec spec' →
  hug_entry_documented url method versions interface spec'.
Proof. intros [H1 H2] [H3 H4]. split; eauto. Qed.

Section HugRoutes.

Variable conv : field → string → string → gmap string pyval.
Variable cfg : HugSwagger.Settings.
Variable routes : route_table.
Variable st0 : state.

Hypothesis Hclosed : hug_routes_closed st0 routes.

Lemma hug_document_interface_step (url method : string) (versions : versions_key)
    (interface : Interface) (st : state) :
  (url, method, versions, interface) ∈ route_entries routes →
  hug_generating conv cfg routes st0 st →
  ∃ st', HugSwagger.document_interface conv cfg url method versions interface st
         = Ok tt st'
         ∧ hug_generating conv cfg routes st0 st'
         ∧ spec_extends (st_spec st) (st_spec st')
         ∧ hug_entry_documented url method versions interface (st_spec st').
Proof.
  intros Hin (Hkind & Hgrow & Hlog & Ht & Hv & Ho & Hopt & Hpaths & Hops).
  destruct (Hclosed url method versions interface Hin) as (Hdecl & Hfc & Hresp & Hnd).
  destruct (hug_document_interface_spec conv cfg url method versions interface st
              (st_fields st0) Hkind Hdecl Hfc
              (responses_closed_grow st0 st _ Hresp Hgrow) Hnd)
    as (rs & st' & Hrun & Hkeys & Hkind' & Hgrow' & Hlog' & Ht' & Hv' & Ho' & Hopt'
        & Hkeep & Hbody & Hops' & Hpaths').
  exists st'. split; [done|]. split; [|split].
  - split; [done|]. split; [by eapply dicts_grow_trans|].
    split; [by etransitivity|]. do 4 (split; [congruence|]). split.
    + intros path Hp. apply Hpaths' in Hp as [Hp|Hp]; [|by apply Hpaths].
      apply list_elem_of_fmap in Hp as (version & -> & Hversion).
      by exists url, method, versions, interface, version.
    + intros path m op Hop. rewrite Hops' in Hop.
      case_decide as Hkey; [|by apply Hops].
      destruct Hkey as [-> Hp]. injection Hop as <-.
      apply list_elem_of_fmap in Hp as (version & -> & Hversion).
      by exists url, method, versions, interface, version, rs.
  - split; [|done]. intros path m Hop. rewrite Hops'. by case_decide.
  - split.
    + intros version Hversion. rewrite Hops', decide_True; [done|].
      split; [done|].
      by apply (list_elem_of_fmap_2 (fun version => HugSwagger.versioned_url version url)).
    + intros p c Hname Hentry Hschema. apply Hbody, list_elem_of_omap.
      exists "body". split; [done|].
      apply (schema_body_hug conv url interface (st_fields st0) p c Hschema Hentry).
Qed.

Lemma hug_routes_spec (st : state) :
  hug_generating conv cfg routes st0 st →
  ∃ st',
    for_each (fun _ '(url, route) =>
      for_each (fun _ '(method, versioned_interfaces) =>
        for_each (fun _ '(versions, interface) =>
          HugSwagger.document_interface conv cfg url method versions interface)
          versioned_interfaces tt)
        route tt)
      routes tt st = Ok tt st'
    ∧ hug_generating conv cfg routes st0 st'
    ∧ spec_extends (st_spec st) (st_spec st')
    ∧ ∀ url method versions interface,
        (url, method, versions, interface) ∈ route_entries routes →
        hug_entry_documented url method versions interface (st_spec st').
Proof.
  intros HI.
  pose (R := fun s s' : state => spec_extends (st_spec s) (st_spec s')).
  assert (Hrefl : ∀ s, R s s) by (intros; apply spec_extends_refl).
  assert (Htrans : ∀ s1 s2 s3, R s1 s2 → R s2 s3 → R s1 s3)
    by (intros ???; apply spec_extends_trans).
  edestruct (for_each_unit (hug_generating conv cfg routes st0) R
    (fun (x : string * list (string * list (versions_key * Interface))) s =>
       ∀ method vis versions interface,
         (method, vis) ∈ x.2 → (versions, interface) ∈ vis →
         hug_entry_documented x.1 method versions interface (st_spec s))
    (fun _ '(url, route) =>
       for_each (fun _ '(method, versioned_interfaces) =>
         for_each (fun _ '(versions, interface) =>
           HugSwagger.document_interface conv cfg url method versions interface)
           versioned_interfaces tt)
         route tt)
    routes)
    as (st' & Hrun & HI' & HR' & HQ); [done | done | | | exact HI | ].
  - intros x s s' HQ HR method vis versions interface Hm Hv.
    eapply hug_entry_documented_extends; [by eapply HQ | done].
  - intros [url route] s Hroute HIs.
    edestruct (for_each_unit (hug_generating conv cfg routes st0) R
      (fun (x : string * list (versions_key * Interface)) s =>
         ∀ versions interface, (versions, interface) ∈ x.2 →
           hug_entry_documented url x.1 versions interface (st_spec s))
      (fun _ '(method, versioned_interfaces) =>
         for_each (fun _ '(versions, interface) =>
           HugSwagger.document_interface conv cfg url method versions interface)
           versioned_interfaces tt)
      route)
      as (s' & Hrun & HI' & HR' & HQ); [done | done | | | exact HIs | ].
    + intros x s1 s2 HQ HR versions interface Hv.
      eapply hug_entry_documented_extends; [by eapply HQ | done].
    + intros [method vis] s1 Hmethod HIs1.
      edestruct (for_each_unit (hug_generating conv cfg routes st0) R
        (fun (x : versions_key * Interface) s =>
           hug_entry_documented url method x.1 x.2 (st_spec s))
        (fun _ '(versions, interface) =>
           HugSwagger.document_interface conv cfg url method versions interface)
        vis)
        as (s' & Hrun & HI' & HR' & HQ); [done | done | | | exact HIs1 | ].
      * intros x s2 s3 HQ HR.
        eapply hug_entry_documented_extends; [exact HQ | done].
      * intros [versions interface] s2 Hv HIs2.
        apply (hug_document_interface_step url method versions); [|done].
        apply elem_of_route_entries. by exists route, vis.
      * exists s'. split; [exact Hrun|]. split; [done|]. split; [done|].
        intros versions interface Hv. by apply (HQ (versions, interface)).
    + exists s'. split; [exact Hrun|]. split; [done|]. split; [done|].
      intros method vis versions interface Hm Hv.
      by apply (HQ (method, vis) Hm versions interface).
  - exists st'. split; [exact Hrun|]. split; [done|]. split; [done|].
    intros url method versions interface Hin.
    apply elem_of_route_entries in Hin as (route & vis & Hroute & Hm & Hv).
    by apply (HQ (url, route) Hroute method vis versions interface).
Qed.

End HugRoutes.

(** The definitions module: only the schema definitions change. *)
Lemma preregister_spec (definitions : list (string * schema_class)) :
  ∀ st, ∃ st',
    for_each (fun _ '(name, schema) =>
                if endswith name "Schema"
                   && (String.length "Schema" <? String.length name)%nat
                then definition name schema else ret tt)
      definitions tt st = Ok tt st'
    ∧ st_fields st' = st_fields st ∧ st_dicts st' = st_dicts st
    ∧ st_log st' = st_log st
    ∧ schemas_only (st_spec st) (st_spec st')
    ∧ APISpec.schemas (st_spec st')
      = preregistered definitions (APISpec.schemas (st_spec st)).
Proof.
  induction definitions as [|[name schema] definitions IH]; intros st.
  - exists st. split; [done|]. do 3 (split; [done|]).
    split; [apply schemas_only_refl | done].
  - rewrite for_each_cons. unfold preregistered. simpl.
    destruct (endswith name "Schema" && (6 <? String.length name)%nat).
    + unfold definition at 1.
      match goal with |- context [for_each _ _ tt ?s] =>
        destruct (IH s) as (st' & Hrun & Hf & Hd & Hl & Honly & Hs) end.
      exists st'. split; [exact Hrun|]. do 3 (split; [done|]).
      split; [|exact Hs]. eapply schemas_only_trans; [|exact Honly]. by repeat split.
    + unfold ret at 1. destruct (IH st) as (st' & Hrun & Hrest).
      by exists st'.
Qed.

Lemma preregistered_lookup (definitions : list (string * schema_class)) :
  ∀ (reg : gmap string schema_class) (name : string),
  is_Some (reg !! name)
  ∨ (∃ schema, (name, schema) ∈ definitions
               ∧ endswith name "Schema" = true
               ∧ (String.length "Schema" < String.length name)%nat) →
  is_Some (preregistered definitions reg !! name).
Proof.
  induction definitions as [|[name0 schema0] definitions IH]; intros reg name H.
  - destruct H as [H|(schema & Hin & _)]; [done | by apply elem_of_nil in Hin].
  - unfold preregistered. simpl. apply IH.
    destruct H as [H|(schema & Hin & Hend & Hlen)].
    + left. destruct (_ && _); [|done].
      destruct (decide (name0 = name)) as [<-|Hne].
      * by rewrite lookup_insert_eq.
      * by rewrite lookup_insert_ne.
    + apply elem_of_cons in Hin as [[= <- <-]|Hin]; [|right; by exists schema].
      left. rewrite Hend. simpl in Hlen.
      destruct (Nat.ltb_spec 6 (String.length name)) as [_|Hge]; [|lia].
      simpl. by rewrite lookup_insert_eq.
Qed.

Lemma hug_routes_closed_same (st st1 : state) (routes : route_table) :
  st_fields st1 = st_fields st → st_dicts st1 = st_dicts st →
  hug_routes_closed st routes → hug_routes_closed st1 routes.
Proof.
  intros Hf Hd H url method versions interface Hin.
  destruct (H url method versions interface Hin) as (H1 & H2 & H3 & H4).
  split; [done|]. split; [by rewrite Hf|]. split; [|done].
  intros code l Hl. rewrite Hd. by apply (H3 code).
Qed.

(** ** [swagger_json] as a whole *)

Lemma swagger_json_spec (conv : field → string → string → gmap string pyval)
    (cfg : HugSwagger.Settings)
    (import_module : string → option (list (string * schema_class)))
    (hug_api : API) (routes : route_table)
    (definitions : list (string * schema_class)) (st : state) :
  imported cfg import_module = Some definitions →
  dict_get "" (http_routes hug_api) = Some routes →
  hug_routes_closed st routes →
  ∃ st1 st',
    st_fields st1 = st_fields st ∧ st_dicts st1 = st_dicts st
    ∧ st_log st1 = st_log st
    ∧ APISpec.title (st_spec st1) = HugSwagger.TITLE cfg
    ∧ APISpec.version (st_spec st1) = Some (HugSwagger.VERSION cfg)
    ∧ APISpec.openapi_version (st_spec st1) = "2.0"
    ∧ APISpec.options (st_spec st1)
      = {[ "description" := PyStr (HugSwagger.DESCRIPTION cfg);
           "schemes" := PyStrs (HugSwagger.SCHEMES cfg);
           "host" := PyStr (HugSwagger.HOST cfg) ]}
    ∧ APISpec.schemas (st_spec st1) = preregistered definitions ∅
    ∧ HugSwagger.swagger_json conv cfg import_module hug_api st
      = Ok (APISpec.to_dict (st_spec st')) st'
    ∧ hug_generating conv cfg routes st1 st'
    ∧ spec_extends (st_spec st1) (st_spec st')
    ∧ ∀ url method versions interface,
        (url, method, versions, interface) ∈ route_entries routes →
        hug_entry_documented url method versions interface (st_spec st').
Proof.
  intros Himport Hbase Hclosed.
  set (options := ({[ "description" := PyStr (HugSwagger.DESCRIPTION cfg);
                      "schemes" := PyStrs (HugSwagger.SCHEMES cfg);
                      "host" := PyStr (HugSwagger.HOST cfg) ]} : gmap string pyval)).
  set (sta := with_spec (APISpec.new (HugSwagger.TITLE cfg)
                           (Some (HugSwagger.VERSION cfg)) "2.0" options) st).
  assert (∃ st1,
    match HugSwagger.DEFINITIONS_PATH cfg with
    | None => ret tt
    | Some path =>
        match import_module path with
        | None => raise (ImportError path)
        | Some definitions =>
            for_each (fun _ '(name, schema) =>
              if endswith name "Schema"
                 && (String.length "Schema" <? String.length name)%nat
              then definition name schema else ret tt)
              definitions tt
        end
    end sta = Ok tt st1
    ∧ st_fields st1 = st_fields sta ∧ st_dicts st1 = st_dicts sta
    ∧ st_log st1 = st_log sta
    ∧ schemas_only (st_spec sta) (st_spec st1)
    ∧ APISpec.schemas (st_spec st1) = preregistered definitions ∅)
    as (st1 & Hpre & Hf1 & Hd1 & Hl1 & (Ht1 & Hv1 & Ho1 & Hopt1 & Hp1) & Hs1).
  { unfold imported in Himport.
    destruct (HugSwagger.DEFINITIONS_PATH cfg) as [path|].
    - rewrite Himport. apply (preregister_spec definitions sta).
    - injection Himport as <-. exists sta. split; [done|]. do 3 (split; [done|]).
      split; [apply schemas_only_refl | done]. }
  assert (HI : hug_generating conv cfg routes st1 st1).
  { split; [apply same_kind_refl|]. split; [apply dicts_grow_refl|].
    split; [done|]. do 4 (split; [done|]). split.
    - intros path [x Hx]. rewrite Hp1 in Hx. simpl in Hx. by rewrite lookup_empty in Hx.
    - intros path m op Hop. unfold APISpec.operation_at in Hop.
      rewrite Hp1 in Hop. simpl in Hop. by rewrite lookup_empty in Hop. }
  destruct (hug_routes_spec conv cfg routes st1
              (hug_routes_closed_same st st1 routes Hf1 Hd1 Hclosed) st1 HI)
    as (st' & Hrun & HI' & HR & HQ).
  exists st1, st'. do 7 (split; [done|]). split; [done|]. split; [|done].
  unfold HugSwagger.swagger_json, put_spec.
  unfold bind at 1. fold options. fold sta.
  unfold bind at 1. rewrite Hpre.
  unfold bind at 1. rewrite Hbase, Hrun. reflexivity.
Qed.

Lemma ping_hug_routes_closed :
  hug_routes_closed Samples.empty_store
    [("/ping", [("GET", [(Versions [Some 1; Some 2], Samples.plain_handler)])])].
Proof.
  intros url method versions interface Hin. simpl in Hin.
  apply list_elem_of_singleton in Hin as [= -> -> -> ->].
  split; [intros name Hname; by apply elem_of_nil in Hname|].
  split; [intros p l Hp; by apply elem_of_nil in Hp|].
  split; [|apply NoDup_nil_2]. intros code l Hl. by apply elem_of_nil in Hl.
Qed.

(** X15.  [swagger_json] documents every entry of the route table
    under each of its versions: the document has an operation under
    the versioned url and the method in lowercase.  And it has no
    other paths: every path of the document is the versioned url of
    an entry of the table. *)
Theorem X15_every_route_and_version_has_an_operation
    (conv : field → string → string → gmap string pyval)
    (cfg : HugSwagger.Settings)
    (import_module : string → option (list (string * schema_class)))
    (hug_api : API) (routes : route_table)
    (definitions : list (string * schema_class)) (st : state) :
  imported cfg import_module = Some definitions →
  dict_get "" (http_routes hug_api) = Some routes →
  hug_routes_closed st routes →
  ∃ doc st',
    HugSwagger.swagger_json conv cfg import_module hug_api st = Ok doc st'
    ∧ (∀ url method versions interface version,
         (url, method, versions, interface) ∈ route_entries routes →
         version ∈ HugSwagger.normalize_versions versions →
         is_Some (document_operation doc (HugSwagger.versioned_url version url)
                    (lower method)))
    ∧ ∀ path, is_Some (APISpec.doc_paths doc !! path) →
        ∃ url method versions interface version,
          (url, method, versions, interface) ∈ route_entries routes
          ∧ version ∈ HugSwagger.normalize_versions versions
          ∧ path = HugSwagger.versioned_url version url.
Proof.
  intros Himport Hbase Hclosed.
  destruct (swagger_json_spec conv cfg import_module hug_api routes definitions st
              Himport Hbase Hclosed)
    as (st1 & st' & _ & _ & _ & _ & _ & _ & _ & _ & Hrun
        & (_ & _ & _ & _ & _ & _ & _ & Hpaths & _) & _ & Hdone).
  exists (APISpec.to_dict (st_spec st')), st'. split; [done|]. split; [|done].
  intros url method versions interface version Hin Hversion.
  destruct (Hdone url method versions interface Hin) as [Hop _]. by apply Hop.
Qed.

Lemma X15_every_route_and_version_has_an_operation_witness :
  ∃ doc st',
    HugSwagger.swagger_json Samples.field2parameter HugSwagger.settings
      (fun _ => None) ping_api Samples.empty_store = Ok doc st'
    ∧ is_Some (document_operation doc "/v1/ping" "get")
    ∧ is_Some (document_operation doc "/v2/ping" "get").
Proof.
  destruct (X15_every_route_and_version_has_an_operation Samples.field2parameter
              HugSwagger.settings (fun _ => None) ping_api _ [] Samples.empty_store
              eq_refl eq_refl ping_hug_routes_closed)
    as (doc & st' & Hrun & Hops & _).
  exists doc, st'. split; [done|]. split.
  - apply (Hops "/ping" "GET" (Versions [Some 1; Some 2]) Samples.plain_handler (Some 1)).
    + apply list_elem_of_here.
    + apply list_elem_of_here.
  - apply (Hops "/ping" "GET" (Versions [Some 1; Some 2]) Samples.plain_handler (Some 2)).
    + apply list_elem_of_here.
    + apply list_elem_of_further, list_elem_of_here.
Defined.

Lemma declared_codes_default (interface : Interface) :
  200 ∈ declared_codes interface true.
Proof.
  unfold declared_codes. destruct (i_return_annotation interface);
    (case_decide; [done|]); apply elem_of_app; right; apply list_elem_of_here.
Qed.

(** X16.  Every operation of the document [swagger_json] returns is
    the operation of an entry of the route table, under one of its
    versions and its method in lowercase: the content type, summary
    and description of the handler's documentation, the parameters of
    the names hug lists, and one response per status code
    [get_operation] declares for the handler.  So with the default
    response on, every operation has responses, [200] among them. *)
Theorem X16_every_operation_is_of_a_route_and_version
    (conv : field → string → string → gmap string pyval)
    (cfg : HugSwagger.Settings)
    (import_module : string → option (list (string * schema_class)))
    (hug_api : API) (routes : route_table)
    (definitions : list (string * schema_class)) (st : state) :
  imported cfg import_module = Some definitions →
  dict_get "" (http_routes hug_api) = Some routes →
  hug_routes_closed st routes →
  ∃ doc st',
    HugSwagger.swagger_json conv cfg import_module hug_api st = Ok doc st'
    ∧ ∀ path method op,
        document_operation doc path method = Some op →
        hug_documented conv cfg (st_fields st) routes path method op
        ∧ (HugSwagger.USE_DEFAULT_RESPONSE cfg = true →
           ∃ responses, APISpec.op_responses op = Some responses
                        ∧ 200 ∈ dict_keys responses).
Proof.
  intros Himport Hbase Hclosed.
  destruct (swagger_json_spec conv cfg import_module hug_api routes definitions st
              Himport Hbase Hclosed)
    as (st1 & st' & Hf1 & _ & _ & _ & _ & _ & _ & _ & Hrun
        & (_ & _ & _ & _ & _ & _ & _ & _ & Hops) & _ & _).
  exists (APISpec.to_dict (st_spec st')), st'. split; [done|].
  intros path method op Hop. apply Hops in Hop. rewrite Hf1 in Hop. split; [done|].
  intros Hdefault.
  destruct Hop as (url & method' & versions & interface & version & rs & _ & _ & _ & _
                   & -> & Hkeys).
  rewrite Hdefault in Hkeys. exists rs.
  assert (H200 : 200 ∈ dict_keys rs) by (rewrite Hkeys; apply declared_codes_default).
  split; [|done]. simpl. destruct rs; [by apply elem_of_nil in H200 | done].
Qed.

Lemma X16_every_operation_is_of_a_route_and_version_witness :
  ∃ doc st',
    HugSwagger.swagger_json Samples.field2parameter HugSwagger.settings
      (fun _ => None) ping_api Samples.empty_store = Ok doc st'
    ∧ ∀ path method op,
        document_operation doc path method = Some op →
        ∃ responses, APISpec.op_responses op = Some responses
                     ∧ 200 ∈ dict_keys responses.
Proof.
  destruct (X16_every_operation_is_of_a_route_and_version Samples.field2parameter
              HugSwagger.settings (fun _ => None) ping_api _ [] Samples.empty_store
              eq_refl eq_refl ping_hug_routes_closed)
    as (doc & st' & Hrun & Hops).
  exists doc, st'. split; [done|].
  intros path method op Hop. destruct (Hops path method op Hop) as [_ Hdefault].
  by apply Hdefault.
Defined.

(** X17.  The document [swagger_json] returns defines every attribute
    of the definitions module whose name ends in [Schema] and is
    longer than that, under that name, whether or not a route uses
    it; and it defines the schema of every [body] parameter of the
    route table under its class name, the name the parameter's [$ref]
    carries. *)
Theorem X17_definitions_of_the_module_and_the_bodies
    (conv : field → string → string → gmap string pyval)
    (cfg : HugSwagger.Settings)
    (import_module : string → option (list (string * schema_class)))
    (hug_api : API) (routes : route_table)
    (definitions : list (string * schema_class)) (st : state) :
  imported cfg import_module = Some definitions →
  dict_get "" (http_routes hug_api) = Some routes →
  hug_routes_closed st routes →
  ∃ doc st',
    HugSwagger.swagger_json conv cfg import_module hug_api st = Ok doc st'
    ∧ (∀ name schema,
         (name, schema) ∈ definitions →
         endswith name "Schema" = true →
         (String.length "Schema" < String.length name)%nat →
         is_Some (APISpec.doc_schemas doc !! name))
    ∧ ∀ url method versions interface p c,
        (url, method, versions, interface) ∈ route_entries routes →
        "body" ∈ i_parameters interface →
        HugSpec.signature_entry interface "body" = Some p →
        schema_body p c →
        is_Some (APISpec.doc_schemas doc !! cls_name c).
Proof.
  intros Himport Hbase Hclosed.
  destruct (swagger_json_spec conv cfg import_module hug_api routes definitions st
              Himport Hbase Hclosed)
    as (st1 & st' & _ & _ & _ & _ & _ & _ & _ & Hs1 & Hrun & _ & [_ Hkeep] & Hdone).
  exists (APISpec.to_dict (st_spec st')), st'. split; [done|]. split.
  - intros name schema Hin Hend Hlen. apply Hkeep. rewrite Hs1.
    apply preregistered_lookup. right. by exists schema.
  - intros url method versions interface p c Hin Hname Hentry Hschema.
    destruct (Hdone url method versions interface Hin) as [_ Hbody].
    by apply (Hbody p c).
Qed.

Lemma X17_definitions_of_the_module_and_the_bodies_witness :
  ∃ doc st',
    HugSwagger.swagger_json Samples.field2parameter schemas_settings schemas_module
      ping_api Samples.empty_store = Ok doc st'
    ∧ is_Some (APISpec.doc_schemas doc !! "UserSchema").
Proof.
  destruct (X17_definitions_of_the_module_and_the_bodies Samples.field2parameter
              schemas_settings schemas_module ping_api _ _ Samples.empty_store
              eq_refl eq_refl ping_hug_routes_closed)
    as (doc & st' & Hrun & Hdefs & _).
  exists doc, st'. split; [done|].
  apply (Hdefs "UserSchema" Samples.users_UserSchema).
  - apply list_elem_of_here.
  - reflexivity.
  - simpl. lia.
Defined.

(** ** A missing base url *)

(** X18.  Both generators read the routes of the base url [""].  When
    the application has routes but none under [""], [generate_spec]
    raises [KeyError], once apispec has accepted the OpenAPI version;
    [swagger_json] raises [KeyError] whenever [""] is missing, also on
    an application without any route. *)
Theorem X18_missing_base_url_is_a_key_error
    (conv_swagger : string → field → string → string → gmap string pyval)
    (conv_hug : field → string → string → gmap string pyval)
    (refused_version : string → option exn)
    (refused_path : string → string → string → option exn)
    (hug_api : API) (st : state) :
  dict_get "" (http_routes hug_api) = None →
  (∀ title version openapi_version host schemes options,
     refused_version openapi_version = None →
     http_routes hug_api ≠ [] →
     ∃ st', Swagger.generate_spec conv_swagger refused_version refused_path hug_api
              title version openapi_version host schemes options st
            = Raise (KeyError "") st')
  ∧ ∀ cfg import_module definitions,
      imported cfg import_module = Some definitions →
      ∃ st', HugSwagger.swagger_json conv_hug cfg import_module hug_api st
             = Raise (KeyError "") st'.
Proof.
  intros Hbase. split.
  - intros title version openapi_version host schemes options Hversion Hroutes.
    unfold Swagger.generate_spec, Swagger.new_spec, bind. rewrite Hversion.
    unfold put_spec.
    destruct (http_routes hug_api) as [|r rs]; [done|]. rewrite Hbase.
    by eexists.
  - intros cfg import_module definitions Himport.
    unfold HugSwagger.swagger_json, put_spec. unfold bind at 1.
    match goal with |- context [with_spec ?s st] => set (sta := with_spec s st) end.
    unfold imported in Himport. unfold bind at 1.
    destruct (HugSwagger.DEFINITIONS_PATH cfg) as [path|].
    + rewrite Himport.
      destruct (preregister_spec definitions sta) as (st1 & Hpre & _).
      rewrite Hpre. unfold bind at 1. rewrite Hbase. by eexists.
    + unfold ret at 1. unfold bind at 1. rewrite Hbase. by eexists.
Qed.

(** An application whose routes are all under the base url [/api]. *)
Lemma X18_missing_base_url_is_a_key_error_witness :
  (∃ st',
     Swagger.generate_spec Samples.OpenAPIConverter Samples.refused_version
       Samples.refused_path {| http_routes := [("/api", [])] |} Swagger.DEFAULT_TITLE
       None Swagger.DEFAULT_OPENAPI_VERSION Swagger.DEFAULT_HOST
       Swagger.DEFAULT_SCHEMES ∅ Samples.empty_store
     = Raise (KeyError "") st')
  ∧ ∃ st',
      HugSwagger.swagger_json Samples.field2parameter HugSwagger.settings
        (fun _ => None) {| http_routes := [("/api", [])] |} Samples.empty_store
      = Raise (KeyError "") st'.
Proof.
  destruct (X18_missing_base_url_is_a_key_error Samples.OpenAPIConverter
              Samples.field2parameter Samples.refused_version Samples.refused_path
              {| http_routes := [("/api", [])] |}
              Samples.empty_store eq_refl) as [Hswagger Hhug].
  split.
  - by apply Hswagger.
  - apply (Hhug HugSwagger.settings (fun _ => None) [] eq_refl).
Defined.

(** ** The summary of an operation *)

Lemma first_line_spec (s : string) :
  (∀ pre post, first_line s ≠ pre +:+ newline +:+ post)
  ∧ (s = first_line s ∨ ∃ rest, s = first_line s +:+ newline +:+ rest).
Proof.
  induction s as [|a s [IHno IHsplit]].
  - split; [|by left]. intros [|b pre] post; simpl.
    + rewrite append_nil_l. unfold newline. by rewrite append_cons.
    + by rewrite append_cons.
  - simpl. destruct (Ascii.eqb_spec a "010"%char) as [->|Hne].
    + split.
      * intros [|b pre] post.
        -- rewrite append_nil_l. unfold newline. by rewrite append_cons.
        -- by rewrite append_cons.
      * right. exists s. rewrite append_nil_l. unfold newline.
        by rewrite append_cons, append_nil_l.
    + split.
      * intros [|b pre] post.
        -- rewrite append_nil_l. unfold newline. rewrite append_cons. congruence.
        -- rewrite append_cons. intros [= _ H]. by apply (IHno pre post).
      * destruct IHsplit as [<-|[rest Hrest]]; [by left|].
        right. exists rest. rewrite append_cons. by rewrite <- Hrest.
Qed.

(** X19.  The summary both generators give an operation is the first
    line of the handler's documentation: it contains no newline, and
    the documentation is the summary itself or the summary, a newline
    and a rest.  [swagger.py] gives no summary for no documentation. *)
Theorem X19_summary_is_the_first_line (doc : string) :
  Swagger.get_summary (Some doc) = Some (HugSwagger.get_summary doc)
  ∧ Swagger.get_summary None = None
  ∧ str_in newline (HugSwagger.get_summary doc) = false
  ∧ (doc = HugSwagger.get_summary doc
     ∨ ∃ rest, doc = HugSwagger.get_summary doc +:+ newline +:+ rest).
Proof.
  split; [done|]. split; [done|].
  destruct (first_line_spec doc) as [Hno Hsplit]. split; [|done].
  destruct (str_in newline (HugSwagger.get_summary doc)) eqn:Hin; [|done].
  apply str_in_spec in Hin as (pre & post & Hin). by apply Hno in Hin.
Qed.

(** ** Running the parameter classifiers again *)

Lemma omap_pointwise {A B} (f g : A → option B) (xs : list A) :
  (∀ x, f x = g x) → omap f xs = omap g xs.
Proof.
  intros H. induction xs as [|x xs IH]; [done|].
  unfold omap in *. simpl. by rewrite H, IH.
Qed.

(** X20.  [get_parameters] assigns attributes of the field objects,
    but what it returns does not depend on them: called again for the
    same handler and url in the store the first call left, either
    generator returns the same parameters. *)
Theorem X20_get_parameters_is_repeatable
    (conv_swagger : string → field → string → string → gmap string pyval)
    (conv_hug : field → string → string → gmap string pyval)
    (v url : string) (interface : Interface) (st : state) :
  parameters_declared interface (i_parameters interface) →
  fields_closed (st_fields st) (i_signature interface) →
  (∃ ps st1 st2,
     Swagger.get_parameters conv_swagger v interface url st = Ok ps st1
     ∧ Swagger.get_parameters conv_swagger v interface url st1 = Ok ps st2)
  ∧ ∃ ps st1 st2,
      HugSwagger.get_parameters conv_hug url interface st = Ok ps st1
      ∧ HugSwagger.get_parameters conv_hug url interface st1 = Ok ps st2.
Proof.
  intros Hdecl Hclosed. split.
  - set (st1 := foldl (SwaggerSpec.after url) st (i_signature interface)).
    assert (Hcore : same_core (st_fields st1) (st_fields st)).
    { apply foldl_after_same_core. by intros l. }
    exists (omap (SwaggerSpec.described conv_swagger v url (st_fields st))
              (i_signature interface)), st1,
      (foldl (SwaggerSpec.after url) st1 (i_signature interface)).
    split; [by apply get_parameters_described|].
    rewrite (get_parameters_described conv_swagger v url interface st1
               (fields_closed_same_core _ _ _ Hclosed Hcore)).
    f_equal. apply omap_pointwise. intros p.
    by apply described_same_core.
  - set (st1 := foldl (HugSpec.after url interface) st (i_parameters interface)).
    assert (Hkind : same_kind (st_fields st1) (st_fields st)).
    { apply hug_foldl_after_same_kind, same_kind_refl. }
    assert (Hclosed1 : fields_closed (st_fields st1) (i_signature interface)).
    { intros p l Hp Hann. destruct (Hclosed p l Hp Hann) as [f Hf].
      destruct (same_kind_lookup _ _ l f Hkind Hf) as (f' & Hf' & _). by exists f'. }
    exists (omap (HugSpec.described conv_hug url interface (st_fields st))
              (i_parameters interface)), st1,
      (foldl (HugSpec.after url interface) st1 (i_parameters interface)).
    split; [by apply hug_get_parameters_described|].
    rewrite (hug_get_parameters_described conv_hug url interface st1 Hdecl Hclosed1).
    f_equal. apply omap_pointwise. intros name.
    by apply hug_described_same_kind.
Qed.

Lemma X20_get_parameters_is_repeatable_witness :
  ∃ ps st1 st2,
    HugSwagger.get_parameters Samples.field2parameter Samples.listing_url
      Samples.listing_handler Samples.listing_store = Ok ps st1
    ∧ HugSwagger.get_parameters Samples.field2parameter Samples.listing_url
        Samples.listing_handler st1 = Ok ps st2.
Proof.
  apply (X20_get_parameters_is_repeatable Samples.OpenAPIConverter
           Samples.field2parameter "3.0.2" Samples.listing_url Samples.listing_handler
           Samples.listing_store listing_declared listing_closed).
Defined.

(** ** [generate_spec] as a function of the route table *)

Lemma spec_eq (s s' : APISpec.t) :
  APISpec.title s = APISpec.title s' →
  APISpec.version s = APISpec.version s' →
  APISpec.openapi_version s = APISpec.openapi_version s' →
  APISpec.options s = APISpec.options s' →
  APISpec.paths s = APISpec.paths s' →
  APISpec.schemas s = APISpec.schemas s' →
  s = s'.
Proof. destruct s, s'. simpl. by intros -> -> -> -> -> ->. Qed.

Lemma foldl_pointwise {A B} (f g : A → B → A) (xs : list B) :
  (∀ a x, f a x = g a x) → ∀ a, foldl f a xs = foldl g a xs.
Proof.
  intros H. induction xs as [|x xs IH]; intros a; [done|].
  simpl. by rewrite H, IH.
Qed.

Lemma foldl_map {A B C} (f : A → C → A) (h : B → C) (xs : list B) :
  ∀ a, foldl f a (map h xs) = foldl (fun a x => f a (h x)) a xs.
Proof. induction xs as [|x xs IH]; intros a; [done|]. simpl. by rewrite IH. Qed.

Lemma foldl_flat_map {A B C} (f : A → C → A) (h : B → list C) (xs : list B) :
  ∀ a, foldl f a (flat_map h xs) = foldl (fun a x => foldl f a (h x)) a xs.
Proof.
  induction xs as [|x xs IH]; intros a; [done|].
  simpl. by rewrite foldl_app, IH.
Qed.

(** A loop whose steps return, keep an invariant and act on the
    document builder as the function [G] does, acts on it as the fold
    of [G]. *)
Lemma for_each_fold {A} (I : state → Prop) (G : APISpec.t → A → APISpec.t)
    (body : unit → A → M unit) (xs : list A) :
  (∀ x st, x ∈ xs → I st →
     ∃ st', body tt x st = Ok tt st' ∧ I st' ∧ st_spec st' = G (st_spec st) x) →
  ∀ st, I st →
    ∃ st', for_each body xs tt st = Ok tt st' ∧ I st'
           ∧ st_spec st' = foldl G (st_spec st) xs.
Proof.
  induction xs as [|x xs IH]; intros Hstep st HI.
  - by exists st.
  - destruct (Hstep x st (list_elem_of_here _ _) HI) as (st1 & Hrun1 & HI1 & Hspec1).
    destruct (IH (fun y s Hy => Hstep y s (list_elem_of_further _ _ _ Hy)) st1 HI1)
      as (st' & Hrun & HI' & Hspec).
    exists st'. split; [by rewrite for_each_cons, Hrun1|]. split; [done|].
    simpl. by rewrite <- Hspec1.
Qed.

Lemma swagger_document_interface_exact
    (conv : string → field → string → string → gmap string pyval)
    (refused_path : string → string → string → option exn)
    (v url method : string) (versions : versions_key) (interface : Interface)
    (st : state) (h0 : gmap loc field) :
  same_core (st_fields st) h0 →
  fields_closed h0 (i_signature interface) →
  refused_path v url (lower method) = None →
  ∃ st', Swagger.document_interface conv refused_path v url method interface st
         = Ok tt st'
         ∧ same_core (st_fields st') h0
         ∧ st_spec st'
           = swagger_spec_step conv v h0 (st_spec st) (url, method, versions, interface).
Proof.
  intros Hcore Hclosed Haccepted.
  rewrite (swagger_document_interface_spec conv refused_path v url method interface st h0
             Hcore Hclosed Haccepted).
  destruct (after_unchanged url (i_signature interface) st)
    as (_ & _ & Ht & Hv & Ho & Hopt & Hp).
  pose proof (after_schemas url (i_signature interface) st) as Hs.
  eexists. split; [reflexivity|]. split; [by apply foldl_after_same_core|].
  simpl. f_equal. by apply spec_eq.
Qed.

Lemma swagger_routes_exact
    (conv : string → field → string → string → gmap string pyval)
    (refused_path : string → string → string → option exn)
    (v : string) (routes : route_table) (h0 : gmap loc field) (st : state) :
  routes_closed h0 routes →
  routes_accepted refused_path v routes →
  same_core (st_fields st) h0 →
  ∃ st',
    for_each (fun _ '(url, route) =>
      for_each (fun _ '(method, versioned_interfaces) =>
        for_each (fun _ '(versions, interface) =>
          Swagger.document_interface conv refused_path v url method interface)
          versioned_interfaces tt)
        route tt)
      routes tt st = Ok tt st'
    ∧ same_core (st_fields st') h0
    ∧ st_spec st' = foldl (swagger_spec_step conv v h0) (st_spec st) (route_entries routes).
Proof.
  intros Hclosed Haccepted HI. unfold route_entries. rewrite foldl_flat_map.
  apply (for_each_fold (fun s => same_core (st_fields s) h0)
           (fun spec (x : string * list (string * list (versions_key * Interface))) =>
              foldl (swagger_spec_step conv v h0) spec
                (let '(url, route) := x in
                 flat_map (fun '(method, versioned_interfaces) =>
                   map (fun '(versions, interface) => (url, method, versions, interface))
                     versioned_interfaces) route))); [|done].
  intros [url route] s Hroute HIs. rewrite foldl_flat_map.
  apply (for_each_fold (fun s => same_core (st_fields s) h0)
           (fun spec (x : string * list (versions_key * Interface)) =>
              foldl (swagger_spec_step conv v h0) spec
                (let '(method, versioned_interfaces) := x in
                 map (fun '(versions, interface) => (url, method, versions, interface))
                   versioned_interfaces))); [|done].
  intros [method vis] s1 Hmethod HIs1. rewrite foldl_map.
  apply (for_each_fold (fun s => same_core (st_fields s) h0)
           (fun spec (x : versions_key * Interface) =>
              swagger_spec_step conv v h0 spec
                (let '(versions, interface) := x in (url, method, versions, interface))));
    [|done].
  intros [versions interface] s2 Hv HIs2.
  assert (Hin : (url, method, versions, interface) ∈ route_entries routes).
  { apply elem_of_route_entries. by exists route, vis. }
  apply swagger_document_interface_exact; [done| |].
  - by apply (Hclosed url method versions interface).
  - by apply (Haccepted url method versions interface).
Qed.

(** X21.  [generate_spec] is repeatable.  When apispec accepts the
    OpenAPI version and the url and method of every entry of the route
    table, generating again, in the store the first run left, returns
    the same document: what the first run changes, the [metadata] of
    the field objects, the second run sets again before reading
    it. *)
Theorem X21_generate_spec_is_repeatable
    (conv : string → field → string → string → gmap string pyval)
    (refused_version : string → option exn)
    (refused_path : string → string → string → option exn)
    (hug_api : API) (title : string) (version : option string)
    (openapi_version host : string) (schemes : list string)
    (options : gmap string pyval) (routes : route_table) (st : state) :
  refused_version openapi_version = None →
  dict_get "" (http_routes hug_api) = Some routes →
  routes_closed (st_fields st) routes →
  routes_accepted refused_path openapi_version routes →
  ∃ doc st' st'',
    Swagger.generate_spec conv refused_version refused_path hug_api title version
      openapi_version host schemes options st = Ok doc st'
    ∧ Swagger.generate_spec conv refused_version refused_path hug_api title version
        openapi_version host schemes options st' = Ok doc st''.
Proof.
  intros Hversion Hbase Hclosed Haccepted.
  assert (Hrun : ∀ s, same_core (st_fields s) (st_fields st) →
            ∃ s', Swagger.generate_spec conv refused_version refused_path hug_api title
                    version openapi_version host schemes options s
                  = Ok (swagger_document conv title version openapi_version host schemes
                          options (st_fields st) routes) s'
                  ∧ same_core (st_fields s') (st_fields st)).
  { intros s Hcore.
    set (options' := <["schemes" := PyStrs schemes]> (<["host" := PyStr host]> options)).
    set (s0 := with_spec (APISpec.new title version openapi_version options') s).
    destruct (swagger_routes_exact conv refused_path openapi_version routes
                (st_fields st) s0 Hclosed Haccepted Hcore)
      as (s' & Hloops & Hcore' & Hspec).
    exists s'. split; [|done].
    unfold Swagger.generate_spec, Swagger.new_spec, bind. rewrite Hversion.
    unfold put_spec.
    destruct (http_routes hug_api) as [|r rs] eqn:Hroutes; [done|].
    rewrite Hbase. fold options'. fold s0. rewrite Hloops.
    unfold get_spec, ret, swagger_document. by rewrite Hspec. }
  destruct (Hrun st) as (st' & Hrun1 & Hcore1); [by intros l|].
  destruct (Hrun st' Hcore1) as (st'' & Hrun2 & _).
  by eexists _, st', st''.
Qed.

Lemma X21_generate_spec_is_repeatable_witness :
  ∃ doc st' st'',
    Swagger.generate_spec Samples.OpenAPIConverter Samples.refused_version
      Samples.refused_path users_api "Users" (Some "1.0") "3.0.2" "localhost:8000"
      ["https"] ∅ Samples.listing_store = Ok doc st'
    ∧ Swagger.generate_spec Samples.OpenAPIConverter Samples.refused_version
        Samples.refused_path users_api "Users" (Some "1.0") "3.0.2" "localhost:8000"
        ["https"] ∅ st' = Ok doc st''.
Proof.
  apply (X21_generate_spec_is_repeatable Samples.OpenAPIConverter
           Samples.refused_version Samples.refused_path users_api
           "Users" (Some "1.0") "3.0.2" "localhost:8000" ["https"] ∅ _
           Samples.listing_store eq_refl eq_refl users_routes_closed
           users_routes_accepted).
Defined.

(** ** Versions of one route *)

(** X22.  Two versions of one url are registered under different
    paths, unless both are false ([None] or [0]) and the url is left
    as it is for both: the operations of different versions of a
    route do not replace each other. *)
Theorem X22_versions_have_paths_of_their_own (url : string) (v1 v2 : version) :
  v1 ≠ v2 →
  ¬ (v1 ∈ [None; Some 0] ∧ v2 ∈ [None; Some 0]) →
  HugSwagger.versioned_url v1 url ≠ HugSwagger.versioned_url v2 url.
Proof.
  assert (Hlen : ∀ z : Z, "/v" +:+ pretty z +:+ url ≠ url).
  { intros z H. apply (f_equal String.length) in H.
    rewrite !length_append in H. simpl in H. lia. }
  assert (Hfalse : ∀ v : version, v ∈ [None; Some 0] ↔ v = None ∨ v = Some 0).
  { intros v. rewrite elem_of_cons, list_elem_of_singleton. done. }
  intros Hne Hboth Heq. apply Hboth. rewrite !Hfalse. clear Hfalse Hboth.
  unfold HugSwagger.versioned_url in Heq.
  destruct v1 as [z1|], v2 as [z2|]; repeat case_bool_decide; subst;
    try (by auto); try (by apply Hlen in Heq); try (symmetry in Heq; by apply Hlen in Heq).
  exfalso. apply Hne. f_equal.
  rewrite !append_cons, !append_nil_l in Heq. injection Heq as Heq.
  by apply append_cancel_r, (inj pretty) in Heq.
Qed.

Lemma X22_versions_have_paths_of_their_own_witness :
  HugSwagger.versioned_url (Some 1) "/ping" ≠ HugSwagger.versioned_url (Some 2) "/ping".
Proof.
  apply (X22_versions_have_paths_of_their_own "/ping" (Some 1) (Some 2)).
  - intros [=].
  - intros [H _]. apply elem_of_cons in H as [[=]|H].
    apply list_elem_of_singleton in H. by injection H.
Defined.

(** ** Stacks of decorators *)

Lemma elem_of_dict_set_values {K V : Type} `{EqDecision K} (k : K) (v v' : V)
    (d : list (K * V)) :
  v' ∈ map snd (dict_set k v d) → v' = v ∨ v' ∈ map snd d.
Proof.
  intros H. apply list_elem_of_fmap in H as ([k0 v0] & -> & Hin).
  apply elem_of_dict_set in Hin as [[= -> ->]|Hin]; [by left|].
  right. by apply (list_elem_of_fmap_2 snd) in Hin.
Qed.

Lemma dict_set_values_NoDup {K V : Type} `{EqDecision K} (k : K) (v : V)
    (d : list (K * V)) :
  NoDup (map snd d) → v ∉ map snd d → NoDup (map snd (dict_set k v d)).
Proof.
  induction d as [|[k0 v0] d IH]; simpl; intros Hnd Hv.
  - apply NoDup_singleton.
  - apply NoDup_cons in Hnd as [Hv0 Hnd]. apply not_elem_of_cons in Hv as [Hne Hv].
    case_decide; simpl.
    + apply NoDup_cons. by split.
    + apply NoDup_cons. split; [|by apply IH].
      intros Hin. apply elem_of_dict_set_values in Hin as [?|?]; [congruence | done].
Qed.

(** Attaching a new dictionary for a status code keeps the mapping
    well attached. *)
Lemma well_attached_set (st st' : state) (rs : list (Z * loc)) (code : Z)
    (d : gmap string pyval) :
  well_attached st rs →
  st_dicts st' = <[fresh (dom (st_dicts st)) := d]> (st_dicts st) →
  well_attached st' (dict_set code (fresh (dom (st_dicts st))) rs).
Proof.
  intros (Hclosed & Hkeys & Hlocs) Hst'. split; [|split].
  - intros c l Hin. rewrite Hst'.
    apply elem_of_dict_set in Hin as [[= -> ->]|Hin]; [by rewrite lookup_insert_eq|].
    destruct (Hclosed c l Hin) as [d0 Hd0]. exists d0.
    rewrite lookup_insert_ne; [done|]. intros <-. by rewrite fresh_dict in Hd0.
  - by apply dict_set_NoDup.
  - apply dict_set_values_NoDup; [done|]. intros Hin.
    apply list_elem_of_fmap in Hin as ([c l] & Hl & Hin). simpl in Hl. subst l.
    destruct (Hclosed c _ Hin) as [d0 Hd0]. by rewrite fresh_dict in Hd0.
Qed.

Lemma response_codes_well_attached (codes : list Z) :
  ∀ (rs : list (Z * loc)) (st : state),
  well_attached st rs →
  ∃ rs' st',
    for_each (fun responses code =>
                let* l := new_dict ∅ in ret (dict_set code l responses))
      codes rs st = Ok rs' st'
    ∧ well_attached st' rs' ∧ dicts_extend st st'
    ∧ st_fields st' = st_fields st.
Proof.
  induction codes as [|c codes IH]; intros rs st Hwell.
  - exists rs, st. split; [done|]. split; [done|]. split; [apply dicts_extend_refl|done].
  - rewrite for_each_cons. unfold bind at 1, new_dict at 1, ret at 1.
    set (st1 := with_dicts (<[fresh (dom (st_dicts st)) := ∅]> (st_dicts st)) st).
    destruct (IH _ st1 (well_attached_set st st1 rs c ∅ Hwell eq_refl))
      as (rs' & st' & Hrun & Hwell' & Hext & Hf).
    exists rs', st'. split; [done|]. split; [done|]. split; [|done].
    eapply dicts_extend_trans; [|exact Hext]. by eapply dicts_extend_fresh.
Qed.

Lemma decorate_well_attached (d : decoration) (handler : Interface) (st : state) :
  well_attached st (default [] (i_swagger_responses handler)) →
  ∃ handler' st',
    decorate handler d st = Ok handler' st'
    ∧ well_attached st' (default [] (i_swagger_responses handler'))
    ∧ dicts_extend st st'
    ∧ st_fields st' = st_fields st
    ∧ i_signature handler' = i_signature handler
    ∧ i_parameters handler' = i_parameters handler
    ∧ i_return_annotation handler' = i_return_annotation handler.
Proof.
  intros Hwell. destruct d as [code schema description|codes]; simpl.
  - rewrite response_exact. eexists _, _. split; [reflexivity|]. simpl.
    split; [by eapply well_attached_set|].
    split; [by eapply dicts_extend_fresh | done].
  - unfold Decorators.response_codes.
    destruct (response_codes_well_attached codes _ st Hwell)
      as (rs' & st' & Hrun & Hwell' & Hext & Hf).
    unfold bind at 1. rewrite Hrun. eexists _, _. split; [reflexivity|]. by simpl.
Qed.

Lemma decorated_well_attached (decorations : list decoration) :
  ∀ (handler : Interface) (st : state),
  well_attached st (default [] (i_swagger_responses handler)) →
  ∃ handler' st',
    decorated decorations handler st = Ok handler' st'
    ∧ well_attached st' (default [] (i_swagger_responses handler'))
    ∧ dicts_extend st st'
    ∧ st_fields st' = st_fields st
    ∧ i_signature handler' = i_signature handler
    ∧ i_parameters handler' = i_parameters handler
    ∧ i_return_annotation handler' = i_return_annotation handler.
Proof.
  unfold decorated.
  induction decorations as [|d decorations IH]; intros handler st Hwell.
  - exists handler, st. split; [done|]. split; [done|].
    split; [apply dicts_extend_refl | done].
  - destruct (decorate_well_attached d handler st Hwell)
      as (h1 & st1 & Hrun1 & Hwell1 & Hext1 & Hf1 & Hs1 & Hp1 & Ha1).
    destruct (IH h1 st1 Hwell1) as (h' & st' & Hrun & Hwell' & Hext & Hf & Hs & Hp & Ha).
    exists h', st'. split; [by rewrite for_each_cons, Hrun1|]. split; [done|].
    split; [by eapply dicts_extend_trans|]. repeat split; congruence.
Qed.

(** X23.  Whatever stack of [response] and [response_codes]
    decorators is put on a function, the result can be documented:
    the decorators return, they change no dictionary that existed and
    nothing of the handler but its attached responses, and they leave
    a mapping whose dictionaries exist, with no status code twice and
    no dictionary shared between two status codes; on such a handler
    [get_operation] returns. *)
Theorem X23_decorated_handlers_can_be_documented (decorations : list decoration)
    (handler : Interface) (use_default_response : bool) (st : state) :
  i_swagger_responses handler = None →
  ∃ handler' st',
    decorated decorations handler st = Ok handler' st'
    ∧ well_attached st' (default [] (i_swagger_responses handler'))
    ∧ dicts_extend st st'
    ∧ i_signature handler' = i_signature handler
    ∧ i_parameters handler' = i_parameters handler
    ∧ i_return_annotation handler' = i_return_annotation handler
    ∧ ∃ responses st'',
        HugSwagger.get_operation handler' use_default_response st' = Ok responses st''.
Proof.
  intros Hplain.
  destruct (decorated_well_attached decorations handler st)
    as (h' & st' & Hrun & Hwell & Hext & _ & Hs & Hp & Ha).
  { rewrite Hplain. split; [|split]; simpl; try apply NoDup_nil_2.
    intros code l Hin. by apply elem_of_nil in Hin. }
  exists h', st'. do 6 (split; [done|]).
  destruct Hwell as (Hclosed & Hkeys & _).
  destruct (get_operation_spec h' use_default_response st' Hclosed Hkeys)
    as (_ & _ & rs & st'' & _ & Hget & _).
  by exists rs, st''.
Qed.

(** [@response(404, description="no such user")
     @response_codes(200, 404)
     def handler()]. *)
Lemma X23_decorated_handlers_can_be_documented_witness :
  ∃ handler' st' responses st'',
    decorated [ResponseCodes [200; 404];
               Response 404 None (Some (PyStr "no such user"))]
      Samples.plain_handler Samples.empty_store = Ok handler' st'
    ∧ HugSwagger.get_operation handler' true st' = Ok responses st''.
Proof.
  destruct (X23_decorated_handlers_can_be_documented
              [ResponseCodes [200; 404];
               Response 404 None (Some (PyStr "no such user"))]
              Samples.plain_handler true Samples.empty_store eq_refl)
    as (h' & st' & Hrun & _ & _ & _ & _ & _ & rs & st'' & Hget).
  by exists h', st', rs, st''.
Defined.

(** ** Running [get_operation] again *)

Lemma dict_get_values_inj {K V : Type} `{EqDecision K} (k1 k2 : K) (v : V)
    (d : list (K * V)) :
  NoDup (map snd d) → dict_get k1 d = Some v → dict_get k2 d = Some v → k1 = k2.
Proof.
  induction d as [|[k0 v0] d IH]; simpl; [done|].
  intros Hnd H1 H2. apply NoDup_cons in Hnd as [Hv0 Hnd].
  destruct (decide (k0 = k1)) as [<-|Hne1], (decide (k0 = k2)) as [<-|Hne2];
    try done.
  - injection H1 as ->. apply dict_get_elem in H2.
    by apply (list_elem_of_fmap_2 snd) in H2.
  - injection H2 as ->. apply dict_get_elem in H1.
    by apply (list_elem_of_fmap_2 snd) in H1.
  - by apply IH.
Qed.

Lemma setdefault_attached (code : Z) (rs : list (Z * loc)) (l : loc) (st : state) :
  dict_get code rs = Some l → HugSwagger.setdefault code rs st = Ok (l, rs) st.
Proof. intros H. unfold HugSwagger.setdefault. by rewrite H. Qed.

Lemma setdefault_missing (code : Z) (rs : list (Z * loc)) (st : state) :
  dict_get code rs = None →
  HugSwagger.setdefault code rs st
  = Ok (fresh (dom (st_dicts st)), dict_set code (fresh (dom (st_dicts st))) rs)
       (with_dicts (<[fresh (dom (st_dicts st)) := ∅]> (st_dicts st)) st).
Proof. intros H. unfold HugSwagger.setdefault. by rewrite H. Qed.

(** The responses [get_operation] declares before its loop, status
    code by status code. *)
Lemma declared_responses_at (interface : Interface) (use_default_response : bool)
    (st : state) :
  let attached := default [] (i_swagger_responses interface) in
  well_attached st attached →
  ∃ rs1 st1,
    HugSwagger.declared_responses interface use_default_response st = Ok rs1 st1
    ∧ (∀ code,
         HugSpec.response_at st1 rs1 code
         = if decide (code = 200)
           then declared_at (i_return_annotation interface) use_default_response
                  (HugSpec.response_at st attached 200)
           else HugSpec.response_at st attached code)
    ∧ (∀ l a d, dict_get 200 attached = Some l →
                i_return_annotation interface = Some a →
                st_dicts st !! l = Some d →
                st_dicts st1 !! l = Some (<["schema" := a]> d)).
Proof.
  intros attached (Hclosed & Hkeys & Hlocs).
  assert (Hother : ∀ st1 l200 d200 code,
            code ≠ 200 →
            dict_get 200 attached = Some l200 →
            st_dicts st1 = <[l200 := d200]> (st_dicts st) →
            HugSpec.response_at st1 attached code = HugSpec.response_at st attached code).
  { intros st1 l200 d200 code Hne H200 Hst1. unfold HugSpec.response_at.
    destruct (dict_get code attached) as [l|] eqn:Hcode; [|done].
    rewrite Hst1, lookup_insert_ne; [done|]. intros <-.
    apply Hne. by apply (dict_get_values_inj code 200 l200 attached). }
  assert (Hnew : ∀ st1 l d code,
            code ≠ 200 →
            st_dicts st !! l = None →
            st_dicts st1 = <[l := d]> (st_dicts st) →
            HugSpec.response_at st1 (dict_set 200 l attached) code
            = HugSpec.response_at st attached code).
  { intros st1 l d code Hne Hl Hst1. unfold HugSpec.response_at.
    rewrite dict_get_set_ne by done.
    destruct (dict_get code attached) as [l'|] eqn:Hcode; [|done].
    rewrite Hst1, lookup_insert_ne; [done|]. intros <-.
    apply dict_get_elem in Hcode. destruct (Hclosed _ _ Hcode) as [d' Hd']. congruence. }
  unfold HugSwagger.declared_responses. fold attached.
  destruct (dict_get 200 attached) as [l200|] eqn:H200.
  - destruct (Hclosed 200 l200 (dict_get_elem _ _ _ H200)) as [d0 Hd0].
    assert (Hat0 : HugSpec.response_at st attached 200 = Some d0).
    { unfold HugSpec.response_at. by rewrite H200. }
    destruct (i_return_annotation interface) as [a|].
    + unfold bind at 1. unfold bind at 1.
      rewrite (setdefault_attached 200 attached l200 st H200).
      unfold bind at 1. rewrite (dict_setitem_spec l200 "schema" a d0 st Hd0).
      unfold ret at 1.
      set (st1 := with_dicts (<[l200 := <["schema" := a]> d0]> (st_dicts st)) st).
      exists attached, st1. split.
      { destruct use_default_response; [|done].
        unfold bind. by rewrite (setdefault_attached 200 attached l200 st1 H200). }
      split.
      * intros code. case_decide as Hcode.
        -- subst code. rewrite Hat0. simpl. unfold HugSpec.response_at.
           rewrite H200. apply lookup_insert_eq.
        -- by apply (Hother st1 l200 (<["schema" := a]> d0)).
      * intros l a' d [= <-] [= <-] Hd. rewrite Hd0 in Hd. injection Hd as <-.
        apply lookup_insert_eq.
    + unfold bind at 1. unfold ret at 1. exists attached, st. split.
      { destruct use_default_response; [|done].
        unfold bind. by rewrite (setdefault_attached 200 attached l200 st H200). }
      split; [|done]. intros code. case_decide as Hcode; [|done].
      subst code. rewrite Hat0. by destruct use_default_response.
  - assert (Hat0 : HugSpec.response_at st attached 200 = None).
    { unfold HugSpec.response_at. by rewrite H200. }
    set (l := fresh (dom (st_dicts st))).
    assert (Hl : st_dicts st !! l = None) by apply fresh_dict.
    destruct (i_return_annotation interface) as [a|].
    + unfold bind at 1. unfold bind at 1.
      rewrite (setdefault_missing 200 attached st H200). fold l.
      set (sta := with_dicts (<[l := ∅]> (st_dicts st)) st).
      unfold bind at 1.
      rewrite (dict_setitem_spec l "schema" a ∅ sta (lookup_insert_eq _ _ _)).
      unfold ret at 1.
      set (st1 := with_dicts (<[l := <["schema" := a]> ∅]> (st_dicts sta)) sta).
      assert (Hst1 : st_dicts st1 = <[l := <["schema" := a]> ∅]> (st_dicts st)).
      { unfold st1, sta. simpl. apply insert_insert_eq. }
      exists (dict_set 200 l attached), st1. split.
      { destruct use_default_response; [|done]. unfold bind.
        by rewrite (setdefault_attached 200 _ l st1 (dict_get_set_eq _ _ _)). }
      split; [|done]. intros code. case_decide as Hcode.
      * subst code. rewrite Hat0. simpl. unfold HugSpec.response_at.
        rewrite dict_get_set_eq, Hst1. apply lookup_insert_eq.
      * by apply (Hnew st1 l (<["schema" := a]> ∅)).
    + unfold bind at 1. unfold ret at 1. destruct use_default_response.
      * unfold bind. rewrite (setdefault_missing 200 attached st H200). fold l.
        set (st1 := with_dicts (<[l := ∅]> (st_dicts st)) st).
        exists (dict_set 200 l attached), st1. split; [done|]. split; [|done].
        intros code. case_decide as Hcode.
        -- subst code. rewrite Hat0. simpl. unfold HugSpec.response_at.
           rewrite dict_get_set_eq. apply lookup_insert_eq.
        -- by apply (Hnew st1 l ∅).
      * exists attached, st. split; [done|]. split; [|done].
        intros code. case_decide as Hcode; [|done]. subst code. by rewrite Hat0.
Qed.

(** The responses [get_operation] returns, status code by status
    code, from the attached ones. *)
Lemma get_operation_at (interface : Interface) (use_default_response : bool)
    (st : state) :
  let attached := default [] (i_swagger_responses interface) in
  well_attached st attached →
  ∃ rs' st',
    HugSwagger.get_operation interface use_default_response st = Ok rs' st'
    ∧ dict_keys rs' = declared_codes interface use_default_response
    ∧ dicts_grow st st'
    ∧ (∀ code,
         HugSpec.response_at st' rs' code
         = HugSpec.resolved
           <$> (if decide (code = 200)
                then declared_at (i_return_annotation interface) use_default_response
                       (HugSpec.response_at st attached 200)
                else HugSpec.response_at st attached code))
    ∧ (∀ l d, st_dicts st !! l = Some d →
              i_return_annotation interface = None ∨ dict_get 200 attached ≠ Some l →
              st_dicts st' !! l = Some d)
    ∧ (∀ l a d, dict_get 200 attached = Some l →
                i_return_annotation interface = Some a →
                st_dicts st !! l = Some d →
                st_dicts st' !! l = Some (<["schema" := a]> d)).
Proof.
  intros attached Hwell. pose proof Hwell as (Hclosed & Hkeys & Hlocs).
  destruct (declared_responses_at interface use_default_response st Hwell)
    as (rs1 & st1 & Hdecl & Hat1 & H200).
  destruct (declared_responses_spec interface use_default_response st Hclosed Hkeys)
    as (rs1' & st1' & Hdecl' & Hc1 & Hnd1 & _).
  fold attached in Hdecl. rewrite Hdecl in Hdecl'. injection Hdecl' as <- <-.
  destruct (resolve_all rs1 st1 Hc1 Hnd1) as (rs' & st' & Hloop & Hext & _ & Hat).
  destruct (get_operation_effects interface use_default_response st Hclosed Hkeys)
    as (rs1' & st1' & rs'' & st'' & _ & Hrun & Hcodes & _ & _ & _ & _ & Hgrow).
  destruct (get_operation_spec interface use_default_response st Hclosed Hkeys)
    as (rs1'' & st1'' & rs''' & st''' & _ & Hrun' & _ & _ & _ & Hkeep).
  assert (Hrun0 : HugSwagger.get_operation interface use_default_response st = Ok rs' st').
  { unfold HugSwagger.get_operation, bind. by rewrite Hdecl. }
  rewrite Hrun0 in Hrun, Hrun'. injection Hrun as <- <-. injection Hrun' as <- <-.
  exists rs', st'. split; [done|]. split; [done|]. split; [done|]. split.
  { intros code. by rewrite Hat, Hat1. }
  split; [done|].
  intros l a d Hl Ha Hd. by apply Hext, (H200 l a d).
Qed.

(** X24.  [get_operation] is repeatable: called again for the same
    handler, in the store the first call left, it returns the same
    status codes with dictionaries of the same content, although the
    first call has written the return annotation into the dictionary
    attached for [200]. *)
Theorem X24_get_operation_is_repeatable (interface : Interface)
    (use_default_response : bool) (st : state) :
  well_attached st (default [] (i_swagger_responses interface)) →
  ∃ rs1 st1 rs2 st2,
    HugSwagger.get_operation interface use_default_response st = Ok rs1 st1
    ∧ HugSwagger.get_operation interface use_default_response st1 = Ok rs2 st2
    ∧ dict_keys rs2 = dict_keys rs1
    ∧ ∀ code, HugSpec.response_at st2 rs2 code = HugSpec.response_at st1 rs1 code.
Proof.
  intros Hwell. pose proof Hwell as (Hclosed & Hkeys & Hlocs).
  destruct (get_operation_at interface use_default_response st Hwell)
    as (rs1 & st1 & Hrun1 & Hcodes1 & Hgrow1 & Hat1 & Hkeep1 & H200).
  assert (Hwell1 : well_attached st1 (default [] (i_swagger_responses interface))).
  { split; [|done]. by eapply responses_closed_grow. }
  destruct (get_operation_at interface use_default_response st1 Hwell1)
    as (rs2 & st2 & Hrun2 & Hcodes2 & _ & Hat2 & _).
  exists rs1, st1, rs2, st2. split; [done|]. split; [done|].
  split; [congruence|]. intros code. rewrite Hat1, Hat2. f_equal.
  remember (default [] (i_swagger_responses interface)) as attached eqn:Hattached.
  assert (Hsame : ∀ code l, dict_get code attached = Some l →
            i_return_annotation interface = None ∨ dict_get 200 attached ≠ Some l →
            HugSpec.response_at st1 attached code = HugSpec.response_at st attached code).
  { intros c l Hc Hother. unfold HugSpec.response_at. rewrite Hc.
    destruct (Hclosed c l (dict_get_elem _ _ _ Hc)) as [d Hd].
    rewrite Hd. by apply Hkeep1. }
  case_decide as Hcode.
  - destruct (dict_get 200 attached) as [l200|] eqn:Hl200.
    + destruct (Hclosed 200 l200 (dict_get_elem _ _ _ Hl200)) as [d0 Hd0].
      destruct (i_return_annotation interface) as [a|] eqn:Hann.
      * unfold HugSpec.response_at.
        rewrite Hl200, Hd0, (H200 l200 a d0 eq_refl eq_refl Hd0).
        simpl. by rewrite insert_insert_eq.
      * by rewrite (Hsame 200 l200 Hl200 (or_introl eq_refl)).
    + unfold HugSpec.response_at. by rewrite Hl200.
  - destruct (dict_get code attached) as [l|] eqn:Hl.
    + apply (Hsame code l Hl). right. intros H200'.
      apply Hcode. by apply (dict_get_values_inj code 200 l attached).
    + unfold HugSpec.response_at. by rewrite Hl.
Qed.

(** The handler decorated with [response(200, description="OK")] and
    annotated [-> UserSchema]. *)
Lemma X24_get_operation_is_repeatable_witness :
  ∃ rs1 st1 rs2 st2,
    HugSwagger.get_operation Samples.annotated_handler true Samples.annotated_store
    = Ok rs1 st1
    ∧ HugSwagger.get_operation Samples.annotated_handler true st1 = Ok rs2 st2
    ∧ ∀ code, HugSpec.response_at st2 rs2 code = HugSpec.response_at st1 rs1 code.
Proof.
  destruct (X24_get_operation_is_repeatable Samples.annotated_handler true
              Samples.annotated_store)
    as (rs1 & st1 & rs2 & st2 & Hrun1 & Hrun2 & _ & Hat).
  - split; [|split]; simpl.
    + intros code l Hin. apply list_elem_of_singleton in Hin as [= -> ->]. by eexists.
    + apply NoDup_singleton.
    + apply NoDup_singleton.
  - by exists rs1, st1, rs2, st2.
Defined.

(** ** Which dictionaries [get_operation] returns *)

Lemma resolve_loop_objects (items : list (Z * loc)) :
  ∀ (rs : list (Z * loc)) (st : state),
  HugSpec.responses_closed st items →
  NoDup (dict_keys items) →
  ∃ rs' st',
    for_each HugSwagger.resolve_response items rs st = Ok rs' st'
    ∧ dicts_extend st st'
    ∧ (∀ code, dict_get code items = None → dict_get code rs' = dict_get code rs)
    ∧ ∀ code l d,
        dict_get code items = Some l → st_dicts st !! l = Some d →
        (d !! "schema" = None → dict_get code rs' = dict_get code rs)
        ∧ (is_Some (d !! "schema") →
           ∃ l', dict_get code rs' = Some l' ∧ st_dicts st !! l' = None).
Proof.
  induction items as [|[code0 l0] items IH]; intros rs st Hitems Hnd.
  - exists rs, st. split; [done|]. split; [apply dicts_extend_refl|]. by split.
  - destruct (Hitems code0 l0 (list_elem_of_here _ _)) as [d0 Hd0].
    destruct (resolve_response_spec rs code0 l0 d0 st Hd0) as (st1 & Hstep & Hd1 & _).
    pose proof (dicts_extend_fresh st st1 _ Hd1) as Hext1.
    set (l' := fresh (dom (st_dicts st))) in *.
    set (rs1 := match d0 !! "schema" with
                | Some _ => dict_set code0 l' rs
                | None => rs
                end) in *.
    change (dict_keys ((code0, l0) :: items)) with (code0 :: dict_keys items) in Hnd.
    apply NoDup_cons in Hnd as [Hnotin Hnd].
    assert (Hitems' : HugSpec.responses_closed st items).
    { intros c l Hin. apply (Hitems c l). by apply list_elem_of_further. }
    destruct (IH rs1 st1 (responses_closed_extend st st1 items Hitems' Hext1) Hnd)
      as (rs' & st' & Hrun & Hext & Hnone & Hsome).
    assert (Hrs1 : ∀ code, code0 ≠ code → dict_get code rs1 = dict_get code rs).
    { intros code Hne. unfold rs1. destruct (d0 !! "schema"); [|done].
      by apply dict_get_set_ne. }
    assert (Hfresh : ∀ l, st_dicts st1 !! l = None → st_dicts st !! l = None).
    { intros l Hl. destruct (st_dicts st !! l) as [d|] eqn:Hd; [|done].
      apply Hext1 in Hd. congruence. }
    exists rs', st'. split; [by rewrite for_each_cons, Hstep|].
    split; [by eapply dicts_extend_trans|]. split.
    + intros code Hcode. simpl in Hcode. case_decide as Hne; [done|].
      rewrite (Hnone code Hcode). by apply Hrs1.
    + intros code l d Hcode Hd. simpl in Hcode. case_decide as Hne.
      * injection Hcode as <-. subst code. rewrite Hd0 in Hd. injection Hd as <-.
        rewrite (Hnone code0 (dict_get_notin _ _ Hnotin)). unfold rs1. split.
        -- by intros ->.
        -- intros [schema Hschema]. rewrite Hschema. exists l'.
           split; [apply dict_get_set_eq | apply fresh_dict].
      * destruct (Hsome code l d Hcode (Hext1 _ _ Hd)) as [Hno Hyes]. split.
        -- intros Hschema. rewrite (Hno Hschema). by apply Hrs1.
        -- intros Hschema. destruct (Hyes Hschema) as (l1 & Hl1 & Hnew).
           exists l1. split; [done | by apply Hfresh].
Qed.

(** X25.  Of the responses [get_operation] has declared, it copies
    those that have a [schema] entry and no other: for such a status
    code the returned mapping refers to a new dictionary, and the
    declared one keeps its content; for a status code whose
    dictionary has no [schema] entry the returned mapping refers to
    the declared dictionary itself, which for an attached response is
    the handler's own. *)
Theorem X25_get_operation_copies_responses_with_a_schema (interface : Interface)
    (use_default_response : bool) (st : state) :
  HugSpec.responses_closed st (default [] (i_swagger_responses interface)) →
  NoDup (dict_keys (default [] (i_swagger_responses interface))) →
  ∃ declared st1 responses st',
    HugSwagger.declared_responses interface use_default_response st = Ok declared st1
    ∧ HugSwagger.get_operation interface use_default_response st = Ok responses st'
    ∧ ∀ code l d,
        dict_get code declared = Some l → st_dicts st1 !! l = Some d →
        st_dicts st' !! l = Some d
        ∧ (d !! "schema" = None → dict_get code responses = Some l)
        ∧ (is_Some (d !! "schema") →
           ∃ l', dict_get code responses = Some l' ∧ st_dicts st1 !! l' = None).
Proof.
  intros Hclosed Hkeys.
  destruct (declared_responses_spec interface use_default_response st Hclosed Hkeys)
    as (rs1 & st1 & Hdecl & Hc1 & Hnd1 & _).
  destruct (resolve_loop_objects rs1 rs1 st1 Hc1 Hnd1)
    as (rs' & st' & Hrun & Hext & _ & Hsome).
  exists rs1, st1, rs', st'. split; [done|]. split.
  { unfold HugSwagger.get_operation, bind. by rewrite Hdecl. }
  intros code l d Hcode Hd. split; [by apply Hext|].
  destruct (Hsome code l d Hcode Hd) as [Hno Hyes]. split; [|done].
  intros Hschema. by rewrite (Hno Hschema).
Qed.

(** [@response(200, description="OK")] without a return annotation:
    the returned mapping holds the attached dictionary itself. *)
Lemma X25_get_operation_copies_responses_with_a_schema_witness :
  ∃ responses st',
    HugSwagger.get_operation
      {| i_signature := []; i_return_annotation := None;
         i_swagger_responses := Some [(200, 0%nat)];
         i_parameters := []; i_defaults := ∅;
         i_documentation := Samples.json_documentation |}
      true Samples.annotated_store = Ok responses st'
    ∧ dict_get 200 responses = Some 0%nat.
Proof.
  destruct (X25_get_operation_copies_responses_with_a_schema
              {| i_signature := []; i_return_annotation := None;
                 i_swagger_responses := Some [(200, 0%nat)];
                 i_parameters := []; i_defaults := ∅;
                 i_documentation := Samples.json_documentation |}
              true Samples.annotated_store)
    as (rs1 & st1 & rs' & st' & Hdecl & Hrun & Hobjects).
  - intros code l Hin. apply list_elem_of_singleton in Hin as [= -> ->]. by eexists.
  - apply NoDup_singleton.
  - exists rs', st'. split; [done|]. injection Hdecl as <- <-.
    by apply (Hobjects 200 0%nat {[ "description" := PyStr "OK" ]}).
Defined.
